(** * Agentic world: the turn engine, its encounter and relationship rules,
      the persistent world and the perception functions.

    A shallow embedding of the Python sources

      - execute-simulation-turn.py           (module [Turn])
      - execute-simulation-turn-with-mcp.py  (module [Mcp])
      - character-interactions.py            (module [Interactions])
      - persistent-world-state.py            (module [Persistent])
      - world-perception-system.py           (module [WorldView])

    Conventions of the embedding.

      - A Python [dict] with a fixed set of keys is a record; a dict
        used as a registry is a [gmap] when only lookups matter and an
        association list when the iteration order is observable.
      - A [Decimal] is a rational ([Q]) and its arithmetic is exact:
        the amounts are taken to be such that no sum or difference needs
        more than the 28 digits of the decimal context.  A [float] is a
        rational that binary64 has: [float_of] rounds to the nearest
        such number, ties to the even mantissa, with the steps of the
        subnormal range; the amounts are taken to be within the range
        of binary64, so that none rounds to [inf].  [decimal_str] is
        [Decimal(str(x))]: the shortest decimal text that reads back as
        the float [x].
      - A JSON object decoded from a reply of the inference service is a
        record of the keys that the code reads, each one [None] when the
        object does not have it, in which case [d[key]] raises
        [KeyError]; a key that is there holds a value of the type that
        the prompt asks for: a text, or a number ([int] or [float])
        where the code computes with it.
      - A method that can raise returns [Py.result]; a method that
        reads or writes [self] is a function of the state.
      - Calls to the [random] module read an explicit supply of draws. *)

From Stdlib Require Import ZArith QArith Qabs Qround Qpower Lqa.
From Stdlib Require Import String Ascii List Bool Lia.
From stdpp Require Import gmap strings list.
Import ListNotations.

Set Warnings "-register-all".

Local Open Scope string_scope.
Local Open Scope Z_scope.

(** ** Python values, exceptions and operators *)

Module Py.

(** The exception classes that the modelled code can raise. *)
Inductive exn : Type :=
| NameError (name : string)
| KeyError (key : string)
| AttributeError (attr : string)
| ValueError (what : string)
| TypeError (what : string)
| ExternalError (what : string).

(** The values that the modelled dicts hold next to each other. *)
Inductive Value : Type :=
| VStr (s : string)
| VNum (n : Z)
| VDec (d : Q)
| VObject (what : string).

(** Outcome of a call: a value, or an exception that propagates. *)
Inductive result (A : Type) : Type :=
| Return (a : A)
| Raise (e : exn).
Arguments Return {A} a.
Arguments Raise {A} e.

Definition bind {A B} (r : result A) (k : A -> result B) : result B :=
  match r with
  | Return a => k a
  | Raise e => Raise e
  end.

Definition returns {A} (r : result A) : bool :=
  match r with Return _ => true | Raise _ => false end.

(** [sub in s] on strings: [sub] occurs in [s] as a contiguous run. *)
Fixpoint contains (sub s : string) : bool :=
  match s with
  | EmptyString => String.prefix sub EmptyString
  | String _ rest => String.prefix sub s || contains sub rest
  end.

(** [x in l] on a list of strings. *)
Definition mem (x : string) (l : list string) : bool :=
  existsb (String.eqb x) l.

(** [d[key]] for a key that the dict may lack. *)
Definition item {A} (key : string) (value : option A) : result A :=
  match value with
  | Some v => Return v
  | None => Raise (KeyError key)
  end.

(** Comparisons of numbers, as booleans. *)
Definition Qleb (x y : Q) : bool := Qle_bool x y.
Definition Qltb (x y : Q) : bool := negb (Qle_bool y x).

(** Decimal digits of a natural number, most significant first. *)
Definition digit (n : Z) : ascii := ascii_of_nat (48 + Z.to_nat n).

Fixpoint digits_from (fuel : nat) (n : Z) (acc : string) : string :=
  match fuel with
  | O => acc
  | S fuel' =>
      let acc' := String (digit (n mod 10)) acc in
      if n / 10 =? 0 then acc' else digits_from fuel' (n / 10) acc'
  end.

Definition str_of_Z (n : Z) : string :=
  digits_from (S (Z.to_nat (Z.log2 n))) n EmptyString.

Definition two_digits (n : Z) : string :=
  String (digit (n / 10)) (String (digit (n mod 10)) EmptyString).

(** Rounding of a non-negative rational to the nearest integer, ties to
    the even one (the rounding of the decimal context). *)
Definition round_half_even (q : Q) : Z :=
  let n := Qnum q in
  let d := Z.pos (Qden q) in
  let k := n / d in
  let r := n mod d in
  match (2 * r ?= d) with
  | Lt => k
  | Gt => k + 1
  | Eq => if Z.even k then k else k + 1
  end.

(** The exponent [e] of a positive rational [q]: [2^e <= q < 2^(e+1)]. *)
Definition binade (q : Q) : Z :=
  let k := Z.log2 (Qnum q) - Z.log2 (Z.pos (Qden q)) in
  if Qle_bool (2 ^ k) q then k else k - 1.

(** The exponent of the last bit of the binary64 numbers around a
    positive rational: 53 bits from [2^-1022] on, steps of [2^-1074]
    below. *)
Definition exponent (q : Q) : Z := Z.max (binade q - 52) (-1074).

(** The binary64 number nearest to a positive rational, ties to the
    even mantissa. *)
Definition float_pos (q : Q) : Q :=
  let e := exponent q in
  (inject_Z (round_half_even (q / 2 ^ e)) * 2 ^ e)%Q.

(** [float(d)] for a Decimal [d], and the value of a float literal. *)
Definition float_of (d : Q) : Q :=
  match Qnum d with
  | Z0 => 0%Q
  | Zpos _ => float_pos d
  | Zneg _ => (- float_pos (- d))%Q
  end.

(** [x - y] and [x * y] on floats: the exact result, rounded. *)
Definition float_sub (x y : Q) : Q := float_of (x - y).
Definition float_mul (x y : Q) : Q := float_of (x * y).

(** The decimal exponent [k] of a positive rational [q]:
    [10^k <= q < 10^(k+1)]. *)
Definition decade (q : Q) : Z :=
  let k := (binade q * 1233) / 4096 in
  if Qle_bool (10 ^ (k + 1)) q then k + 1
  else if Qle_bool (10 ^ k) q then k
  else k - 1.

(** The text of a positive float [x], read as a number: the decimal of
    the fewest significant digits, from [p] digits on, that [float]
    takes back to [x]; of the two decimals of [p] digits next to [x] the
    nearer one is tried first.  Seventeen digits are enough for every
    float. *)
Fixpoint shortest (fuel : nat) (p k : Z) (x : Q) : Q :=
  match fuel with
  | O => x
  | S fuel' =>
      let g := (10 ^ (k - p + 1))%Q in
      let lo := Qfloor (x / g) in
      let near := round_half_even (x / g) in
      let far := if near =? lo then lo + 1 else lo in
      if Qeq_bool (float_of (inject_Z near * g)) x then (inject_Z near * g)%Q
      else if Qeq_bool (float_of (inject_Z far * g)) x then
        (inject_Z far * g)%Q
      else shortest fuel' (p + 1) k x
  end.

(** [Decimal(str(x))] for a float [x]. *)
Definition decimal_str (x : Q) : Q :=
  match Qnum x with
  | Z0 => 0%Q
  | Zpos _ => shortest 17 1 (decade x) x
  | Zneg _ => (- shortest 17 1 (decade (- x)) (- x))%Q
  end.

Arguments float_of : simpl never.
Arguments decimal_str : simpl never.

(** [f"{d:.2f}"] for a Decimal [d]. *)
Definition format_2f (d : Q) : string :=
  let cents := round_half_even (Qabs d * 100)%Q in
  ((if Qltb d 0 then "-" else "")
     ++ str_of_Z (cents / 100) ++ "." ++ two_digits (cents mod 100))%string.

(** A [datetime] is counted in whole minutes; only its hour, its minute
    and the half of the day are ever read. *)
Definition hour_of (t : Z) : Z := (t / 60) mod 24.
Definition minute_of (t : Z) : Z := t mod 60.

(** [t.strftime('%I:%M' + sep + '%p')] *)
Definition strftime_IMp (sep : string) (t : Z) : string :=
  let h := hour_of t in
  let h12 := if h mod 12 =? 0 then 12 else h mod 12 in
  let half := if (h <? 12)%Z then "AM" else "PM" in
  (two_digits h12 ++ ":" ++ two_digits (minute_of t) ++ sep ++ half)%string.

(** [d.get(k)] and [d[k] = v] on a dict kept in insertion order. *)
Fixpoint dict_get {A} (k : string) (d : list (string * A)) : option A :=
  match d with
  | [] => None
  | (k', v) :: rest => if String.eqb k k' then Some v else dict_get k rest
  end.

Fixpoint dict_set {A} (k : string) (v : A) (d : list (string * A))
    : list (string * A) :=
  match d with
  | [] => [(k, v)]
  | (k', v') :: rest =>
      if String.eqb k k' then (k, v) :: rest else (k', v') :: dict_set k v rest
  end.

(** [random.choice(l)], the draw being the index handed out. *)
Definition choice {A} (draw : nat) (l : list A) (default : A) : A :=
  nth (draw mod length l)%nat l default.

(** [t.strftime("%H:%M")] *)
Definition strftime_HM (t : Z) : string :=
  (two_digits (hour_of t) ++ ":" ++ two_digits (minute_of t))%string.

(** Truth value of a string: the empty string is false. *)
Definition truthy (s : string) : bool := negb (String.eqb s EmptyString).

(** [l.remove(x)] for an [x] that is in [l]: the first occurrence goes. *)
Fixpoint remove_first (x : string) (l : list string) : list string :=
  match l with
  | [] => []
  | y :: rest => if String.eqb x y then rest else y :: remove_first x rest
  end.

(** [s.lower()] and [s.replace('_', ' ')] on ASCII text, and [s[:n]]. *)
Definition lower_char (c : ascii) : ascii :=
  let n := nat_of_ascii c in
  if ((65 <=? n) && (n <=? 90))%nat then ascii_of_nat (n + 32) else c.

Fixpoint lower (s : string) : string :=
  match s with
  | EmptyString => EmptyString
  | String c rest => String (lower_char c) (lower rest)
  end.

Fixpoint underscores_to_spaces (s : string) : string :=
  match s with
  | EmptyString => EmptyString
  | String c rest =>
      String (if Ascii.eqb c "_"%char then " "%char else c)
        (underscores_to_spaces rest)
  end.

Definition head_of (n : nat) (s : string) : string := String.substring 0 n s.

(** [s.strip()], for the ASCII white space. *)
Definition is_space (c : ascii) : bool :=
  let n := nat_of_ascii c in
  ((n =? 32) || ((9 <=? n) && (n <=? 13)) || ((28 <=? n) && (n <=? 31)))%nat.

Fixpoint lstrip (s : string) : string :=
  match s with
  | EmptyString => EmptyString
  | String c rest => if is_space c then lstrip rest else s
  end.

Fixpoint rstrip (s : string) : string :=
  match s with
  | EmptyString => EmptyString
  | String c rest =>
      let rest' := rstrip rest in
      if is_space c && String.eqb rest' EmptyString then EmptyString
      else String c rest'
  end.

Definition strip (s : string) : string := rstrip (lstrip s).

(** [s.split(':')[-1]] *)
Fixpoint after_last_colon (s : string) : string :=
  match s with
  | EmptyString => EmptyString
  | String c rest =>
      if contains ":" rest then after_last_colon rest
      else if Ascii.eqb c ":"%char then rest
      else s
  end.

(** [str(l)] for a list of strings that need no escape: each one
    between single quotes, or between double quotes when it holds a
    single quote and no double one. *)
Definition double_quote : string := String (ascii_of_nat 34) EmptyString.

Definition repr (s : string) : string :=
  if contains "'" s && negb (contains double_quote s) then
    (double_quote ++ s ++ double_quote)%string
  else ("'" ++ s ++ "'")%string.

Definition str_of_list (l : list string) : string :=
  ("[" ++ String.concat ", " (map repr l) ++ "]")%string.

(** [l[-n:]]: the last [n] elements of [l], all of [l] when it is
    shorter. *)
Definition last_n {A} (n : nat) (l : list A) : list A :=
  skipn (length l - n) l.

End Py.

Notation "'try!' x <- c ; k" := (Py.bind c (fun x => k))
  (at level 10, x name, c at level 100, k at level 200).

(** ** execute-simulation-turn.py *)

Module Turn.
Import Py.

(** agent['needs'] *)
Record Needs : Type := mkNeeds {
  hunger : Z;
  exhaustion : Z;
  stress : Z
}.

(** One entry of [self.agents]. *)
Record Agent : Type := mkAgent {
  id : string;
  personality : string;
  background : string;
  current_situation : string;
  goals : list string;
  current_state : string;
  location : string;
  money : Q;
  needs : Needs;
  inventory : list string;
  memories : list string
}.

(** A decision, as the fallback provider builds it and as the reply of
    the inference service is expected to have it. *)
Record Decision : Type := mkDecision {
  action : string;
  reasoning : string;
  emotion : string;
  urgency : string
}.

(** Field assignments [agent[k] = v] and [agent['needs'][k] = v]. *)
Definition with_money (m : Q) (a : Agent) : Agent :=
  mkAgent (id a) (personality a) (background a) (current_situation a)
    (goals a) (current_state a) (location a) m (needs a) (inventory a)
    (memories a).

Definition with_location (l : string) (a : Agent) : Agent :=
  mkAgent (id a) (personality a) (background a) (current_situation a)
    (goals a) (current_state a) l (money a) (needs a) (inventory a)
    (memories a).

Definition with_needs (n : Needs) (a : Agent) : Agent :=
  mkAgent (id a) (personality a) (background a) (current_situation a)
    (goals a) (current_state a) (location a) (money a) n (inventory a)
    (memories a).

Definition with_memories (ms : list string) (a : Agent) : Agent :=
  mkAgent (id a) (personality a) (background a) (current_situation a)
    (goals a) (current_state a) (location a) (money a) (needs a)
    (inventory a) ms.

Definition with_hunger (h : Z) (a : Agent) : Agent :=
  with_needs (mkNeeds h (exhaustion (needs a)) (stress (needs a))) a.

Definition with_exhaustion (e : Z) (a : Agent) : Agent :=
  with_needs (mkNeeds (hunger (needs a)) e (stress (needs a))) a.

Definition with_stress (s : Z) (a : Agent) : Agent :=
  with_needs (mkNeeds (hunger (needs a)) (exhaustion (needs a)) s) a.

(** The tier that [execute_action] derives from the money it reads. *)
Inductive Tier : Type := poor | middle | wealthy | ultra_wealthy.

Definition tier_eqb (t u : Tier) : bool :=
  match t, u with
  | poor, poor | middle, middle | wealthy, wealthy
  | ultra_wealthy, ultra_wealthy => true
  | _, _ => false
  end.

Definition action_tier (money : Q) : Tier :=
  if Qleb 1000000 money then ultra_wealthy
  else if Qleb 10000 money then wealthy
  else if Qleb 1000 money then middle
  else poor.

(** The keyword tests of the action taxonomy, in the order of the
    if/elif chain. *)
Definition is_food (action : string) : bool :=
  contains "food" action || contains "lunch" action || contains "eat" action.
Definition is_work (action : string) : bool :=
  contains "work" action || contains "shift" action
  || contains "gig" action || contains "submit" action.
Definition is_rest (action : string) : bool :=
  contains "rest" action || contains "sleep" action || contains "breathe" action.
Definition is_invest (action : string) : bool :=
  contains "investment" action || contains "portfolio" action
  || contains "finance" action.
Definition is_social (action : string) : bool :=
  contains "social" action || contains "network" action.
Definition is_routine (action : string) : bool :=
  contains "routine" action || contains "morning" action.
Definition is_vacation (action : string) : bool :=
  contains "vacation" action || contains "plan" action.
Definition is_ignore (action : string) : bool := contains "ignore" action.
Definition is_post (action : string) : bool :=
  contains "post" action || contains "social_media" action.

(** [execute_action]: the mutation of [agent] and the result text. *)
Definition execute_action (agent_id : string) (agent : Agent)
    (decision : Decision) : string * Agent :=
  let action := action decision in
  let money := float_of (Turn.money agent) in
  (* Determine economic tier for action results *)
  let tier := action_tier money in
  (* Process actions based on what they are *)
  let '(result, agent) :=
    if is_food action then
      match tier with
      | poor =>
          if Qleb 5 (Turn.money agent) then
            let agent := with_money (Turn.money agent - 5)%Q agent in
            let agent := with_hunger (Z.max 0 (hunger (needs agent) - 30)) agent in
            ("Bought dollar menu food, still hungry", agent)
          else
            let agent := with_location "food_bank" agent in
            let agent := with_hunger (Z.max 0 (hunger (needs agent) - 20)) agent in
            ("No money for food, went to food bank", agent)
      | middle =>
          let agent := with_money (Turn.money agent - 15)%Q agent in
          let agent := with_hunger 0 agent in
          ("Had a decent lunch at cafe", agent)
      | _ =>
          let agent := with_money (Turn.money agent - 45)%Q agent in
          let agent := with_hunger 0 agent in
          ("Enjoyed artisanal lunch", agent)
      end
    else if is_work action then
      match tier with
      | poor =>
          let earnings := 6.47%Q in
          let agent := with_money (Turn.money agent + earnings)%Q agent in
          let agent :=
            with_exhaustion (Z.min 100 (exhaustion (needs agent) + 10)) agent in
          ("Worked desperately, earned $6.47", agent)
      | middle =>
          let earnings := 240%Q in
          let agent := with_money (Turn.money agent + earnings)%Q agent in
          ("Completed work day, earned $240", agent)
      | _ =>
          let earnings := 2000%Q in
          let agent := with_money (Turn.money agent + earnings)%Q agent in
          ("Portfolio gained $2000 today", agent)
      end
    else if is_rest action then
      match tier with
      | poor =>
          let agent :=
            with_exhaustion (Z.max 0 (exhaustion (needs agent) - 15)) agent in
          let agent := with_stress (Z.max 0 (stress (needs agent) - 10)) agent in
          ("Rested on bench, still tired", agent)
      | _ =>
          let agent := with_exhaustion 0 agent in
          let agent := with_stress (Z.max 0 (stress (needs agent) - 20)) agent in
          ("Relaxed comfortably", agent)
      end
    else if is_invest action then
      match tier with
      | wealthy | ultra_wealthy =>
          (* 0.2% daily return *)
          let gains := decimal_str (float_mul money (float_of 0.002)) in
          let agent := with_money (Turn.money agent + gains)%Q agent in
          ("Investment returns: $" ++ format_2f gains, agent)
      | middle =>
          let gains := 5%Q in
          let agent := with_money (Turn.money agent + gains)%Q agent in
          ("401k contribution saved $5", agent)
      | poor => ("No money to invest", agent)
      end
    else if is_social action then
      match tier with
      | wealthy | ultra_wealthy =>
          let agent := with_money (Turn.money agent - 50)%Q agent in
          ("Networked at exclusive venue, new opportunities", agent)
      | _ => ("No access to networking events", agent)
      end
    else if is_routine action then
      match tier with
      | wealthy | ultra_wealthy =>
          let agent := with_exhaustion 0 agent in
          let agent := with_stress 0 agent in
          ("Completed morning wellness routine", agent)
      | _ => ("No time for routines, need to survive", agent)
      end
    else if is_vacation action then
      match tier with
      | ultra_wealthy =>
          let agent := with_money (Turn.money agent - 10000)%Q agent in
          ("Booked $10,000 vacation package", agent)
      | _ => ("Can only dream of vacations", agent)
      end
    else if is_ignore action then
      ("Successfully ignored suffering around me", agent)
    else if is_post action then
      match tier with
      | ultra_wealthy => ("Posted about gratitude, gained 10K likes", agent)
      | _ => ("No time for social media, too busy surviving", agent)
      end
    else
      (* Default actions *)
      match tier with
      | poor => ("Struggled to survive another moment", agent)
      | middle => ("Maintained middle class stability", agent)
      | _ => ("Continued accumulating wealth", agent)
      end in
  (* Update stress based on urgency and tier *)
  let agent :=
    if String.eqb (urgency decision) "immediate" then
      with_stress (Z.min 100 (stress (needs agent) + 10)) agent
    else if String.eqb (urgency decision) "low" then
      with_stress (Z.max 0 (stress (needs agent) - 5)) agent
    else agent in
  (* Wealthy people's needs naturally decrease *)
  let agent :=
    match tier with
    | wealthy | ultra_wealthy =>
        let agent := with_hunger (Z.max 0 (hunger (needs agent) - 5)) agent in
        let agent :=
          with_exhaustion (Z.max 0 (exhaustion (needs agent) - 5)) agent in
        with_stress (Z.max 0 (stress (needs agent) - 5)) agent
    | _ => agent
    end in
  (result, agent).

(** [update_needs]: the drift of the needs after every action. *)
Definition update_needs (agent : Agent) : Agent :=
  if Qltb (Turn.money agent) 100 then
    (* Increase needs for poor agents *)
    let agent := with_hunger (Z.min 100 (hunger (needs agent) + 5)) agent in
    let agent := with_exhaustion (Z.min 100 (exhaustion (needs agent) + 3)) agent in
    with_stress (Z.min 100 (stress (needs agent) + 2)) agent
  else
    (* Wealthy agents have needs met *)
    let agent := with_hunger (Z.max 0 (hunger (needs agent) - 5)) agent in
    let agent := with_exhaustion (Z.max 0 (exhaustion (needs agent) - 10)) agent in
    with_stress (Z.max 0 (stress (needs agent) - 5)) agent.

(** One entry of [world_state['locations']]; a key that the dict does
    not have is [None]. *)
Record LocationData : Type := mkLocationData {
  occupants : option (list string);
  resources : option (list string);
  atmosphere : option string;
  security_level : option string;
  entry_cost : option Z;
  wait_time : option Z;
  access : option string;
  always_open : option bool
}.

(** The empty dict [{}]. *)
Definition no_location_data : LocationData :=
  mkLocationData None None None None None None None None.

Record WorldState : Type := mkWorldState {
  worldId : string;
  ws_turn_number : Z;
  ws_world_time : Z;
  locations : list (string * LocationData);
  weather : option string;
  events : list string
}.

(** The attributes of an [AIAgentSimulation]. *)
Record Sim : Type := mkSim {
  use_bedrock : bool;
  verbose : bool;
  world_state : WorldState;
  agents : list (string * Agent);
  turn_number : Z;
  world_time : Z
}.

(** [initialize_world_state], at the clock reading [now]. *)
Definition initialize_world_state (now : Z) : WorldState :=
  let place occ res atm sec cost wait acc open :=
    mkLocationData (Some occ) (Some res) (Some atm) sec cost wait acc open in
  mkWorldState "main" 0 now
    [ ("public_library",
       place [] ["wifi"; "power_outlets"; "water_fountain"] "tense"
         (Some "high") None None None None);
      ("coffee_shop",
       place [] ["wifi"; "coffee"; "food"] "busy" None (Some 5) None None None);
      ("food_bank",
       place [] ["free_food"] "desperate" None None (Some 45) None None);
      ("tech_office",
       place [] ["high_speed_internet"; "free_food"; "gym"] "productive"
         None None None (Some "employees_only") None);
      ("hospital",
       place [] ["vending_machines"] "exhausting" None None None None
         (Some true));
      ("luxury_apartment",
       place [] ["everything"] "comfortable" None None None
         (Some "residents_only") None) ]
    (Some "cold") [].

(** [get_default_agents] *)
Definition alex_chen : Agent :=
  mkAgent "alex_chen" "Exhausted writer, talented but desperate"
    "28yo writer, couchsurfing, 2 weeks until kicked out"
    "Writing at library for wifi"
    ["Finish article"; "Find food"; "Avoid eviction"]
    "exhausted" "public_library" 53.09%Q (mkNeeds 75 85 90)
    ["old_laptop"; "water_bottle"] [].

Definition jamie_rodriguez : Agent :=
  mkAgent "jamie_rodriguez" "Film PA/barista, optimistic but wearing down"
    "26yo, part-time barista, dreams of directing"
    "Working coffee shift before film gig"
    ["Get into film union"; "Pay rent"; "Make connections"]
    "hopeful_but_tired" "coffee_shop" 43%Q (mkNeeds 60 70 75)
    ["apron"; "phone"] [].

Definition get_default_agents : list (string * Agent) :=
  [("alex_chen", alex_chen); ("jamie_rodriguez", jamie_rodriguez)].

(** perception['my_state'] *)
Record MyState : Type := mkMyState {
  my_money : Q;
  my_hunger : Z;
  my_exhaustion : Z;
  my_stress : Z;
  my_inventory : list string
}.

(** The dict that [get_agent_perception] returns. *)
Record Perception : Type := mkPerception {
  p_location : string;
  location_data : LocationData;
  others_present : list string;
  p_time : string;
  p_weather : string;
  my_state : MyState;
  threats : list string;
  opportunities : list string
}.

Definition when {A} (b : bool) (x : A) : list A := if b then [x] else [].

(** [identify_threats] *)
Definition identify_threats (agent : Agent) (location_data : LocationData)
    : list string :=
  when (match security_level location_data with
        | Some level => String.eqb level "high"
        | None => false
        end) "security_watching"
  ++ when (80 <? hunger (needs agent)) "starvation_imminent"
  ++ when (90 <? exhaustion (needs agent)) "collapse_risk"
  ++ when (Qltb (money agent) 20) "cannot_afford_food".

(** [identify_opportunities] *)
Definition identify_opportunities (agent : Agent)
    (location_data : LocationData) : list string :=
  let resources := default [] (resources location_data) in
  when (mem "wifi" resources) "submit_gig_work"
  ++ when (mem "free_food" resources) "get_food"
  ++ when (mem "water_fountain" resources) "drink_water".

(** [get_agent_perception].  The method receives two mutable objects,
    [agent] and [self]; both come back with the perception, as the call
    leaves them. *)
Definition get_agent_perception (agent_id : string) (agent : Agent)
    (self : Sim) : Perception * (Agent * Sim) :=
  let location := location agent in
  let location_data :=
    default no_location_data
      (dict_get location (locations (world_state self))) in
  (* Get other agents in same location *)
  let others_here :=
    map fst
      (List.filter
         (fun entry : string * Agent =>
            String.eqb (Turn.location (snd entry)) location
            && negb (String.eqb (fst entry) agent_id))
         (agents self)) in
  let my_state :=
    mkMyState (float_of (money agent)) (hunger (needs agent))
      (exhaustion (needs agent)) (stress (needs agent)) (inventory agent) in
  let time := strftime_IMp " " (world_time self) in
  let weather := default "mild" (weather (world_state self)) in
  (* Add economic tier-specific perceptions *)
  let perception :=
    if Qltb (money agent) 100 then
      mkPerception location location_data others_here time weather my_state
        (identify_threats agent location_data)
        (identify_opportunities agent location_data)
    else
      mkPerception location location_data others_here time weather my_state
        [] ["everything_available"] in
  (perception, (agent, self)).

(** The names bound at module level when a method body runs: the
    imports, the two clients, the three table names, the class and
    [main].  A name that a function body reads without binding it is
    looked up here (no builtin is called [tier]). *)
Definition module_globals : list (string * Value) :=
  [ ("json", VObject "module"); ("boto3", VObject "module");
    ("argparse", VObject "module"); ("datetime", VObject "class");
    ("timedelta", VObject "class"); ("Decimal", VObject "class");
    ("Dict", VObject "typing"); ("List", VObject "typing");
    ("Optional", VObject "typing"); ("os", VObject "module");
    ("time", VObject "module"); ("bedrock_runtime", VObject "client");
    ("dynamodb", VObject "resource");
    ("AGENTS_TABLE", VStr "agentic-demo-agent-contexts");
    ("WORLD_TABLE", VStr "agentic-demo-world-state");
    ("MEMORIES_TABLE", VStr "agentic-demo-character-memories");
    ("AIAgentSimulation", VObject "class"); ("main", VObject "function") ].

Definition load_global (name : string) : result Value :=
  match dict_get name module_globals with
  | Some v => Return v
  | None => Raise (NameError name)
  end.

(** [v == 'text'] *)
Definition is_str (v : Value) (text : string) : bool :=
  match v with
  | VStr s => String.eqb s text
  | _ => false
  end.

(** [get_simulated_decision].  The body reads the name [tier], which
    the function neither receives nor binds; [pick] is the draw of its
    [random.choice]. *)
Definition get_simulated_decision (self : Sim) (pick : nat)
    (agent_id : string) (agent : Agent) (perception : Perception)
    : result Decision :=
  (* Poor character decisions based on needs *)
  try! tier <- load_global "tier";
  if is_str tier "poor" then
    if 80 <? hunger (needs agent) then
      Return (mkDecision "search_for_food"
                "Desperately hungry, need food now" "desperate" "immediate")
    else if 90 <? exhaustion (needs agent) then
      Return (mkDecision "find_place_to_rest"
                "About to collapse from exhaustion" "exhausted" "high")
    else if 85 <? stress (needs agent) then
      Return (mkDecision "take_moment_to_breathe"
                "Stress overwhelming, need to calm down" "anxious" "high")
    else if mem "wifi" (opportunities perception) then
      Return (mkDecision "submit_gig_work"
                "Have wifi access, can submit work for money" "determined"
                "high")
    else if String.eqb (location agent) "public_library" then
      Return (mkDecision "continue_working" "Using free wifi to find work"
                "focused" "medium")
    else if String.eqb (location agent) "coffee_shop" then
      Return (mkDecision "work_shift" "Need to earn tips" "tired" "high")
    else
      Return (mkDecision "look_for_resources" "Searching for any opportunity"
                "desperate" "medium")
  (* Middle class decisions *)
  else if is_str tier "middle" then
    if 60 <? hunger (needs agent) then
      Return (mkDecision "buy_lunch" "Getting hungry, time for food"
                "content" "medium")
    else if String.eqb (location agent) "tech_office" then
      Return (mkDecision "work_on_project" "Need to maintain job performance"
                "focused" "medium")
    else
      Return (mkDecision "manage_finances" "Checking budget and investments"
                "calculating" "low")
  (* Wealthy decisions *)
  else if is_str tier "wealthy" then
    let hour := hour_of (world_time self) in
    if hour <? 10 then
      Return (mkDecision "morning_routine"
                "Starting day with exercise and meditation" "energized" "low")
    else if hour <? 17 then
      Return (mkDecision "check_investments"
                "Monitoring portfolio performance" "confident" "low")
    else
      Return (mkDecision "network_socially"
                "Building connections over drinks" "social" "low")
  (* Ultra wealthy decisions *)
  else
    let review :=
      mkDecision "review_portfolio" "Checking on multiple income streams"
        "satisfied" "low" in
    let activities :=
      [ review;
        mkDecision "plan_vacation" "Deciding between Aspen and St. Barts"
          "bored" "low";
        mkDecision "ignore_problems"
          "Other people's struggles aren't my concern" "indifferent" "none";
        mkDecision "post_on_social_media" "Sharing my blessed life"
          "performative" "low" ] in
    (* Pick random activity for variety *)
    Return (choice pick activities review).

(** The dict that [get_ai_decision] hands to [execute_turn]: a JSON
    object as it was decoded, of which the turn reads four keys. *)
Record Decoded : Type := mkDecoded {
  d_action : option string;
  d_reasoning : option string;
  d_emotion : option string;
  d_urgency : option string
}.

(** A dict that has the four keys. *)
Definition complete (decision : Decision) : Decoded :=
  mkDecoded (Some (action decision)) (Some (reasoning decision))
    (Some (emotion decision)) (Some (urgency decision)).

(** What the [try] block of [get_ai_decision] can come to: the call,
    the read of the body or [json.loads] raised; or the text held no
    braces; or a JSON object was decoded, with whatever keys it has. *)
Inductive Reply : Type :=
| ReplyRaises (e : exn)
| ReplyNoJson
| ReplyJson (decoded : Decoded).

(** [get_ai_decision] *)
Definition get_ai_decision (self : Sim) (reply : Reply) (pick : nat)
    (agent_id : string) (agent : Agent) (perception : Perception)
    : result Decoded :=
  if negb (use_bedrock self) then
    try! decision <- get_simulated_decision self pick agent_id agent perception;
    Return (complete decision)
  else
    match reply with
    | ReplyJson decoded => Return decoded
    | ReplyNoJson =>
        Return
          (complete
             (mkDecision "wait" "Could not parse AI response" "confused"
                "low"))
    | ReplyRaises e =>
        (* except Exception as e: *)
        try! decision <-
          get_simulated_decision self pick agent_id agent perception;
        Return (complete decision)
    end.

(** What lies outside the process: whether the writes to the three
    tables go through, and the rows of the memories table. *)
Record Tables : Type := mkTables {
  agent_writes_ok : bool;
  memory_writes_ok : bool;
  world_writes_ok : bool;
  character_memories : gmap string (list string)
}.

(** [save_memories]: the row keeps the last 30 entries; a failed write
    is reported and dropped. *)
Definition save_memories (tables : Tables) (agent_id : string)
    (memories : list string) : Tables :=
  if memory_writes_ok tables then
    mkTables (agent_writes_ok tables) (memory_writes_ok tables)
      (world_writes_ok tables)
      (<[agent_id := last_n 30 memories]> (character_memories tables))
  else tables.

(** [save_agent_state]: the update of the agent row, then the memories;
    when the first write raises, the handler skips the second. *)
Definition save_agent_state (tables : Tables) (agent_id : string)
    (agent : Agent) : Tables :=
  if agent_writes_ok tables then
    save_memories tables agent_id (memories agent)
  else tables.

(** [determine_encounter_type] *)
Definition wealth_level (agent : Agent) : string :=
  if Qltb (money agent) 100 then "poor"
  else if Qltb (money agent) 10000 then "middle"
  else "wealthy".

Fixpoint wealth_levels (agents : list (string * Agent))
    (agent_ids : list string) : result (list string) :=
  match agent_ids with
  | [] => Return []
  | agent_id :: rest =>
      match dict_get agent_id agents with
      | None => Raise (KeyError agent_id)
      | Some agent =>
          try! levels <- wealth_levels agents rest;
          Return (wealth_level agent :: levels)
      end
  end.

Definition determine_encounter_type (self : Sim) (agent_ids : list string)
    : result string :=
  try! levels <- wealth_levels (agents self) agent_ids;
  if forallb (fun w => String.eqb w "poor") levels then Return "solidarity"
  else if mem "poor" levels && mem "wealthy" levels then
    Return "class_collision"
  else Return "neutral".

Record Encounter : Type := mkEncounter {
  e_location : string;
  participants : list string;
  e_type : string
}.

(** [check_encounters] *)
Fixpoint encounters_at (self : Sim) (places : list (string * LocationData))
    : result (list Encounter) :=
  match places with
  | [] => Return []
  | (location, _) :: rest =>
      let agents_here :=
        map fst
          (List.filter
             (fun entry : string * Agent =>
                String.eqb (Turn.location (snd entry)) location)
             (agents self)) in
      if (1 <? length agents_here)%nat then
        try! type <- determine_encounter_type self agents_here;
        try! others <- encounters_at self rest;
        Return (mkEncounter location agents_here type :: others)
      else encounters_at self rest
  end.

Definition check_encounters (self : Sim) : result (list Encounter) :=
  encounters_at self (locations (world_state self)).

(** Assignments to the attributes of [self]. *)
Definition with_agents (ags : list (string * Agent)) (self : Sim) : Sim :=
  mkSim (use_bedrock self) (verbose self) (world_state self) ags
    (turn_number self) (world_time self).

Definition with_turn_number (n : Z) (self : Sim) : Sim :=
  mkSim (use_bedrock self) (verbose self) (world_state self) (agents self) n
    (world_time self).

Definition with_world_time (t : Z) (self : Sim) : Sim :=
  mkSim (use_bedrock self) (verbose self) (world_state self) (agents self)
    (turn_number self) t.

(** [save_world_state]: the two keys are written into the dict before
    the write to the table is tried. *)
Definition save_world_state (self : Sim) : Sim :=
  let ws := world_state self in
  mkSim (use_bedrock self) (verbose self)
    (mkWorldState (worldId ws) (turn_number self) (world_time self)
       (locations ws) (weather ws) (events ws))
    (agents self) (turn_number self) (world_time self).

(** [print_summary]: nothing is kept of it but the exception of [min]
    over no agent. *)
Definition print_summary (self : Sim) : result unit :=
  match agents self with
  | [] => Raise (ValueError "min() arg is an empty sequence")
  | _ :: _ => Return tt
  end.

(** What one turn receives from outside: for each agent, the outcome
    of the inference call and the draw of [random.choice]. *)
Record Outside : Type := mkOutside {
  reply_for : string -> Reply;
  pick_for : string -> nat
}.

(** The body of the loop of [execute_turn] for one agent. *)
Definition agent_turn (out : Outside) (agent_id : string)
    (state : Sim * Tables) : result (Sim * Tables) :=
  let '(self, tables) := state in
  match dict_get agent_id (agents self) with
  | None => Return state
  | Some agent =>
      (* Get perception *)
      let '(perception, (agent, self)) :=
        get_agent_perception agent_id agent self in
      (* Get AI decision *)
      try! decoded <-
        get_ai_decision self (reply_for out agent_id) (pick_for out agent_id)
          agent_id agent perception;
      (* The three prints read decision['action'], decision['reasoning']
         and decision['emotion']; execute_action then reads
         decision['action'] again and, after the action, decision['urgency']. *)
      try! act <- item "action" (d_action decoded);
      try! why <- item "reasoning" (d_reasoning decoded);
      try! mood <- item "emotion" (d_emotion decoded);
      try! haste <- item "urgency" (d_urgency decoded);
      let decision := mkDecision act why mood haste in
      (* Execute action *)
      let '(result, agent) := execute_action agent_id agent decision in
      (* Add to memories *)
      let memory :=
        ("[" ++ strftime_IMp "" (world_time self) ++ "] "
           ++ action decision ++ ": " ++ result)%string in
      let agent := with_memories (memories agent ++ [memory]) agent in
      (* Update needs *)
      let agent := update_needs agent in
      let self := with_agents (dict_set agent_id agent (agents self)) self in
      (* Save agent state *)
      let tables := save_agent_state tables agent_id agent in
      Return (self, tables)
  end.

Fixpoint for_each_agent (out : Outside) (agent_ids : list string)
    (state : Sim * Tables) : result (Sim * Tables) :=
  match agent_ids with
  | [] => Return state
  | agent_id :: rest =>
      try! state <- agent_turn out agent_id state;
      for_each_agent out rest state
  end.

(** [execute_turn] *)
Definition execute_turn (out : Outside) (self : Sim) (tables : Tables)
    : result (Sim * Tables) :=
  let self := with_turn_number (turn_number self + 1) self in
  (* Process each agent *)
  try! state <- for_each_agent out (map fst (agents self)) (self, tables);
  let '(self, tables) := state in
  (* Check for encounters *)
  try! encounters <- check_encounters self;
  (* Update world time *)
  let self := with_world_time (world_time self + 30) self in
  (* Save world state *)
  let self := save_world_state self in
  (* Print summary *)
  try! done <- print_summary self;
  Return (self, tables).

(** Every row of the memories table holds at most 30 entries. *)
Definition rows_capped (tables : Tables) : Prop :=
  forall (agent_id : string) (row : list string),
    character_memories tables !! agent_id = Some row ->
    (length row <= 30)%nat.

(** The range of a need, and of the three needs of an agent. *)
Definition need_ok (x : Z) : Prop := 0 <= x <= 100.

Definition needs_ok (n : Needs) : Prop :=
  need_ok (hunger n) /\ need_ok (exhaustion n) /\ need_ok (stress n).

(** One item of the agents table, as the scan returns it; a key that
    the item does not have is [None]. *)
Record Item : Type := mkItem {
  agentId : string;
  item_personality : option string;
  item_background : option string;
  item_current_situation : option string;
  item_goals : option (list string);
  item_current_state : option string;
  item_location : option string;
  item_needs : option Needs;
  item_inventory : option (list string)
}.

(** [load_memories]: the row of the agent, nothing when the table has
    no row or cannot be read. *)
Definition load_memories (reads_ok : bool) (tables : Tables)
    (agent_id : string) : list string :=
  if reads_ok then default [] (character_memories tables !! agent_id) else [].

(** The money and the location that [load_agents] reads off the
    background of an item. *)
Definition starting_point (background : string) : Q * string :=
  if contains "$500K" background || contains "$25M" background
     || contains "trust fund" (lower background)
  then
    ((if contains "trust fund" (lower background) then 25000000 else 500000)%Q,
     "luxury_apartment")
  else if contains "tech" (lower background) || contains "PM" (lower background)
  then (47000%Q, "tech_office")
  else if contains "writer" (lower background)
          || contains "couch" (lower background)
  then (53.09%Q, "public_library")
  else if contains "barista" (lower background)
          || contains "film" (lower background)
  then (43%Q, "coffee_shop")
  else if contains "nurse" (lower background)
          || contains "ICU" (lower background)
  then (340%Q, "hospital")
  else (100%Q, "public_library").

(** The dict that [load_agents] builds for one item. *)
Definition agent_of_item (memories : list string) (item : Item) : Agent :=
  let background := default "" (item_background item) in
  let '(money, location) := starting_point background in
  mkAgent (agentId item)
    (default "" (item_personality item))
    background
    (default "" (item_current_situation item))
    (default [] (item_goals item))
    (default "normal" (item_current_state item))
    (default location (item_location item))
    money
    (default
       (mkNeeds (if Qltb 10000 money then 10 else 75)
          (if Qltb 10000 money then 0 else 85)
          (if Qltb 10000 money then 5 else 90))
       (item_needs item))
    (default [] (item_inventory item))
    memories.

(** [load_agents]: [scan] is what the scan of the agents table gave,
    [None] when it raised. *)
Definition load_agents (scan : option (list Item)) (reads_ok : bool)
    (tables : Tables) : list (string * Agent) :=
  match scan with
  | Some items =>
      fold_left
        (fun agents item =>
           dict_set (agentId item)
             (agent_of_item (load_memories reads_ok tables (agentId item)) item)
             agents)
        items []
  | None =>
      (* Fallback to default agents *)
      get_default_agents
  end.

(** The exception that a call ended with, if it ended with one. *)
Definition raised {A} (r : result A) : option exn :=
  match r with
  | Return _ => None
  | Raise e => Some e
  end.




(** The attributes of the simulation that the loop over the agents
    leaves alone, and the keys of its agents. *)
Definition same_frame (self self' : Sim) : Prop :=
  use_bedrock self' = use_bedrock self
  /\ verbose self' = verbose self
  /\ world_state self' = world_state self
  /\ turn_number self' = turn_number self
  /\ world_time self' = world_time self
  /\ map fst (agents self') = map fst (agents self).

(** What the invariants of the data model ask of one agent. *)
Definition agent_ok (agent : Agent) : Prop :=
  needs_ok (needs agent) /\ (0 <= money agent)%Q.

(** What [load_agents] promises of an entry. *)
Definition loaded_ok (entry : string * Agent) : Prop :=
  id (snd entry) = fst entry
  /\ agent_ok (snd entry)
  /\ (43 <= money (snd entry))%Q
  /\ (length (memories (snd entry)) <= 30)%nat.

End Turn.

(** ** execute-simulation-turn-with-mcp.py *)

Module Mcp.
Import Py.

(** The agents are the dicts of [Turn], with three more keys that the
    functions below do not read. *)
Abbreviation Agent := Turn.Agent.
Abbreviation Perception := Turn.Perception.

(** One entry of [self.relationships]. *)
Record HistoryEntry : Type := mkHistoryEntry {
  timestamp : Z;
  h_location : string
}.

Record Relationship : Type := mkRelationship {
  character1 : string;
  character2 : string;
  trust : Z;
  affinity : Z;
  history : list HistoryEntry;
  type : string
}.

(** The attributes of an [MCPEnabledSimulation] that the two functions
    read or write. *)
Record Sim : Type := mkSim {
  agents : list (string * Agent);
  relationships : gmap string Relationship;
  world_time : Z
}.

(** The rule of [simulate_character_interaction] that names the
    interaction from the money of the two characters, read as floats. *)
Definition interaction_type_of (money1 money2 : Q) : string :=
  if Qltb money1 100 && Qltb money2 100 then "solidarity"
  else if Qltb 10000 (Qabs (float_sub money1 money2)) then "class_tension"
  else if Qltb money1 100 || Qltb money2 100 then "compassion_or_dismissal"
  else "neutral".

(** [update_relationship] *)
Definition relationship_type (trust affinity : Z) (history_length : nat)
    : string :=
  if (30 <? trust) && (30 <? affinity) then "friends"
  else if (15 <? trust) && (15 <? affinity) then "allies"
  else if (trust <? -15) || (affinity <? -15) then "tension"
  else if (1 <? history_length)%nat then "acquaintances"
  else "strangers".

Definition update_relationship (char1 char2 : string) (d_trust d_affinity : Z)
    (self : Sim) : result Sim :=
  let key := (char1 ++ "_" ++ char2)%string in
  let rel :=
    default (mkRelationship char1 char2 0 0 [] "stranger")
      (relationships self !! key) in
  (* Apply changes *)
  let trust := trust rel + d_trust in
  let affinity := affinity rel + d_affinity in
  (* Add to history *)
  match dict_get char1 (agents self) with
  | None => Raise (KeyError char1)
  | Some agent1 =>
      let history :=
        (history rel
           ++ [mkHistoryEntry (world_time self) (Turn.location agent1)])%list in
      (* Update relationship type *)
      let rel :=
        mkRelationship (character1 rel) (character2 rel) trust affinity
          history (relationship_type trust affinity (length history)) in
      Return (mkSim (agents self) (<[key := rel]> (relationships self))
                (world_time self))
  end.

(** In-place changes of one agent of [self.agents]. *)
Definition change_agent (agent_id : string) (f : Agent -> Agent) (self : Sim)
    : Sim :=
  match dict_get agent_id (agents self) with
  | Some a =>
      mkSim (dict_set agent_id (f a) (agents self)) (relationships self)
        (world_time self)
  | None => self
  end.

Definition add_money (delta : Q) (a : Agent) : Agent :=
  Turn.with_money (Turn.money a + delta)%Q a.

Definition add_memory (entry : string) (a : Agent) : Agent :=
  Turn.with_memories (Turn.memories a ++ [entry]) a.

(** [simulate_character_interaction]; [roll] is the draw of its
    [random.random]. *)
Definition simulate_character_interaction (roll : Q)
    (char1_id char2_id location : string) (self : Sim) : result Sim :=
  match dict_get char1_id (agents self), dict_get char2_id (agents self) with
  | None, _ => Raise (KeyError char1_id)
  | _, None => Raise (KeyError char2_id)
  | Some char1, Some char2 =>
      (* Determine interaction type based on economic disparity *)
      let money1 := float_of (Turn.money char1) in
      let money2 := float_of (Turn.money char2) in
      let interaction_type := interaction_type_of money1 money2 in
      (* Generate simple interaction outcome *)
      if String.eqb interaction_type "solidarity" then
        let self :=
          change_agent char1_id
            (add_memory
               ("Found solidarity with " ++ char2_id ++ " at " ++ location))
            self in
        let self :=
          change_agent char2_id
            (add_memory
               ("Found solidarity with " ++ char1_id ++ " at " ++ location))
            self in
        (* Maybe share resources *)
        let self :=
          if Qltb 10 money1 && Qltb money2 5 then
            let self := change_agent char1_id (add_money (- 5)) self in
            change_agent char2_id (add_money 5) self
          else self in
        update_relationship char1_id char2_id 10 10 self
      else if String.eqb interaction_type "class_tension" then
        let self :=
          change_agent char1_id
            (add_memory ("Uncomfortable encounter with " ++ char2_id)) self in
        let self :=
          change_agent char2_id
            (add_memory ("Awkward interaction with " ++ char1_id)) self in
        update_relationship char1_id char2_id (-5) (-10) self
      else if String.eqb interaction_type "compassion_or_dismissal" then
        (* 30% chance of help *)
        if Qltb roll (float_of 0.3) then
          let wealthy := if Qltb money2 money1 then char1_id else char2_id in
          let poor := if Qltb money2 money1 then char2_id else char1_id in
          let self := change_agent wealthy (add_money (- 20)) self in
          let self := change_agent poor (add_money 20) self in
          let self :=
            change_agent wealthy
              (add_memory ("Helped " ++ poor ++ " with $20")) self in
          let self :=
            change_agent poor
              (add_memory ("Received help from " ++ wealthy)) self in
          update_relationship char1_id char2_id 15 10 self
        else update_relationship char1_id char2_id 0 (-2) self
      else update_relationship char1_id char2_id 1 1 self
  end.

(** A candidate of the fallback provider; the chosen one loses its
    weight before it is returned. *)
Record Decision : Type := mkDecision {
  action : string;
  mcp_tool : option string;
  tool_params : list (string * string);
  reasoning : string;
  emotion : string;
  urgency : string;
  weight : option Z
}.

Definition plain (action reasoning emotion urgency : string) (weight : Z)
    : Decision :=
  mkDecision action None [] reasoning emotion urgency (Some weight).

Definition pop_weight (d : Decision) : Decision :=
  mkDecision (action d) (mcp_tool d) (tool_params d) (reasoning d)
    (emotion d) (urgency d) None.

(** [d.get('weight', 10)] *)
Definition weight_of (d : Decision) : Z := default 10 (weight d).

(** The draws of one call of [get_simulated_decision], each named by
    the call of the [random] module that consumes it. *)
Record Draws : Type := mkDraws {
  social_roll : Q;
  other_pick : nat;
  work_pick : nat;
  select_roll : Q
}.

(** Character-specific behaviors *)
Definition character_traits : list (string * list string) :=
  [ ("alex_chen", ["write"; "code"; "blog"; "search_wifi"]);
    ("jamie_rodriguez", ["film"; "coffee"; "network"; "edit_video"]);
    ("ashley_kim", ["manage_project"; "code"; "meeting"; "exercise"]);
    ("victoria_sterling", ["meeting"; "delegate"; "network"; "luxury"]) ].

(** Vary money-making strategies *)
Definition money_actions : list Decision :=
  [ mkDecision "stream_for_donations" (Some "ask_viewers_for_help")
      [("problem", "need money for food"); ("urgency", "high")]
      "Streaming to viewers for support" "hopeful" "high" (Some 60);
    mkDecision "post_crowdfunding_update" (Some "check_crowdfunding") []
      "Checking if anyone donated" "anxious" "medium" (Some 40);
    plain "freelance_gig_search" "Looking for quick freelance work"
      "determined" "high" 50 ].

(** The candidate list that [get_simulated_decision] assembles, in the
    order of its appends. *)
Definition possible_decisions (draws : Draws) (agent_id : string)
    (agent : Agent) (perception : Perception) (self : Sim) : list Decision :=
  (* Get recent memories to avoid repetition *)
  let recent_memories := last_n 5 (Turn.memories agent) in
  let recent_actions :=
    map (fun m => if contains ":" m then strip (after_last_colon m) else m)
      recent_memories in
  (* Time-based variety *)
  let hour := hour_of (world_time self) in
  let is_work_hours := (9 <=? hour) && (hour <=? 17) in
  let is_night := (22 <=? hour) || (hour <=? 5) in
  (* Location awareness *)
  let location := Turn.location agent in
  let others_present := Turn.others_present perception in
  let preferred_actions :=
    default ["work"; "rest"] (dict_get agent_id character_traits) in
  let hunger := Turn.hunger (Turn.needs agent) in
  let exhaustion := Turn.exhaustion (Turn.needs agent) in
  let money := Turn.money agent in
  (* Critical needs first *)
  let for_hunger :=
    if 90 <? hunger then
      [plain "desperately_search_for_food"
         "Starving, must find food immediately" "panicked" "immediate" 100]
    else if 70 <? hunger then
      if Qltb 10 money then
        [plain "buy_cheap_food" "Hungry, buying dollar menu items" "anxious"
           "high" 80]
      else
        [plain "visit_food_bank" "Hungry but broke, seeking free food"
           "ashamed" "high" 80]
    else [] in
  (* Exhaustion-based actions *)
  let for_exhaustion :=
    if 85 <? exhaustion then
      if String.eqb location "public_library" then
        [plain "nap_in_library_corner" "Exhausted, catching a quick nap"
           "exhausted" "high" 70]
      else
        [plain "find_place_to_rest" "Too tired to continue" "drained" "high"
           70]
    else [] in
  (* Money-making actions *)
  let for_money :=
    if Qltb money 50 then
      (* Add money actions not recently done *)
      List.filter
        (fun d => negb (contains (action d) (str_of_list recent_actions)))
        money_actions
    else [] in
  (* Social interactions if others present *)
  let for_company :=
    match others_present with
    | [] => []
    | _ :: _ =>
        if Qltb (social_roll draws) (float_of 0.3) then
          let other := choice (other_pick draws) others_present "" in
          [plain ("interact_with_" ++ other) ("Noticed " ++ other ++ " is here")
             "curious" "low" 30]
        else []
    end in
  (* Time-specific actions *)
  let for_time :=
    if is_night then
      [plain "find_safe_sleeping_spot" "Late night, need somewhere safe"
         "worried" "medium" 40]
    else if is_work_hours then
      let work_action := choice (work_pick draws) preferred_actions "" in
      [plain ("work_on_" ++ work_action)
         ("Work hours, focusing on " ++ work_action) "focused" "medium" 35]
    else [] in
  (* Character-specific actions *)
  let for_character :=
    if String.eqb agent_id "alex_chen" && String.eqb location "public_library"
    then
      [mkDecision "write_blog_post" (Some "post_to_social")
         [("platform", "blog"); ("content", "New post about survival")]
         "Library has wifi, time to write" "creative" "medium" (Some 45)]
    else if String.eqb agent_id "jamie_rodriguez"
            && ((hour =? 5) || (hour =? 6) || (hour =? 7))
    then
      [plain "morning_coffee_shift" "Early morning barista shift" "tired"
         "high" 80]
    else [] in
  let candidates :=
    (for_hunger ++ for_exhaustion ++ for_money ++ for_company ++ for_time
       ++ for_character)%list in
  (* Default action if nothing critical *)
  match candidates with
  | [] =>
      [plain "survive_another_hour" "Just getting through the day" "numb"
         "low" 10]
  | _ :: _ => candidates
  end.

Definition total_weight (candidates : list Decision) : Z :=
  fold_right (fun d acc => weight_of d + acc) 0 candidates.

(** The loop of the weighted selection: the first candidate at which
    the running sum of the weights reaches [rand_val]. *)
Fixpoint first_reaching (rand_val : Q) (current_weight : Z)
    (candidates : list Decision) : option Decision :=
  match candidates with
  | [] => None
  | decision :: rest =>
      let current_weight := current_weight + weight_of decision in
      if Qleb rand_val (inject_Z current_weight) then Some decision
      else first_reaching rand_val current_weight rest
  end.

(** The number that the selection compares with the running sums. *)
Definition rand_val (draws : Draws) (candidates : list Decision) : Q :=
  float_mul (select_roll draws) (inject_Z (total_weight candidates)).

(** The candidate for the agent that is hungry and can pay. *)
Definition buy_cheap_food : Decision :=
  plain "buy_cheap_food" "Hungry, buying dollar menu items" "anxious" "high"
    80.

(** [get_simulated_decision] *)
Definition get_simulated_decision (draws : Draws) (agent_id : string)
    (agent : Agent) (perception : Perception) (self : Sim) : result Decision :=
  let candidates := possible_decisions draws agent_id agent perception self in
  (* Weight-based selection with randomness *)
  match first_reaching (rand_val draws candidates) 0 candidates with
  | Some decision => Return (pop_weight decision)
  | None =>
      (* Fallback *)
      match candidates with
      | decision :: _ => Return (pop_weight decision)
      | [] => Raise (KeyError "0")
      end
  end.

(** The texts that [get_simulated_decision] takes from the last five
    memories: what follows the last colon of each, without the white
    space around it. *)
Definition recent_actions (agent : Agent) : list string :=
  map (fun m => if contains ":" m then strip (after_last_colon m) else m)
    (last_n 5 (Turn.memories agent)).

End Mcp.

(** ** character-interactions.py *)

Module Interactions.
Import Py.

(** One item of the agents table, as [load_agents] keeps it: the keys
    that the interaction code reads may be missing. *)
Record Agent : Type := mkAgent {
  money : option Q;
  memories : option (list string);
  current_state : option string
}.

Record HistoryEntry : Type := mkHistoryEntry {
  timestamp : Z;
  h_type : string;
  h_outcome : string
}.

(** One entry of [self.relationships]. *)
Record Relationship : Type := mkRelationship {
  character1 : string;
  character2 : string;
  trust : Z;
  affinity : Z;
  history : list HistoryEntry;
  type : string
}.

(** The attributes of a [CharacterInteractionSystem]. *)
Record System : Type := mkSystem {
  agents : gmap string Agent;
  relationships : gmap string Relationship
}.

(** [determine_interaction_type]; [pick] is the draw of its
    [random.choice]. *)
Definition determine_interaction_type (pick : nat) (char1 char2 : Agent)
    (location : string) : string :=
  let money1 := float_of (default 100%Q (money char1)) in
  let money2 := float_of (default 100%Q (money char2)) in
  (* Economic disparity interactions *)
  if Qltb 10000 (Qabs (float_sub money1 money2)) then
    if Qltb money1 100 || Qltb money2 100 then "class_tension"
    else "class_disconnect"
  (* Both struggling *)
  else if Qltb money1 100 && Qltb money2 100 then
    let interactions :=
      ["solidarity"; "resource_sharing"; "commiseration"; "collaboration"] in
    choice pick interactions "solidarity"
  (* Professional interactions *)
  else if contains "tech" location || contains "office" location then
    "professional"
  (* Coffee shop interactions *)
  else if contains "coffee" location then "casual_encounter"
  (* Library interactions *)
  else if contains "library" location then
    if Qltb money1 100 || Qltb money2 100 then "quiet_desperation"
    else "intellectual"
  else "neutral".

(** A JSON number, or the number that the fallback writes: an [int],
    or a [float] (a rational that binary64 has). *)
Inductive Number : Type :=
| NInt (z : Z)
| NFloat (x : Q).

(** [Decimal(str(n))] *)
Definition decimal_of (n : Number) : Q :=
  match n with
  | NInt z => inject_Z z
  | NFloat x => decimal_str x
  end.

(** interaction['resource_exchange'], a dict that is not empty. *)
Record Exchange : Type := mkExchange {
  from : option string;
  to : option string;
  amount : option Number
}.

Record Change : Type := mkChange {
  d_trust : option Z;
  d_affinity : option Z
}.

(** An interaction, decoded from the reply of the inference service or
    built by the fallback; the keys read with [get] may be missing. *)
Record Interaction : Type := mkInteraction {
  memory_for_char1 : option string;
  memory_for_char2 : option string;
  resource_exchange : option Exchange;
  relationship_change : option Change;
  emotional_impact : option (list (string * string));
  i_type : option string;
  outcome : option string
}.

(** The label that [update_relationship] derives from the scores and
    the length of the history, by its if/elif chain. *)
Definition relationship_type (trust affinity : Z) (history_length : nat)
    : string :=
  if (50 <? trust) && (50 <? affinity) then "friend"
  else if (30 <? trust) && (30 <? affinity) then "ally"
  else if (trust <? -30) || (affinity <? -30) then "adversary"
  else if (trust <? -50) && (affinity <? -50) then "enemy"
  else if (1 <? history_length)%nat then "acquaintance"
  else "stranger".

(** [update_relationship], at the clock reading [now]. *)
Definition update_relationship (now : Z) (char1 char2 : string)
    (changes : Change) (interaction : Interaction) (self : System) : System :=
  let key := (char1 ++ "_" ++ char2)%string in
  let rel :=
    default (mkRelationship char1 char2 0 0 [] "stranger")
      (relationships self !! key) in
  (* Apply changes *)
  let trust := trust rel + default 0 (d_trust changes) in
  let affinity := affinity rel + default 0 (d_affinity changes) in
  (* Add to history *)
  let history :=
    (history rel
       ++ [mkHistoryEntry now (default "interaction" (i_type interaction))
             (default "unknown" (outcome interaction))])%list in
  (* Update relationship type based on trust and affinity *)
  let rel :=
    mkRelationship (character1 rel) (character2 rel) trust affinity history
      (relationship_type trust affinity (length history)) in
  mkSystem (agents self) (<[key := rel]> (relationships self)).

Definition remember (entry : string) (a : Agent) : Agent :=
  mkAgent (money a) (Some (default [] (memories a) ++ [entry])%list)
    (current_state a).

Definition with_money (m : Q) (a : Agent) : Agent :=
  mkAgent (Some m) (memories a) (current_state a).

Definition with_state (st : string) (a : Agent) : Agent :=
  mkAgent (money a) (memories a) (Some st).

(** [apply_interaction_effects], at the clock reading [now]. *)
Definition apply_interaction_effects (now : Z) (char1_id char2_id : string)
    (interaction : Interaction) (self : System) : result System :=
  let stamp := ("[" ++ strftime_IMp "" now ++ "] ")%string in
  (* Update memories *)
  let ags := agents self in
  try! ags <-
    match ags !! char1_id with
    | Some _ =>
        try! memory <- item "memory_for_char1" (memory_for_char1 interaction);
        Return (alter (remember (stamp ++ memory)) char1_id ags)
    | None => Return ags
    end;
  try! ags <-
    match ags !! char2_id with
    | Some _ =>
        try! memory <- item "memory_for_char2" (memory_for_char2 interaction);
        Return (alter (remember (stamp ++ memory)) char2_id ags)
    | None => Return ags
    end;
  (* Apply resource exchange *)
  try! ags <-
    match resource_exchange interaction with
    | Some exchange =>
        try! giver <- item "from" (from exchange);
        try! receiver <- item "to" (to exchange);
        try! number <- item "amount" (amount exchange);
        let amount := decimal_of number in
        let ags :=
          alter (fun a => with_money (default 100%Q (money a) - amount)%Q a)
            giver ags in
        Return
          (alter (fun a => with_money (default 100%Q (money a) + amount)%Q a)
             receiver ags)
    | None => Return ags
    end;
  (* Update relationship *)
  let rel_change :=
    default (mkChange None None) (relationship_change interaction) in
  let self :=
    update_relationship now char1_id char2_id rel_change interaction
      (mkSystem ags (relationships self)) in
  (* Update emotional states *)
  let emotional_impact := default [] (emotional_impact interaction) in
  let ags := agents self in
  let ags :=
    match dict_get char1_id emotional_impact with
    | Some feeling => alter (with_state feeling) char1_id ags
    | None => ags
    end in
  let ags :=
    match dict_get char2_id emotional_impact with
    | Some feeling => alter (with_state feeling) char2_id ags
    | None => ags
    end in
  Return (mkSystem ags (relationships self)).

(** The money that the system reads for an agent:
    [agent.get('money', Decimal('100'))]. *)
Definition money_read (a : Agent) : Q := default 100%Q (money a).

Definition money_of (agent_id : string) (self : System) : option Q :=
  money_read <$> agents self !! agent_id.

(** The dict that [get_relationship_status] returns: a stored
    relationship, or the four keys of a pair that is not known. *)
Record Status : Type := mkStatus {
  s_characters : option (string * string);
  s_trust : Z;
  s_affinity : Z;
  s_history : list HistoryEntry;
  s_type : string
}.

Definition status_of (rel : Relationship) : Status :=
  mkStatus (Some (character1 rel, character2 rel)) (trust rel) (affinity rel)
    (history rel) (type rel).

(** [get_relationship_status] *)
Definition get_relationship_status (char1 char2 : string) (self : System)
    : Status :=
  let key1 := (char1 ++ "_" ++ char2)%string in
  let key2 := (char2 ++ "_" ++ char1)%string in
  match relationships self !! key1 with
  | Some rel => status_of rel
  | None =>
      match relationships self !! key2 with
      | Some rel => status_of rel
      | None =>
          (* No existing relationship *)
          mkStatus None 0 0 [] "stranger"
      end
  end.

(** The stored type of every relationship is the one that its scores
    and the length of its history give. *)
Definition consistent (rels : gmap string Relationship) : Prop :=
  forall (key : string) (rel : Relationship),
    rels !! key = Some rel ->
    type rel
    = relationship_type (trust rel) (affinity rel) (length (history rel)).

Section FallbackInteraction.

(** [str(x)] for a float [x], left to the host. *)
Variable float_str : Q -> string.

(** [get_fallback_interaction]: the dialogue, and the keys that
    [apply_interaction_effects] reads. *)
Definition get_fallback_interaction (char1_id char2_id : string)
    (interaction_type : string) (self : System)
    : result (list (string * string) * Interaction) :=
  match agents self !! char1_id, agents self !! char2_id with
  | None, _ => Raise (KeyError char1_id)
  | _, None => Raise (KeyError char2_id)
  | Some char1, Some char2 =>
      let money1 := float_of (default 100%Q (money char1)) in
      let money2 := float_of (default 100%Q (money char2)) in
      if String.eqb interaction_type "solidarity" then
        Return
          ([ (char1_id, "Rough day?"); (char2_id, "You know it. You too?");
             (char1_id, "Yeah. We'll get through this.") ],
           mkInteraction (Some ("Found solidarity with " ++ char2_id))
             (Some ("Found solidarity with " ++ char1_id))
             None
             (Some (mkChange (Some 5) (Some 5)))
             (Some
                (dict_set char2_id "slightly less alone"
                   [(char1_id, "slightly less alone")]))
             None (Some "Mutual support and understanding"))
      else if String.eqb interaction_type "class_tension" then
        let wealthy := if Qltb money2 money1 then char1_id else char2_id in
        let poor := if Qltb money2 money1 then char2_id else char1_id in
        Return
          ([ (wealthy, "Excuse me, you're in my way.");
             (poor, "There's plenty of room.");
             (wealthy, "Not for everyone, apparently.") ],
           mkInteraction (Some ("Unpleasant encounter with " ++ char2_id))
             (Some ("Felt dismissed by " ++ char1_id))
             None
             (Some (mkChange (Some (-10)) (Some (-10))))
             (Some
                (dict_set poor "humiliated and angry" [(wealthy, "annoyed")]))
             None (Some "Uncomfortable class-based tension"))
      else if String.eqb interaction_type "resource_sharing" then
        let giver := if Qltb money2 money1 then char1_id else char2_id in
        let receiver := if Qltb money2 money1 then char2_id else char1_id in
        let held := if String.eqb giver char1_id then money1 else money2 in
        (* min(5, held): the int when the float is not below it *)
        let amount := if Qltb held 5 then NFloat held else NInt 5 in
        let amount_text := if Qltb held 5 then float_str held else "5" in
        Return
          ([ (giver, "Hey, you look like you could use this.");
             (receiver, "I... thank you. I'll pay you back.");
             (giver, "Don't worry about it. We look out for each other.") ],
           mkInteraction
             (Some ("Helped " ++ char2_id ++ " when they needed it"))
             (Some (char1_id ++ " showed unexpected kindness"))
             (Some (mkExchange (Some giver) (Some receiver) (Some amount)))
             (Some (mkChange (Some 15) (Some 10)))
             (Some
                (dict_set receiver "grateful but ashamed"
                   [(giver, "generous despite struggles")]))
             None
             (Some (giver ++ " shares $" ++ amount_text ++ " with " ++ receiver)))
      else
        Return
          ([(char1_id, "Hey."); (char2_id, "Hey.")],
           mkInteraction (Some ("Saw " ++ char2_id))
             (Some ("Saw " ++ char1_id))
             None
             (Some (mkChange (Some 1) (Some 0)))
             (Some (dict_set char2_id "neutral" [(char1_id, "neutral")]))
             None (Some "Brief acknowledgment"))
  end.

End FallbackInteraction.

End Interactions.

(** ** persistent-world-state.py *)

Module Persistent.
Import Py.

(** One entry of [state['locations']]. *)
Record Place : Type := mkPlace {
  closing_soon : option bool;
  hiring : option bool;
  always_open : option bool;
  eviction_notices : option (list string);
  occupants : list string
}.

Definition with_occupants (occ : list string) (p : Place) : Place :=
  mkPlace (closing_soon p) (hiring p) (always_open p) (eviction_notices p) occ.

(** [PersistentWorld.state] *)
Record World : Type := mkWorld {
  day : Z;
  time : string;
  locations : gmap string Place;
  rent_strike_participants : list string;
  relationships : list (string * list (string * string));
  community_fund : Z
}.

Definition with_locations (l : gmap string Place) (w : World) : World :=
  mkWorld (day w) (time w) l (rent_strike_participants w) (relationships w)
    (community_fund w).

(** [create_new_world] *)
Definition create_new_world : World :=
  mkWorld 1 "evening"
    (<["library" := mkPlace (Some true) None None None []]>
       (<["coffee_shop" := mkPlace None (Some false) None None []]>
          (<["mcdonalds" := mkPlace None None (Some true) None []]>
             (<["apartment" :=
                  mkPlace None None None (Some ["alex_chen"]) []]> ∅))))
    [] [] 0.

(** [PersistentWorld.update_location].  Each end of the move is guarded
    by a membership test; nothing is raised for an id that the registry
    does not have. *)
Definition update_location (character from_loc to_loc : string)
    (self : World) : result World :=
  let locs := locations self in
  let locs :=
    if truthy from_loc then
      match locs !! from_loc with
      | Some place =>
          if mem character (occupants place) then
            <[from_loc :=
                with_occupants (remove_first character (occupants place))
                  place]> locs
          else locs
      | None => locs
      end
    else locs in
  let locs :=
    if truthy to_loc then
      match locs !! to_loc with
      | Some place =>
          <[to_loc :=
              with_occupants (occupants place ++ [character])%list place]> locs
      | None => locs
      end
    else locs in
  Return (with_locations locs self).

(** The occupants of a place after [update_location]: the character
    leaves the place the move starts from and arrives at the place it
    ends at. *)
Definition occupants_after_move (character from_loc to_loc p : string)
    (occ : list string) : list string :=
  let occ :=
    if String.eqb p from_loc && truthy from_loc
    then remove_first character occ else occ in
  if String.eqb p to_loc && truthy to_loc then occ ++ [character] else occ.

(** [PersistentWorld.add_relationship] *)
Definition add_relationship (char1 char2 relationship_type : string)
    (self : World) : World :=
  let own := default [] (dict_get char1 (relationships self)) in
  mkWorld (day self) (time self) (locations self)
    (rent_strike_participants self)
    (dict_set char1 (dict_set char2 relationship_type own)
       (relationships self))
    (community_fund self).

(** The attributes of a [PersistentCharacter], which are also its row
    in the memories table. *)
Record Character : Type := mkCharacter {
  name : string;
  memories : list string;
  resources : list (string * Value);
  location : string
}.

(** The memories table: whether it can be reached, and its rows. *)
Record Table : Type := mkTable {
  reachable : bool;
  rows : gmap string Character
}.

(** [PersistentCharacter.save].  The numbers among the resources are
    put as [Decimal(str(v))], the same numbers; the table keeps them as
    numbers. *)
Definition save (self : Character) (table : Table) : Table :=
  if reachable table then
    mkTable true (<[name self := self]> (rows table))
  else table.

(** [create_new_character] *)
Definition profile (name : string) : Character :=
  if String.eqb name "alex_chen" then
    mkCharacter name
      ["Got MFA, now $73K in debt"; "Eviction notice posted today"]
      [("money", VNum 47); ("energy", VStr "low"); ("hope", VStr "fading")]
      "library"
  else if String.eqb name "jamie_rodriguez" then
    mkCharacter name
      ["Film degree was a mistake"; "Barista job barely covers rent"]
      [("money", VNum 27); ("energy", VStr "exhausted");
       ("hope", VStr "stubborn")]
      "coffee_shop"
  else if String.eqb name "sarah_kim" then
    mkCharacter name ["PhD doesn't pay bills"; "Teaching at 3 colleges"]
      [("money", VNum 120); ("gas", VStr "quarter_tank");
       ("patience", VStr "gone")]
      "car"
  else
    mkCharacter name ["Just trying to survive"] [("money", VNum 50)] "unknown".

(** A value as the table hands it back: a number that was put comes
    back as a Decimal. *)
Definition from_table (v : Value) : Value :=
  match v with
  | VNum n => VDec (inject_Z n)
  | _ => v
  end.

Definition from_item (row : Character) : Character :=
  mkCharacter (name row) (memories row)
    (map (fun entry => (fst entry, from_table (snd entry))) (resources row))
    (location row).

(** [PersistentCharacter(name)]: the row of the table when there is
    one, a new character from the profiles otherwise. *)
Definition load_or_create (name : string) (table : Table)
    : Character * Table :=
  match (if reachable table then rows table !! name else None) with
  | Some row => (from_item row, table)
  | None => (profile name, save (profile name) table)
  end.

(** The cap of [remember]. *)
Definition memory_cap : nat := 30.

(** The entry that [remember] writes at the clock reading [now]. *)
Definition stamped (entry : Z * string) : string :=
  ("[" ++ strftime_HM (fst entry) ++ "] " ++ snd entry)%string.

(** [PersistentCharacter.remember], at the clock reading [now]. *)
Definition remember (now : Z) (memory : string) (self : Character)
    (table : Table) : Character * Table :=
  let appended := (memories self ++ [stamped (now, memory)])%list in
  (* Keep last 30 memories *)
  let kept :=
    if (memory_cap <? length appended)%nat then tl appended else appended in
  let self := mkCharacter (name self) kept (resources self) (location self) in
  (self, save self table).

(** [remember] called once for each entry of a list, in its order. *)
Fixpoint remember_each (entries : list (Z * string)) (self : Character)
    (table : Table) : Character * Table :=
  match entries with
  | [] => (self, table)
  | (now, memory) :: rest =>
      let '(self, table) := remember now memory self table in
      remember_each rest self table
  end.

(** The dict that [get_ai_decision] hands to [process_action]: a JSON
    object as it was decoded, or the frozen decision; a key that the
    object does not have is [None], and so is a [move_to] of [null]. *)
Record Decision : Type := mkDecision {
  action : option string;
  internal : option string;
  memory : option string;
  affects : option string;
  move_to : option string
}.

(** The attributes of a [StatefulNarrative], with the table it saves to. *)
Record Narrative : Type := mkNarrative {
  world : World;
  characters : list (string * Character);
  table : Table
}.

(** [get_character] *)
Definition get_character (name : string) (self : Narrative)
    : Character * Narrative :=
  match dict_get name (characters self) with
  | Some char => (char, self)
  | None =>
      let '(char, table) := load_or_create name (table self) in
      (char,
       mkNarrative (world self) (characters self ++ [(name, char)])%list table)
  end.

(** The dict that [get_ai_decision] returns when it has no reply. *)
Definition overwhelmed : Decision :=
  mkDecision (Some "Freeze, overwhelmed") (Some "Can't process this")
    (Some "Another crisis") (Some "nothing") None.

(** [json.dumps(v)] returns for a text and for an [int], and raises
    [TypeError] for a Decimal. *)
Definition json_serializable (v : Value) : bool :=
  match v with
  | VStr _ | VNum _ => true
  | VDec _ | VObject _ => false
  end.

(** [json.dumps(char.resources)] returns. *)
Definition resources_dumped (char : Character) : bool :=
  forallb (fun entry => json_serializable (snd entry)) (resources char).

(** [StatefulNarrative.get_ai_decision]; [reply] is the JSON object
    that was decoded, [None] when the call or the decoding raised or the
    text held no JSON.  The prompt, with [json.dumps(char.resources)] in
    it, is built before the [try]. *)
Definition get_ai_decision (character_name : string)
    (reply : option Decision) (self : Narrative)
    : result (Decision * Narrative) :=
  let '(char, self) := get_character character_name self in
  if resources_dumped char then
    match reply with
    | Some decision => Return (decision, self)
    | None => Return (overwhelmed, self)
    end
  else Raise (TypeError "Object of type Decimal is not JSON serializable").

(** A character of [self.characters] after a change in place, with the
    table after its save. *)
Definition put_character (key : string) (char : Character) (table : Table)
    (self : Narrative) : Narrative :=
  mkNarrative (world self) (dict_set key char (characters self)) table.

(** The loop of [process_action] over the other characters that the
    decision tells; [affects] is [decision['affects']]. *)
Fixpoint tell_others (now : Z) (character_name : string)
    (decision : Decision) (affects : string) (others : list string)
    (self : Narrative) : result Narrative :=
  match others with
  | [] => Return self
  | other_name :: rest =>
      try! self <-
        if negb (String.eqb other_name character_name)
           && contains (underscores_to_spaces other_name) affects
        then
          let world :=
            add_relationship character_name other_name "confided_in"
              (world self) in
          let self := mkNarrative world (characters self) (table self) in
          let '(other_char, self) := get_character other_name self in
          try! action <- item "action" (action decision);
          let '(other_char, table) :=
            remember now (character_name ++ " told me: " ++ head_of 50 action)
              other_char (table self) in
          Return (put_character other_name other_char table self)
        else Return self;
      tell_others now character_name decision affects rest self
  end.

(** [StatefulNarrative.process_action] *)
Definition process_action (now : Z) (character_name : string)
    (reply : option Decision) (self : Narrative)
    : result (Decision * Narrative) :=
  let '(char, self) := get_character character_name self in
  try! answer <- get_ai_decision character_name reply self;
  let '(decision, self) := answer in
  (* Update memory (persists to DynamoDB) *)
  try! memory <- item "memory" (memory decision);
  let '(char, table) := remember now memory char (table self) in
  let self := put_character character_name char table self in
  (* Update location if moving *)
  try! self <-
    match move_to decision with
    | Some target =>
        if truthy target then
          try! world <-
            update_location character_name (location char) target (world self);
          let char :=
            mkCharacter (name char) (memories char) (resources char) target in
          let self := mkNarrative world (characters self) (Persistent.table self) in
          Return
            (put_character character_name char
               (save char (Persistent.table self)) self)
        else Return self
    | None => Return self
    end;
  (* Process effects on world *)
  try! affects <- item "affects" (affects decision);
  let self :=
    if contains "rent strike" (lower affects) then
      let w := world self in
      mkNarrative
        (mkWorld (day w) (time w) (locations w)
           (rent_strike_participants w ++ [character_name])%list
           (relationships w)
           (community_fund w))
        (characters self) (Persistent.table self)
    else self in
  try! self <-
    if contains "tells" (lower affects) then
      tell_others now character_name decision affects
        (map fst (characters self)) self
    else Return self;
  Return (decision, self).

End Persistent.

(** ** world-perception-system.py *)

Module WorldView.
Import Py.

(** The dicts and lists of text that the class hands out. *)
Inductive Data : Type :=
| DStr (s : string)
| DList (items : list Data)
| DDict (entries : list (string * Data)).

Definition texts (l : list string) : Data := DList (map DStr l).





(** [describe_character_appearance] *)
Definition appearance (id appearance animation emotional_state : string)
    (held_items : list string) (notable : string) : Data :=
  DDict [ ("id", DStr id); ("appearance", DStr appearance);
          ("animation", DStr animation);
          ("emotional_state", DStr emotional_state);
          ("held_items", texts held_items); ("notable", DStr notable) ].

Definition appearances : list (string * Data) :=
  [ ("alex_chen",
     appearance "alex_chen"
       "Exhausted person in worn hoodie, hunched over old laptop"
       "typing_frantically" "desperate"
       ["cracked_laptop"; "empty_water_bottle"]
       "Dark circles under eyes, slight tremor in hands");
    ("tyler_chen",
     appearance "tyler_chen" "Well-groomed tech worker in Patagonia vest"
       "confident_typing" "satisfied" ["latest_macbook"; "nitro_coldbrew"]
       "Checking phone frequently, probably stocks");
    ("madison_worthington",
     appearance "madison_worthington"
       "Perfectly styled in designer athleisure" "scrolling_instagram"
       "blissfully_unaware" ["iphone_15_pro"; "green_juice"]
       "Takes selfie every few minutes");
    ("maria_gonzalez",
     appearance "maria_gonzalez" "Nurse in faded scrubs, visibly exhausted"
       "waiting_anxiously" "stressed" ["hospital_badge"; "cheap_phone"]
       "Checking time constantly, needs to return to shift") ].

Definition describe_character_appearance (character_id : string) : Data :=
  default
    (DDict [ ("id", DStr character_id); ("appearance", DStr "Another person");
             ("animation", DStr "idle"); ("emotional_state", DStr "unknown") ])
    (dict_get character_id appearances).

(** [get_visible_characters] *)
Definition character_locations : list (string * list string) :=
  [ ("public_library",
     ["alex_chen"; "sarah_kim"; "other_homeless_1"; "student_1"]);
    ("coffee_shop",
     ["jamie_rodriguez"; "tyler_chen"; "customer_1"; "customer_2"]);
    ("food_bank",
     ["alex_chen"; "maria_gonzalez"; "brittany_torres"; "volunteer_1"]);
    ("tech_office", ["tyler_chen"; "ashley_kim"; "coworker_1"; "manager_1"]);
    ("luxury_apartment",
     ["madison_worthington"; "richard_blackstone"; "assistant_1"]) ].

Definition get_visible_characters (location observer_id : string) : Data :=
  let present := default [] (dict_get location character_locations) in
  DList
    (map describe_character_appearance
       (List.filter (fun char_id => negb (String.eqb char_id observer_id))
          present)).







(** [d[key]] for a dict [d], and the entries of a list. *)
Definition field (key : string) (d : Data) : option Data :=
  match d with
  | DDict entries => dict_get key entries
  | _ => None
  end.

Definition items (d : Data) : list Data :=
  match d with
  | DList l => l
  | _ => []
  end.

(** The table of [CharacterEncounter.determine_encounter_type]. *)
Definition char_types : list (string * string) :=
  [ ("alex_chen", "poor"); ("jamie_rodriguez", "poor");
    ("maria_gonzalez", "poor"); ("tyler_chen", "wealthy");
    ("madison_worthington", "ultra_wealthy"); ("ashley_kim", "middle");
    ("sarah_kim", "poor") ].

Definition tier_of (c : string) : string :=
  default "unknown" (dict_get c char_types).

(** [CharacterEncounter.determine_encounter_type] *)
Definition determine_encounter_type (characters : list string) : string :=
  let tiers := map tier_of characters in
  if mem "poor" tiers && mem "ultra_wealthy" tiers then "class_collision"
  else if forallb (fun t => String.eqb t "poor") tiers then "solidarity"
  else if forallb (fun t => mem t ["wealthy"; "ultra_wealthy"]) tiers then
    "networking"
  else "mixed".

(** The dict that [detect_encounter] returns. *)
Record Encounter : Type := mkEncounter {
  e_id : string;
  e_location : string;
  participants : list string;
  e_type : string;
  e_timestamp : string
}.

(** [CharacterEncounter.detect_encounter]; [seconds] and [now] are the
    texts of [datetime.now().timestamp()] and [datetime.now().isoformat()]
    at its two readings of the clock. *)
Definition detect_encounter (seconds now : string) (location : string)
    (characters : list string) : option Encounter :=
  if (length characters <? 2)%nat then None
  else
    (* Calculate social dynamics *)
    Some
      (mkEncounter ("encounter_" ++ seconds) location characters
         (determine_encounter_type characters) now).

End WorldView.

(** ** Sample states *)

Module Samples.
Import Py.

(** The simulation as [__init__] builds it when the tables cannot be
    read, at six in the morning, with the inference service in use. *)
Definition sim0 : Turn.Sim :=
  Turn.mkSim true false (Turn.initialize_world_state 360)
    Turn.get_default_agents 0 360.

Definition tables0 : Turn.Tables := Turn.mkTables true true true ∅.

(** The inference call times out for every agent. *)
Definition timeouts : Turn.Outside :=
  Turn.mkOutside (fun _ => Turn.ReplyRaises (ExternalError "ReadTimeout"))
    (fun _ => 0%nat).

(** The inference call answers with text that holds no JSON object. *)
Definition chatter : Turn.Outside :=
  Turn.mkOutside (fun _ => Turn.ReplyNoJson) (fun _ => 0%nat).

(** The inference call answers every agent with the JSON object that
    has an action and nothing else. *)
Definition only_wait : Turn.Outside :=
  Turn.mkOutside
    (fun _ => Turn.ReplyJson (Turn.mkDecoded (Some "wait") None None None))
    (fun _ => 0%nat).

(** Alex after thirty turns of waiting. *)
Definition veteran : Turn.Agent :=
  Turn.with_memories
    (repeat "[06:00AM] wait: Struggled to survive another moment" 30)
    Turn.alex_chen.

Definition sim30 : Turn.Sim :=
  Turn.mkSim true false (Turn.initialize_world_state 360)
    [("alex_chen", veteran)] 30 360.

(** The state after the step of the loop of [execute_turn] for Alex. *)
Definition after_veteran_turn : Turn.Sim * Turn.Tables :=
  match Turn.agent_turn chatter "alex_chen" (sim30, tables0) with
  | Return state => state
  | Raise _ => (sim30, tables0)
  end.

(** Forty things to remember, one a minute from six in the morning. *)
Definition forty_entries : list (Z * string) :=
  map (fun k => (360 + Z.of_nat k, "Another crisis")) (seq 0 40).

Definition no_table : Persistent.Table := Persistent.mkTable false ∅.

(** Alex and Jamie as items of the agents table. *)
Definition alex_item : Interactions.Agent :=
  Interactions.mkAgent (Some 53.09%Q) (Some []) (Some "exhausted").

Definition jamie_item : Interactions.Agent :=
  Interactions.mkAgent (Some 43%Q) (Some []) (Some "hopeful_but_tired").

Definition system0 : Interactions.System :=
  Interactions.mkSystem
    (<["alex_chen" := alex_item]> (<["jamie_rodriguez" := jamie_item]> ∅)) ∅.

(** A reply of the inference service in which Alex hands Jamie 100,
    and one in which Alex hands Jamie 5. *)
Definition gift (amount : Interactions.Number) : Interactions.Interaction :=
  Interactions.mkInteraction
    (Some "Helped jamie_rodriguez when they needed it")
    (Some "alex_chen showed unexpected kindness")
    (Some
       (Interactions.mkExchange (Some "alex_chen") (Some "jamie_rodriguez")
          (Some amount)))
    (Some (Interactions.mkChange (Some 15) (Some 10)))
    (Some [("alex_chen", "generous despite struggles");
           ("jamie_rodriguez", "grateful but ashamed")])
    None (Some "alex_chen shares with jamie_rodriguez").

(** The system after Alex has handed Jamie 5, at six in the morning. *)
Definition after_gift : Interactions.System :=
  match
    Interactions.apply_interaction_effects 360 "alex_chen" "jamie_rodriguez"
      (gift (Interactions.NInt 5)) system0
  with
  | Return after => after
  | Raise _ => system0
  end.



(** A decision that sends its character to the coffee shop. *)
Definition to_the_cafe : Persistent.Decision :=
  Persistent.mkDecision (Some "Walk to the coffee shop")
    (Some "Maybe they are hiring") (Some "Went to ask about work")
    (Some "nothing") (Some "coffee_shop").

(** An agent with 47 in hand and a hunger of 85, alone at the coffee
    shop at eight in the evening. *)
Definition hungry : Turn.Agent :=
  Turn.mkAgent "sam_ortiz" "" "" "" [] "normal" "coffee_shop" 47%Q
    (Turn.mkNeeds 85 40 50) [] [].

Definition evening : Mcp.Sim := Mcp.mkSim [("sam_ortiz", hungry)] ∅ 1200.

Definition alone : Turn.Perception :=
  Turn.mkPerception "coffee_shop" Turn.no_location_data [] "08:00 PM" "cold"
    (Turn.mkMyState 47%Q 85 40 50 []) [] [].

(** The draws of one call: the selection draws 0.75, or 0.25. *)
Definition high_draw : Mcp.Draws := Mcp.mkDraws 0.5%Q 0 0 0.75%Q.
Definition low_draw : Mcp.Draws := Mcp.mkDraws 0.5%Q 0 0 0.25%Q.

(** The state after one whole turn of the default agents, the
    inference service answering without JSON. *)
Definition after_chatter_turn : Turn.Sim * Turn.Tables :=
  match Turn.execute_turn chatter sim0 tables0 with
  | Return state => state
  | Raise _ => (sim0, tables0)
  end.

(** Two items of the agents table: a writer, and a manager whose
    background says PM. *)
Definition writer_item : Turn.Item :=
  Turn.mkItem "alex_chen" (Some "Exhausted writer, talented but desperate")
    (Some "28yo writer, couchsurfing, 2 weeks until kicked out")
    None None None None None None.

Definition manager_item : Turn.Item :=
  Turn.mkItem "ashley_kim" None (Some "Senior PM at a startup")
    None None None None None None.

(** Alex and Jamie in the simulation with tools, in the evening. *)
Definition pair_evening : Mcp.Sim :=
  Mcp.mkSim
    [("alex_chen", Turn.alex_chen); ("jamie_rodriguez", Turn.jamie_rodriguez)]
    ∅ 1200.

(** An agent with three and a half in hand. *)
Definition broke : Turn.Agent :=
  Turn.mkAgent "dana_wu" "Night cleaner between contracts"
    "34yo, cleans offices, last shift was a week ago"
    "Reading the job board at the library"
    ["Find a shift"; "Eat today"]
    "worn_out" "public_library" 3.5%Q (Turn.mkNeeds 80 70 85)
    ["bus_pass"] [].

(** Alex, Dana and Jamie in the simulation with tools, in the evening. *)
Definition trio_evening : Mcp.Sim :=
  Mcp.mkSim
    [("alex_chen", Turn.alex_chen); ("dana_wu", broke);
     ("jamie_rodriguez", Turn.jamie_rodriguez)]
    ∅ 1200.

(** The hungry agent after a turn spent streaming. *)
Definition streamer : Turn.Agent :=
  Turn.with_memories
    ["Turn 3 at 07:30 PM: stream_for_donations (hopeful) - Struggled to survive another moment. Asked for help with need money for food"]
    hungry.

(** A rendering of floats with two decimals, where the text of a float
    is asked for and not looked at. *)
Definition two_decimals (x : Q) : string := Py.format_2f x.

End Samples.

(** * Properties *)

Local Open Scope list_scope.

(** ** The rounding of floats *)

Section Floats.
Import Py.
Local Open Scope Q_scope.

(** ** Rounding to the nearest integer *)

Lemma round_half_even_compare (q : Q) :
  round_half_even q
  = match (q - inject_Z (Qfloor q)) ?= (1 # 2) with
    | Lt => Qfloor q
    | Gt => (Qfloor q + 1)%Z
    | Eq => if Z.even (Qfloor q) then Qfloor q else (Qfloor q + 1)%Z
    end.
Proof.
  destruct q as [n d]. unfold round_half_even, Qfloor, Qcompare.
  cbn [Qnum Qden Qminus Qplus Qopp inject_Z].
  set (k := (n / Z.pos d)%Z).
  replace ((n * 1 + - k * Z.pos d) * 2)%Z with (2 * (n mod Z.pos d))%Z
    by (subst k; rewrite Z.mod_eq by lia; lia).
  replace (1 * Z.pos (d * 1))%Z with (Z.pos d) by lia.
  reflexivity.
Qed.

Lemma round_half_even_comp (q q' : Q) :
  q == q' -> round_half_even q = round_half_even q'.
Proof.
  intros H. rewrite !round_half_even_compare.
  rewrite (Qfloor_comp _ _ H).
  assert (E : (q - inject_Z (Qfloor q') ?= 1 # 2)
              = (q' - inject_Z (Qfloor q') ?= 1 # 2)).
  { apply Qcompare_comp; [now rewrite H|reflexivity]. }
  now rewrite E.
Qed.

Lemma round_half_even_bounds (q : Q) :
  (Qfloor q <= round_half_even q <= Qfloor q + 1)%Z.
Proof.
  rewrite round_half_even_compare.
  destruct (_ ?= _); [destruct (Z.even _)| |]; lia.
Qed.

Lemma round_half_even_down (q : Q) :
  round_half_even q = Qfloor q -> q <= inject_Z (Qfloor q) + (1 # 2).
Proof.
  rewrite round_half_even_compare.
  destruct (q - inject_Z (Qfloor q) ?= 1 # 2) eqn:E.
  - apply Qeq_alt in E. intros _. lra.
  - rewrite <- Qlt_alt in E. intros _. lra.
  - intros H. lia.
Qed.

Lemma round_half_even_up (q : Q) :
  round_half_even q = (Qfloor q + 1)%Z -> inject_Z (Qfloor q) + (1 # 2) <= q.
Proof.
  rewrite round_half_even_compare.
  destruct (q - inject_Z (Qfloor q) ?= 1 # 2) eqn:E.
  - apply Qeq_alt in E. intros _. lra.
  - intros H. lia.
  - rewrite <- Qgt_alt in E. intros _. lra.
Qed.

Lemma round_half_even_mono (q q' : Q) :
  q <= q' -> (round_half_even q <= round_half_even q')%Z.
Proof.
  intros H.
  pose proof (Qfloor_resp_le _ _ H) as Hfloor.
  pose proof (round_half_even_bounds q) as B.
  pose proof (round_half_even_bounds q') as B'.
  destruct (Z.eq_dec (Qfloor q) (Qfloor q')) as [Efloor|Nfloor]; [|lia].
  destruct (Z.eq_dec (round_half_even q) (Qfloor q)) as [D|U]; [lia|].
  destruct (Z.eq_dec (round_half_even q') (Qfloor q' + 1)%Z) as [U'|D'];
    [lia|].
  assert (Hup : round_half_even q = (Qfloor q + 1)%Z) by lia.
  assert (Hdown : round_half_even q' = Qfloor q') by lia.
  apply round_half_even_up in Hup. apply round_half_even_down in Hdown.
  rewrite <- Efloor in Hdown.
  assert (Heq : q == q') by lra.
  rewrite (round_half_even_comp _ _ Heq). lia.
Qed.

Lemma round_half_even_Z (z : Z) : round_half_even (inject_Z z) = z.
Proof.
  unfold round_half_even, inject_Z. cbn [Qnum Qden].
  rewrite Z.div_1_r, Z.mod_1_r. reflexivity.
Qed.

Lemma round_half_even_ge (z : Z) (q : Q) :
  inject_Z z <= q -> (z <= round_half_even q)%Z.
Proof.
  intros H. rewrite <- (round_half_even_Z z). now apply round_half_even_mono.
Qed.

Lemma round_half_even_le (z : Z) (q : Q) :
  q <= inject_Z z -> (round_half_even q <= z)%Z.
Proof.
  intros H. rewrite <- (round_half_even_Z z). now apply round_half_even_mono.
Qed.

(** ** Powers of two *)

Lemma pow2_pos (e : Z) : 0 < 2 ^ e.
Proof. apply Qpower_0_lt. reflexivity. Qed.

Lemma pow2_add (a b : Z) : 2 ^ (a + b) == 2 ^ a * 2 ^ b.
Proof. apply Qpower_plus. discriminate. Qed.

Lemma pow2_le (a b : Z) : (a <= b)%Z -> 2 ^ a <= 2 ^ b.
Proof. intros H. apply Qpower_le_compat_l; [exact H|discriminate]. Qed.

Lemma pow2_lt_inv (a b : Z) : 2 ^ a < 2 ^ b -> (a < b)%Z.
Proof. intros H. apply (Qpower_lt_compat_l_inv 2); [exact H|reflexivity]. Qed.

Lemma pow2_Z (z : Z) : (0 <= z)%Z -> 2 ^ z == inject_Z (2 ^ z).
Proof.
  intros H. pattern z. apply natlike_ind; [reflexivity| |exact H].
  intros x Hx IH. unfold Z.succ. rewrite pow2_add, IH.
  rewrite Z.pow_add_r by lia. rewrite inject_Z_mult. reflexivity.
Qed.

Lemma binade_spec (q : Q) :
  0 < q -> 2 ^ binade q <= q /\ q < 2 ^ (binade q + 1).
Proof.
  intros Hq. destruct q as [n d].
  assert (Hn : (0 < n)%Z).
  { unfold Qlt in Hq. cbn in Hq. lia. }
  unfold binade. cbn [Qnum Qden].
  set (la := Z.log2 n). set (lb := Z.log2 (Z.pos d)).
  assert (Hla : (2 ^ la <= n < 2 ^ (la + 1))%Z).
  { subst la. pose proof (Z.log2_spec n Hn). unfold Z.succ in *. lia. }
  assert (Hlb : (2 ^ lb <= Z.pos d < 2 ^ (lb + 1))%Z).
  { subst lb. pose proof (Z.log2_spec (Z.pos d) ltac:(lia)).
    unfold Z.succ in *. lia. }
  assert (La : (0 <= la)%Z) by apply Z.log2_nonneg.
  assert (Lb : (0 <= lb)%Z) by apply Z.log2_nonneg.
  assert (Hval : n # d == inject_Z n / inject_Z (Z.pos d)).
  { rewrite Qmake_Qdiv. reflexivity. }
  assert (Hd : 0 < inject_Z (Z.pos d)) by (unfold Qlt; cbn; lia).
  assert (Hlow : 2 ^ (la - lb - 1) < n # d).
  { rewrite Hval. apply Qlt_shift_div_l; [exact Hd|].
    apply Qlt_le_trans with (2 ^ (la - lb - 1) * inject_Z (2 ^ (lb + 1))).
    - apply Qmult_lt_l; [apply pow2_pos|].
      rewrite <- Zlt_Qlt. lia.
    - rewrite <- pow2_Z by lia. rewrite <- pow2_add.
      replace (la - lb - 1 + (lb + 1))%Z with la by lia.
      rewrite pow2_Z by lia. rewrite <- Zle_Qle. lia. }
  assert (Hhigh : n # d < 2 ^ (la - lb + 1)).
  { rewrite Hval. apply Qlt_shift_div_r; [exact Hd|].
    apply Qlt_le_trans with (inject_Z (2 ^ (la + 1))).
    - rewrite <- Zlt_Qlt. lia.
    - rewrite <- pow2_Z by lia.
      replace (la + 1)%Z with (la - lb + 1 + lb)%Z by lia.
      rewrite pow2_add. apply Qmult_le_l; [apply pow2_pos|].
      rewrite pow2_Z by lia. rewrite <- Zle_Qle. lia. }
  destruct (Qle_bool (2 ^ (la - lb)) (n # d)) eqn:E.
  - apply Qle_bool_iff in E. split; [exact E|exact Hhigh].
  - split; [apply Qlt_le_weak; exact Hlow|].
    replace (la - lb - 1 + 1)%Z with (la - lb)%Z by lia.
    apply Qnot_le_lt. intros H. apply Qle_bool_iff in H. congruence.
Qed.

Lemma binade_mono (q q' : Q) :
  0 < q -> q <= q' -> (binade q <= binade q')%Z.
Proof.
  intros Hq H.
  destruct (binade_spec q Hq) as [L _].
  destruct (binade_spec q' ltac:(lra)) as [_ U].
  assert (2 ^ binade q < 2 ^ (binade q' + 1)) by lra.
  apply pow2_lt_inv in H0. lia.
Qed.

(** ** The rounding to binary64 *)

Lemma float_pos_exponent (q : Q) :
  float_pos q = inject_Z (round_half_even (q / 2 ^ exponent q)) * 2 ^ exponent q.
Proof. reflexivity. Qed.

Lemma scaled_lt (q : Q) :
  0 < q -> q / 2 ^ exponent q < inject_Z (2 ^ 53).
Proof.
  intros Hq. destruct (binade_spec q Hq) as [_ U].
  apply Qlt_shift_div_r; [apply pow2_pos|].
  rewrite <- pow2_Z by lia. rewrite <- pow2_add.
  eapply Qlt_le_trans; [exact U|]. apply pow2_le. unfold exponent. lia.
Qed.

Lemma scaled_ge (q : Q) :
  0 < q -> (-1074 < binade q - 52)%Z ->
  inject_Z (2 ^ 52) <= q / 2 ^ exponent q.
Proof.
  intros Hq Hnormal. destruct (binade_spec q Hq) as [L _].
  apply Qle_shift_div_l; [apply pow2_pos|].
  rewrite <- pow2_Z by lia. rewrite <- pow2_add.
  eapply Qle_trans; [|exact L]. apply pow2_le. unfold exponent. lia.
Qed.

Lemma float_pos_mono (q q' : Q) :
  0 < q -> q <= q' -> float_pos q <= float_pos q'.
Proof.
  intros Hq H. assert (Hq' : 0 < q') by lra.
  rewrite !float_pos_exponent.
  pose proof (binade_mono q q' Hq H) as Hb.
  assert (He : (exponent q <= exponent q')%Z) by (unfold exponent; lia).
  destruct (Z.eq_dec (exponent q) (exponent q')) as [Same|Diff].
  - rewrite Same. apply Qmult_le_compat_r; [|apply Qlt_le_weak, pow2_pos].
    rewrite <- Zle_Qle. apply round_half_even_mono.
    apply Qmult_le_compat_r; [exact H|].
    apply Qlt_le_weak, Qinv_lt_0_compat, pow2_pos.
  - assert (Hnormal : (-1074 < binade q' - 52)%Z) by (unfold exponent in *; lia).
    pose proof (scaled_lt q Hq) as U.
    pose proof (scaled_ge q' Hq' Hnormal) as L.
    apply Qlt_le_weak, round_half_even_le in U.
    apply round_half_even_ge in L.
    apply Qle_trans with (inject_Z (2 ^ 53) * 2 ^ exponent q).
    { apply Qmult_le_compat_r; [|apply Qlt_le_weak, pow2_pos].
      now rewrite <- Zle_Qle. }
    apply Qle_trans with (inject_Z (2 ^ 52) * 2 ^ exponent q').
    2:{ apply Qmult_le_compat_r; [|apply Qlt_le_weak, pow2_pos].
        now rewrite <- Zle_Qle. }
    rewrite <- !pow2_Z by lia. rewrite <- !pow2_add. apply pow2_le. lia.
Qed.

Lemma float_pos_nonneg (q : Q) : 0 <= q -> 0 <= float_pos q.
Proof.
  intros Hq. rewrite float_pos_exponent.
  apply Qmult_le_0_compat; [|apply Qlt_le_weak, pow2_pos].
  change 0 with (inject_Z 0). rewrite <- Zle_Qle.
  apply round_half_even_ge. change (inject_Z 0) with 0.
  apply Qmult_le_0_compat; [exact Hq|].
  apply Qlt_le_weak, Qinv_lt_0_compat, pow2_pos.
Qed.

Lemma Qnum_sign (q : Q) :
  match Qnum q with
  | Z0 => q == 0
  | Zpos _ => 0 < q
  | Zneg _ => q < 0
  end.
Proof. destruct q as [[|p|p] d]; unfold Qeq, Qlt; cbn; lia. Qed.

Lemma Qopp_opp (q : Q) : (- - q)%Q = q.
Proof. destruct q as [n d]. unfold Qopp. cbn. now rewrite Z.opp_involutive. Qed.

Lemma float_of_opp (q : Q) : float_of (- q) = (- float_of q)%Q.
Proof.
  destruct q as [[|p|p] d].
  - reflexivity.
  - reflexivity.
  - change (float_of (- (Z.neg p # d))) with (float_pos (Z.pos p # d)).
    change (float_of (Z.neg p # d)) with (- float_pos (Z.pos p # d)).
    now rewrite Qopp_opp.
Qed.

Lemma float_of_nonneg (q : Q) : 0 <= q -> 0 <= float_of q.
Proof.
  intros Hq. unfold float_of. pose proof (Qnum_sign q) as S.
  destruct (Qnum q); [lra|apply float_pos_nonneg; lra|lra].
Qed.

Lemma float_of_nonpos (q : Q) : q <= 0 -> float_of q <= 0.
Proof.
  intros Hq. unfold float_of. pose proof (Qnum_sign q) as S.
  destruct (Qnum q); [lra|lra|].
  assert (0 <= float_pos (- q)) by (apply float_pos_nonneg; lra). lra.
Qed.

(** [float] is monotone: rounding never swaps two numbers. *)
Lemma float_of_mono (q q' : Q) : q <= q' -> float_of q <= float_of q'.
Proof.
  intros H.
  destruct (Qlt_le_dec 0 q) as [Pos|Neg].
  - unfold float_of. pose proof (Qnum_sign q) as S.
    pose proof (Qnum_sign q') as S'.
    destruct (Qnum q); [lra| |lra]. destruct (Qnum q'); [lra| |lra].
    now apply float_pos_mono.
  - destruct (Qlt_le_dec 0 q') as [Pos'|Neg'].
    + apply Qle_trans with 0;
        [now apply float_of_nonpos|apply float_of_nonneg; lra].
    + destruct (Qlt_le_dec q' 0) as [Strict|Zero].
      * unfold float_of. pose proof (Qnum_sign q) as S.
        pose proof (Qnum_sign q') as S'.
        destruct (Qnum q'); [lra|lra|]. destruct (Qnum q); [lra|lra|].
        assert (float_pos (- q') <= float_pos (- q))
          by (apply float_pos_mono; lra).
        lra.
      * apply Qle_trans with 0; [now apply float_of_nonpos|].
        apply float_of_nonneg. lra.
Qed.

(** ** [Decimal(str(x))] *)

Lemma shortest_round_trip (fuel : nat) :
  forall (p k : Z) (x : Q),
    float_of x == x -> float_of (shortest fuel p k x) == x.
Proof.
  induction fuel as [|fuel IH]; intros p k x Hx; [exact Hx|].
  cbn [shortest].
  set (g := 10 ^ (k - p + 1)).
  set (near := inject_Z (round_half_even (x / g)) * g).
  set (far := inject_Z _ * g).
  destruct (Qeq_bool (float_of near) x) eqn:E1; [now apply Qeq_bool_iff|].
  destruct (Qeq_bool (float_of far) x) eqn:E2; [now apply Qeq_bool_iff|].
  now apply IH.
Qed.

Lemma pow10_pos (e : Z) : 0 < 10 ^ e.
Proof. apply Qpower_0_lt. reflexivity. Qed.

Lemma shortest_nonneg (fuel : nat) :
  forall (p k : Z) (x : Q), 0 <= x -> 0 <= shortest fuel p k x.
Proof.
  induction fuel as [|fuel IH]; intros p k x Hx; [exact Hx|].
  cbn [shortest].
  set (g := 10 ^ (k - p + 1)).
  assert (Hg : 0 < g) by apply pow10_pos.
  assert (Hscaled : 0 <= x / g).
  { apply Qmult_le_0_compat; [exact Hx|].
    apply Qlt_le_weak, Qinv_lt_0_compat, Hg. }
  assert (Hfloor : (0 <= Qfloor (x / g))%Z).
  { change 0%Z with (Qfloor 0). now apply Qfloor_resp_le. }
  pose proof (round_half_even_bounds (x / g)) as B.
  set (near := inject_Z (round_half_even (x / g)) * g).
  set (far := inject_Z _ * g).
  destruct (Qeq_bool (float_of near) x).
  { subst near. apply Qmult_le_0_compat; [|lra].
    change 0 with (inject_Z 0). rewrite <- Zle_Qle. lia. }
  destruct (Qeq_bool (float_of far) x); [|now apply IH].
  subst far. apply Qmult_le_0_compat; [|lra].
  change 0 with (inject_Z 0). rewrite <- Zle_Qle.
  destruct (_ =? _)%Z; lia.
Qed.

Lemma float_of_fixed_opp (x : Q) : float_of x == x -> float_of (- x) == - x.
Proof. intros H. rewrite float_of_opp. now rewrite H. Qed.

(** What [str] writes for a float reads back as that float. *)
Lemma decimal_str_round_trip (x : Q) :
  float_of x == x -> float_of (decimal_str x) == x.
Proof.
  intros Hx. unfold decimal_str. pose proof (Qnum_sign x) as S.
  destruct (Qnum x) eqn:E.
  - rewrite S. reflexivity.
  - now apply shortest_round_trip.
  - rewrite float_of_opp.
    rewrite (shortest_round_trip 17 1 _ (- x) (float_of_fixed_opp x Hx)).
    apply Qopp_involutive.
Qed.

Lemma decimal_str_nonneg (x : Q) : 0 <= x -> 0 <= decimal_str x.
Proof.
  intros Hx. unfold decimal_str. pose proof (Qnum_sign x) as S.
  destruct (Qnum x); [lra|now apply shortest_nonneg|lra].
Qed.

(** A number that [float] moves above a float was above it, and one
    that it moves below a float was below it. *)
Lemma float_of_above (c m : Q) : float_of c == c -> c < float_of m -> c < m.
Proof.
  intros Hc H. apply Qnot_le_lt. intros Hle.
  apply float_of_mono in Hle. lra.
Qed.


(** Numbers that are equal as rationals have the same float. *)
Lemma binade_unique (q : Q) (e : Z) :
  2 ^ e <= q -> q < 2 ^ (e + 1) -> binade q = e.
Proof.
  intros L U.
  assert (Hq : 0 < q) by (pose proof (pow2_pos e); lra).
  destruct (binade_spec q Hq) as [L' U'].
  assert (H1 : 2 ^ e < 2 ^ (binade q + 1)) by lra.
  assert (H2 : 2 ^ binade q < 2 ^ (e + 1)) by lra.
  apply pow2_lt_inv in H1, H2. lia.
Qed.

Lemma float_pos_comp (q q' : Q) : 0 < q -> q == q' -> float_pos q = float_pos q'.
Proof.
  intros Hq H.
  assert (Hb : binade q' = binade q).
  { destruct (binade_spec q Hq) as [L U].
    apply binade_unique.
    - eapply Qle_trans; [exact L|]. apply Qle_lteq. right. exact H.
    - eapply Qle_lt_trans; [|exact U]. apply Qle_lteq. right.
      symmetry. exact H. }
  unfold float_pos, exponent. rewrite Hb.
  f_equal. f_equal. apply round_half_even_comp.
  apply Qdiv_comp; [exact H|reflexivity].
Qed.

Lemma float_of_comp (q q' : Q) : q == q' -> float_of q = float_of q'.
Proof.
  intros H. unfold float_of.
  pose proof (Qnum_sign q) as S. pose proof (Qnum_sign q') as S'.
  destruct (Qnum q), (Qnum q'); try reflexivity; try lra.
  - apply float_pos_comp; [exact S|exact H].
  - f_equal. apply float_pos_comp; [lra|]. apply Qopp_comp. exact H.
Qed.





End Floats.

(** ** The embedding on concrete inputs *)

Section Examples.
Import Py.

Example contains_food : contains "food" "search_for_food" = true.
Proof. reflexivity. Qed.

Example contains_eat_in_breathe :
  Turn.is_food "take_moment_to_breathe" = true.
Proof. reflexivity. Qed.

Example format_gains :
  format_2f (decimal_str (float_mul (float_of 47094) (float_of 0.002)))
  = "94.19".
Proof. vm_compute. reflexivity. Qed.

Example six_in_the_morning : strftime_IMp " " 360 = "06:00 AM".
Proof. reflexivity. Qed.

Example noon_and_a_half : strftime_IMp "" 750 = "12:30PM".
Proof. reflexivity. Qed.

Example last_two : last_n 2 ["a"; "b"; "c"] = ["b"; "c"].
Proof. reflexivity. Qed.

Example after_colons :
  strip (after_last_colon "[06:00AM] wait: Struggled on ") = "Struggled on".
Proof. reflexivity. Qed.

(** Alex buys food with 53.09 in hand: 5 leaves, hunger drops by 30,
    and the urgency adds 10 to a stress of 90. *)
Example alex_buys_food :
  let after :=
    snd (Turn.execute_action "alex_chen" Turn.alex_chen
           (Turn.mkDecision "search_for_food" "" "" "immediate")) in
  Turn.money after = 48.09%Q
  /\ Turn.needs after = Turn.mkNeeds 45 85 100
  /\ Turn.location after = "public_library".
Proof. repeat split. Qed.

End Examples.

(** ** The action resolver and the needs *)

Section ResolverNeeds.
Import Py Turn.

Ltac split_ifs :=
  repeat match goal with
         | |- context [if ?b then _ else _] => destruct b
         | |- context [match action_tier ?m with _ => _ end] =>
             destruct (action_tier m)
         end.

Lemma execute_action_needs_ok (agent_id : string) (agent : Agent)
    (decision : Decision) :
  needs_ok (needs agent) ->
  needs_ok (needs (snd (execute_action agent_id agent decision))).
Proof.
  destruct agent as [i p b c g st l m [h e s] inv mem].
  unfold needs_ok, need_ok, execute_action; simpl.
  intros (Hh & He & Hs).
  split_ifs; simpl; lia.
Qed.

Lemma update_needs_ok (agent : Agent) :
  needs_ok (needs agent) -> needs_ok (needs (update_needs agent)).
Proof.
  destruct agent as [i p b c g st l m [h e s] inv mem].
  unfold needs_ok, need_ok, update_needs; simpl.
  intros (Hh & He & Hs).
  split_ifs; simpl; lia.
Qed.

(** C2: an agent whose three needs start in [0,100] has them in
    [0,100] after [execute_action] (with its urgency adjustment and its
    tier drift) and again after the [update_needs] that follows. *)
Theorem needs_stay_in_range (agent_id : string) (agent : Agent)
    (decision : Decision) :
  needs_ok (needs agent) ->
  needs_ok (needs (snd (execute_action agent_id agent decision)))
  /\ needs_ok
       (needs (update_needs (snd (execute_action agent_id agent decision)))).
Proof.
  intros H. split.
  - now apply execute_action_needs_ok.
  - now apply update_needs_ok, execute_action_needs_ok.
Qed.

Lemma needs_stay_in_range_witness :
  let decision :=
    mkDecision "search_for_food" "Desperately hungry, need food now"
      "desperate" "immediate" in
  needs_ok (needs (snd (execute_action "alex_chen" alex_chen decision)))
  /\ needs_ok
       (needs
          (update_needs (snd (execute_action "alex_chen" alex_chen decision)))).
Proof.
  apply (needs_stay_in_range "alex_chen" alex_chen).
  unfold needs_ok, need_ok. simpl. lia.
Defined.

End ResolverNeeds.

(** ** The action resolver: money and location *)

Section ResolverFrame.
Import Py Turn.

Ltac case_Qle :=
  repeat match goal with
         | |- context [Qle_bool ?x ?y] =>
             let E := fresh "E" in
             destruct (Qle_bool x y) eqn:E;
             [apply Qle_bool_iff in E | clear E]
         end.

Ltac case_tests :=
  repeat match goal with
         | |- context [if ?b then _ else _] => destruct b
         end.

(** [execute_action] never takes an agent below zero: every cost is
    charged in a tier whose floor covers it, and the poor tier pays for
    food only when it holds the price. *)
Lemma execute_action_money_nonneg (agent_id : string) (agent : Agent)
    (decision : Decision) :
  (0 <= money agent)%Q ->
  (0 <= money (snd (execute_action agent_id agent decision)))%Q.
Proof.
  destruct agent as [i p b c g st l m [h e s] inv mem].
  unfold execute_action, action_tier, float_mul, Qleb; simpl.
  intros H.
  assert (Hultra : (1000000 <= float_of m -> 10000 < m)%Q).
  { intros Hf. apply float_of_above; [reflexivity|lra]. }
  assert (Hwealthy : (10000 <= float_of m -> 50 < m)%Q).
  { intros Hf. apply float_of_above; [reflexivity|lra]. }
  assert (Hmiddle : (1000 <= float_of m -> 15 < m)%Q).
  { intros Hf. apply float_of_above; [reflexivity|lra]. }
  assert (Hgains : (10000 <= float_of m ->
                    0 <= decimal_str (float_of (float_of m * float_of 0.002)))%Q).
  { intros Hf. apply decimal_str_nonneg, float_of_nonneg.
    apply Qmult_le_0_compat; [lra|]. apply float_of_nonneg. lra. }
  set (f := float_of m) in *.
  set (gains := decimal_str _) in *.
  clearbody f gains.
  case_Qle; case_tests; simpl;
    try specialize (Hultra ltac:(lra));
    try specialize (Hwealthy ltac:(lra));
    try specialize (Hmiddle ltac:(lra));
    try specialize (Hgains ltac:(lra));
    lra.
Qed.

(** C10: [execute_action] writes the location in one case only, the
    poor tier asking for food with less than 5 in hand, and then the
    location is the food bank; in every other case the location after
    the call is the location before it. *)
Theorem execute_action_location (agent_id : string) (agent : Agent)
    (decision : Decision) :
  location (snd (execute_action agent_id agent decision)) =
  if tier_eqb (action_tier (float_of (money agent))) poor
     && is_food (action decision)
     && Qltb (money agent) 5
  then "food_bank"
  else location agent.
Proof.
  destruct agent as [i p b c g st l m [h e s] inv mem].
  unfold execute_action, Qltb, Qleb; simpl.
  destruct (action_tier (float_of m)); simpl;
    destruct (is_food (action decision)); simpl;
    destruct (Qle_bool 5 m); simpl; case_tests; reflexivity.
Qed.

End ResolverFrame.

(** ** The decision step *)

Section DecisionStep.
Import Py Turn.

Lemma get_simulated_decision_raises (self : Sim) (pick : nat)
    (agent_id : string) (agent : Agent) (perception : Perception) :
  get_simulated_decision self pick agent_id agent perception
  = Raise (NameError "tier").
Proof. reflexivity. Qed.

Lemma dict_get_head {A} (k : string) (v : A) (rest : list (string * A)) :
  dict_get k ((k, v) :: rest) = Some v.
Proof. simpl. now rewrite String.eqb_refl. Qed.

(** C1: what the code does when the inference call raises.  The
    handler of [get_ai_decision] calls the fallback provider, whose
    body reads the unbound name [tier]: the [NameError] leaves the
    handler, and leaves [execute_turn] at the first agent. *)
Theorem inference_failure_escapes (e : exn) (picks : string -> nat)
    (bedrock loud : bool) (ws : WorldState) (agent_id : string)
    (agent : Agent) (others : list (string * Agent)) (turn clock : Z)
    (perception : Perception) (tables : Tables) :
  let self := mkSim bedrock loud ws ((agent_id, agent) :: others) turn clock in
  let out := mkOutside (fun _ => ReplyRaises e) picks in
  get_ai_decision self (ReplyRaises e) (picks agent_id) agent_id agent perception
  = Raise (NameError "tier")
  /\ execute_turn out self tables = Raise (NameError "tier").
Proof.
  intros self out. split.
  - unfold get_ai_decision.
    destruct (negb (use_bedrock self));
      now rewrite get_simulated_decision_raises.
  - unfold execute_turn, with_turn_number, self, out.
    cbn [agents map fst for_each_agent use_bedrock verbose world_state
         turn_number world_time].
    unfold agent_turn. cbn [agents]. rewrite dict_get_head.
    unfold get_agent_perception, get_ai_decision.
    cbn [reply_for use_bedrock].
    destruct (negb bedrock); reflexivity.
Qed.

(** The default agents, the inference service timing out. *)
Example timeouts_abort_the_turn :
  execute_turn Samples.timeouts Samples.sim0 Samples.tables0
  = Raise (NameError "tier").
Proof. reflexivity. Qed.

(** The same agents, the service answering without JSON: both wait,
    and the turn comes to its end. *)
Example chatter_completes_the_turn :
  returns (execute_turn Samples.chatter Samples.sim0 Samples.tables0) = true.
Proof. vm_compute. reflexivity. Qed.

End DecisionStep.

(** ** Dicts kept in insertion order *)

Section DictFacts.
Import Py.
Context {A : Type}.

Lemma dict_get_set_eq (k : string) (v : A) (d : list (string * A)) :
  dict_get k (dict_set k v d) = Some v.
Proof.
  induction d as [|[k' v'] d IH]; simpl.
  - now rewrite String.eqb_refl.
  - destruct (String.eqb k k') eqn:E; simpl.
    + now rewrite String.eqb_refl.
    + now rewrite E.
Qed.

Lemma dict_get_set_ne (k j : string) (v : A) (d : list (string * A)) :
  k <> j -> dict_get j (dict_set k v d) = dict_get j d.
Proof.
  intros Hne. induction d as [|[k' v'] d IH]; simpl.
  - destruct (String.eqb j k) eqn:E; [|reflexivity].
    apply String.eqb_eq in E. congruence.
  - destruct (String.eqb k k') eqn:E; simpl.
    + apply String.eqb_eq in E. subst k'.
      destruct (String.eqb j k) eqn:E'; [|reflexivity].
      apply String.eqb_eq in E'. congruence.
    + now rewrite IH.
Qed.


End DictFacts.

(** ** Perception *)

Section PerceptionFacts.
Import Py.


(** The list comprehension of [get_agent_perception]. *)
Lemma others_here_In (agent_id location : string)
    (ags : list (string * Turn.Agent)) (other_id : string) :
  In other_id
    (map fst
       (List.filter
          (fun entry : string * Turn.Agent =>
             String.eqb (Turn.location (snd entry)) location
             && negb (String.eqb (fst entry) agent_id))
          ags))
  <-> other_id <> agent_id
      /\ exists other : Turn.Agent,
           In (other_id, other) ags /\ Turn.location other = location.
Proof.
  rewrite in_map_iff. split.
  - intros ([k other] & <- & Hin). apply filter_In in Hin as [Hin Htest].
    cbn [fst snd] in *. apply andb_true_iff in Htest as [Hloc Hne].
    apply String.eqb_eq in Hloc. split.
    + intros ->. now rewrite String.eqb_refl in Hne.
    + now exists other.
  - intros (Hne & other & Hin & Hloc). exists (other_id, other).
    split; [reflexivity|]. apply filter_In. split; [exact Hin|].
    cbn [fst snd]. rewrite Hloc, String.eqb_refl. cbn [andb].
    destruct (String.eqb other_id agent_id) eqn:E; [|reflexivity].
    apply String.eqb_eq in E. contradiction.
Qed.




End PerceptionFacts.

(** ** Memories *)

Section MemoryFacts.
Import Py.

Lemma length_last_n {A} (n : nat) (l : list A) :
  (length (last_n n l) <= n)%nat.
Proof. unfold last_n. rewrite length_skipn. lia. Qed.

Lemma last_n_short {A} (n : nat) (l : list A) :
  (length l <= n)%nat -> last_n n l = l.
Proof.
  intros H. unfold last_n.
  replace (length l - n)%nat with 0%nat by lia. reflexivity.
Qed.

Lemma tl_skipn {A} (k : nat) (l : list A) : tl (skipn k l) = skipn (S k) l.
Proof.
  revert l. induction k as [|k IH]; intros [|x l]; try reflexivity.
  simpl skipn at 1. rewrite IH. destruct l; reflexivity.
Qed.

(** One more entry behind the last [n] of a list, the oldest dropped
    when that makes [n + 1]: the last [n] of the longer list. *)
Lemma last_n_snoc {A} (n : nat) (l : list A) (x : A) :
  (0 < n)%nat ->
  (if (n <? length (last_n n l ++ [x]))%nat
   then tl (last_n n l ++ [x]) else last_n n l ++ [x])
  = last_n n (l ++ [x]).
Proof.
  intros Hn. unfold last_n.
  rewrite length_app, length_skipn, length_app. simpl length.
  destruct (Nat.ltb_spec n (length l - (length l - n) + 1)) as [Hlt|Hge].
  - assert (Hl : (n <= length l)%nat) by lia.
    rewrite skipn_app.
    replace (length l + 1 - n - length l)%nat with 0%nat by lia.
    simpl skipn at 3.
    replace (length l + 1 - n)%nat with (S (length l - n)) by lia.
    rewrite <- tl_skipn.
    destruct (skipn (length l - n) l) eqn:E; [|reflexivity].
    apply (f_equal (@length A)) in E. rewrite length_skipn in E.
    simpl in E. lia.
  - replace (length l - n)%nat with 0%nat by lia.
    replace (length l + 1 - n)%nat with 0%nat by lia.
    reflexivity.
Qed.

Lemma remember_memories (now : Z) (memory : string)
    (char : Persistent.Character) (table : Persistent.Table)
    (earlier : list string) :
  Persistent.memories char = last_n 30 earlier ->
  Persistent.memories (fst (Persistent.remember now memory char table))
  = last_n 30 (earlier ++ [Persistent.stamped (now, memory)]).
Proof.
  intros H. unfold Persistent.remember, Persistent.memory_cap. simpl.
  rewrite H. apply last_n_snoc. lia.
Qed.

Lemma remember_each_memories (entries : list (Z * string)) :
  forall (char : Persistent.Character) (table : Persistent.Table)
         (earlier : list string),
    Persistent.memories char = last_n 30 earlier ->
    Persistent.memories (fst (Persistent.remember_each entries char table))
    = last_n 30 (earlier ++ map Persistent.stamped entries).
Proof.
  induction entries as [|[now memory] entries IH]; intros char table earlier H.
  - simpl. now rewrite app_nil_r.
  - cbn [Persistent.remember_each map].
    pose proof (remember_memories now memory char table earlier H) as Hstep.
    destruct (Persistent.remember now memory char table) as [char' table'].
    rewrite (IH char' table' _ Hstep), <- app_assoc. reflexivity.
Qed.

Lemma execute_action_memories (agent_id : string) (agent : Turn.Agent)
    (decision : Turn.Decision) :
  Turn.memories (snd (Turn.execute_action agent_id agent decision))
  = Turn.memories agent.
Proof.
  destruct agent as [i p b c g st l m [h e s] inv mem].
  unfold Turn.execute_action; simpl.
  repeat match goal with
         | |- context [if ?b then _ else _] => destruct b
         | |- context [match Turn.action_tier ?m with _ => _ end] =>
             destruct (Turn.action_tier m)
         end; reflexivity.
Qed.

Lemma update_needs_memories (agent : Turn.Agent) :
  Turn.memories (Turn.update_needs agent) = Turn.memories agent.
Proof. unfold Turn.update_needs. now destruct (Qltb _ _). Qed.

Lemma save_memories_capped (tables : Turn.Tables) (agent_id : string)
    (memories : list string) :
  Turn.rows_capped tables ->
  Turn.rows_capped (Turn.save_memories tables agent_id memories).
Proof.
  intros H. unfold Turn.save_memories.
  destruct (Turn.memory_writes_ok tables); [|exact H].
  intros j row. simpl.
  destruct (decide (agent_id = j)) as [->|Hne].
  - rewrite lookup_insert_eq. intros [= <-]. apply length_last_n.
  - rewrite lookup_insert_ne by exact Hne. apply H.
Qed.

Lemma save_agent_state_capped (tables : Turn.Tables) (agent_id : string)
    (agent : Turn.Agent) :
  Turn.rows_capped tables ->
  Turn.rows_capped (Turn.save_agent_state tables agent_id agent).
Proof.
  intros H. unfold Turn.save_agent_state.
  destruct (Turn.agent_writes_ok tables); [|exact H].
  now apply save_memories_capped.
Qed.

(** What the body of the loop of [execute_turn] does to one agent, when
    it comes to its end. *)
Lemma agent_turn_returns (out : Turn.Outside) (agent_id : string)
    (self self' : Turn.Sim) (tables tables' : Turn.Tables)
    (agent : Turn.Agent) :
  dict_get agent_id (Turn.agents self) = Some agent ->
  Turn.agent_turn out agent_id (self, tables) = Return (self', tables') ->
  exists (decision : Turn.Decision) (entry : string),
    let agent' :=
      Turn.update_needs
        (Turn.with_memories
           (Turn.memories agent ++ [entry])
           (snd (Turn.execute_action agent_id agent decision))) in
    self' = Turn.with_agents (dict_set agent_id agent' (Turn.agents self)) self
    /\ tables' = Turn.save_agent_state tables agent_id agent'.
Proof.
  intros Hget. unfold Turn.agent_turn. rewrite Hget.
  unfold Turn.get_agent_perception.
  destruct (Turn.get_ai_decision _ _ _ _ _ _) as [[act why mood haste]|e];
    [|discriminate].
  cbn [bind Turn.d_action Turn.d_reasoning Turn.d_emotion Turn.d_urgency].
  destruct act as [act|]; [|discriminate].
  destruct why as [why|]; [|discriminate].
  destruct mood as [mood|]; [|discriminate].
  destruct haste as [haste|]; [|discriminate].
  cbn [bind item].
  set (decision := Turn.mkDecision act why mood haste).
  pose proof (execute_action_memories agent_id agent decision) as Hmem.
  destruct (Turn.execute_action agent_id agent decision)
    as [result agent1] eqn:Hact.
  simpl in Hmem. intros [= <- <-].
  eexists decision, _. cbv zeta. rewrite Hact. simpl snd. rewrite <- Hmem.
  split; reflexivity.
Qed.

End MemoryFacts.

(** ** The cap on the memories *)

Section MemoryCap.
Import Py.

(** C8, as the code has it: [remember] keeps the last 30 entries, the
    oldest leaving first, and saves the list that it keeps; the row
    that [save_memories] writes holds the last 30 entries of the list; the
    list that [execute_turn] keeps during the run is not cut, each step
    of its loop adds one entry. *)
Theorem memories_capped_where_kept
    (entries : list (Z * string)) (now : Z) (memory : string)
    (char : Persistent.Character) (table : Persistent.Table)
    (out : Turn.Outside) (agent_id : string) (self self' : Turn.Sim)
    (tables tables' : Turn.Tables) (agent : Turn.Agent) :
  (length (Persistent.memories char) <= 30)%nat ->
  Turn.rows_capped tables ->
  dict_get agent_id (Turn.agents self) = Some agent ->
  Turn.agent_turn out agent_id (self, tables) = Return (self', tables') ->
  let kept :=
    Persistent.memories (fst (Persistent.remember_each entries char table)) in
  let remembered := Persistent.remember now memory char table in
  kept = last_n 30 (Persistent.memories char ++ map Persistent.stamped entries)
  /\ (length kept <= 30)%nat
  /\ Persistent.rows (snd remembered) !! Persistent.name char
     = (if Persistent.reachable table then Some (fst remembered)
        else Persistent.rows table !! Persistent.name char)
  /\ Turn.rows_capped tables'
  /\ exists agent' : Turn.Agent,
       dict_get agent_id (Turn.agents self') = Some agent'
       /\ length (Turn.memories agent') = S (length (Turn.memories agent))
       /\ if Turn.agent_writes_ok tables && Turn.memory_writes_ok tables
          then Turn.character_memories tables' !! agent_id
               = Some (last_n 30 (Turn.memories agent'))
          else Turn.character_memories tables' = Turn.character_memories tables.
Proof.
  intros Hlen Hrows Hget Hturn kept remembered.
  assert (Hkept : kept
            = last_n 30 (Persistent.memories char
                           ++ map Persistent.stamped entries)).
  { apply remember_each_memories. symmetry. now apply last_n_short. }
  split; [exact Hkept|]. split; [rewrite Hkept; apply length_last_n|].
  split.
  { subst remembered. unfold Persistent.remember, Persistent.save.
    cbn [fst snd Persistent.name].
    destruct (Persistent.reachable table); [|reflexivity].
    cbn [Persistent.rows]. apply lookup_insert_eq. }
  destruct (agent_turn_returns _ _ _ _ _ _ _ Hget Hturn)
    as (decision & entry & -> & ->).
  split; [now apply save_agent_state_capped|].
  eexists. split; [apply dict_get_set_eq|]. split.
  - rewrite update_needs_memories. simpl. rewrite length_app. simpl. lia.
  - unfold Turn.save_agent_state, Turn.save_memories.
    destruct (Turn.agent_writes_ok tables); simpl; [|reflexivity].
    destruct (Turn.memory_writes_ok tables); simpl; [|reflexivity].
    apply lookup_insert_eq.
Qed.

Lemma memories_capped_where_kept_witness :
  let kept :=
    Persistent.memories
      (fst (Persistent.remember_each Samples.forty_entries
              (Persistent.profile "alex_chen") Samples.no_table)) in
  let remembered :=
    Persistent.remember 360 "Another crisis" (Persistent.profile "alex_chen")
      Samples.no_table in
  kept = last_n 30
           (Persistent.memories (Persistent.profile "alex_chen")
              ++ map Persistent.stamped Samples.forty_entries)
  /\ (length kept <= 30)%nat
  /\ Persistent.rows (snd remembered)
       !! Persistent.name (Persistent.profile "alex_chen")
     = (if Persistent.reachable Samples.no_table then Some (fst remembered)
        else Persistent.rows Samples.no_table
               !! Persistent.name (Persistent.profile "alex_chen"))
  /\ Turn.rows_capped (snd Samples.after_veteran_turn)
  /\ exists agent' : Turn.Agent,
       dict_get "alex_chen" (Turn.agents (fst Samples.after_veteran_turn))
       = Some agent'
       /\ length (Turn.memories agent')
          = S (length (Turn.memories Samples.veteran))
       /\ if Turn.agent_writes_ok Samples.tables0
             && Turn.memory_writes_ok Samples.tables0
          then Turn.character_memories (snd Samples.after_veteran_turn)
                 !! "alex_chen"
               = Some (last_n 30 (Turn.memories agent'))
          else Turn.character_memories (snd Samples.after_veteran_turn)
               = Turn.character_memories Samples.tables0.
Proof.
  apply (memories_capped_where_kept Samples.forty_entries 360
           "Another crisis"
           (Persistent.profile "alex_chen") Samples.no_table Samples.chatter
           "alex_chen" Samples.sim30 (fst Samples.after_veteran_turn)
           Samples.tables0 (snd Samples.after_veteran_turn) Samples.veteran).
  - simpl. lia.
  - intros agent_id row H. unfold Samples.tables0 in H.
    cbn [Turn.character_memories] in H. rewrite lookup_empty in H.
    discriminate H.
  - reflexivity.
  - reflexivity.
Defined.

(** The list of an agent that starts a turn with 30 memories has 31
    after it. *)
Lemma veteran_memories_outgrow_cap :
  length (Turn.memories Samples.veteran) = 30%nat
  /\ match Turn.execute_turn Samples.chatter Samples.sim30 Samples.tables0 with
     | Return (self', _) =>
         match dict_get "alex_chen" (Turn.agents self') with
         | Some agent' => length (Turn.memories agent') = 31%nat
         | None => False
         end
     | Raise _ => False
     end.
Proof. split; vm_compute; reflexivity. Qed.

End MemoryCap.

(** ** Relationships and encounters *)

Section Encounters.
Import Py.

Lemma relationship_type_not_enemy (trust affinity : Z) (n : nat) :
  Interactions.relationship_type trust affinity n <> "enemy".
Proof.
  unfold Interactions.relationship_type.
  destruct (Z.ltb_spec 50 trust), (Z.ltb_spec 50 affinity),
    (Z.ltb_spec 30 trust), (Z.ltb_spec 30 affinity),
    (Z.ltb_spec trust (-30)), (Z.ltb_spec affinity (-30)),
    (Z.ltb_spec trust (-50)), (Z.ltb_spec affinity (-50));
    simpl; try discriminate; try lia;
    destruct (1 <? n)%nat; discriminate.
Qed.

Lemma relationship_type_both_low (trust affinity : Z) (n : nat) :
  (trust <? -50) && (affinity <? -50) = true ->
  Interactions.relationship_type trust affinity n = "adversary".
Proof.
  intros H. apply andb_true_iff in H as [Ht Ha].
  apply Z.ltb_lt in Ht, Ha. unfold Interactions.relationship_type.
  destruct (Z.ltb_spec 50 trust); [lia|].
  destruct (Z.ltb_spec 30 trust); [lia|].
  destruct (Z.ltb_spec trust (-30)); [|lia].
  now rewrite !andb_false_l.
Qed.

(** C7, on the code: the relationship that [update_relationship]
    stores is never an enemy.  The test for the adversary comes first
    in the chain and holds whenever the test for the enemy does, so
    scores below -50 on both sides store an adversary. *)
Theorem update_relationship_never_enemy (now : Z) (char1 char2 : string)
    (changes : Interactions.Change) (interaction : Interactions.Interaction)
    (self : Interactions.System) :
  exists rel : Interactions.Relationship,
    Interactions.relationships
      (Interactions.update_relationship now char1 char2 changes interaction
         self) !! (char1 ++ "_" ++ char2)%string = Some rel
    /\ Interactions.type rel <> "enemy"
    /\ Interactions.type rel
       = if (Interactions.trust rel <? -50) && (Interactions.affinity rel <? -50)
         then "adversary"
         else Interactions.type rel.
Proof.
  unfold Interactions.update_relationship. cbn [Interactions.relationships].
  rewrite lookup_insert_eq. eexists. split; [reflexivity|].
  cbn [Interactions.type Interactions.trust Interactions.affinity].
  split; [apply relationship_type_not_enemy|].
  destruct ((_ <? -50) && (_ <? -50)) eqn:E; [|reflexivity].
  now apply relationship_type_both_low.
Qed.

(** C5, as the code has it.  Both functions read the money of the two
    characters as floats.  When both floats are below 100 the rule of
    [simulate_character_interaction] says solidarity, whichever
    character comes first; [determine_interaction_type] hands the pair
    to [random.choice] over four labels when the two floats are within
    10000 of each other, and says class tension when they are not. *)
Theorem both_poor_classification (money1 money2 : Q) (pick : nat)
    (location : string) (memories1 memories2 : option (list string))
    (state1 state2 : option string) :
  (float_of money1 < 100)%Q ->
  (float_of money2 < 100)%Q ->
  let char1 := Interactions.mkAgent (Some money1) memories1 state1 in
  let char2 := Interactions.mkAgent (Some money2) memories2 state2 in
  Mcp.interaction_type_of (float_of money1) (float_of money2) = "solidarity"
  /\ Mcp.interaction_type_of (float_of money2) (float_of money1) = "solidarity"
  /\ Interactions.determine_interaction_type pick char1 char2 location
     = if Qleb (Qabs (float_sub (float_of money1) (float_of money2))) 10000
       then choice pick
              ["solidarity"; "resource_sharing"; "commiseration";
               "collaboration"] "solidarity"
       else "class_tension".
Proof.
  intros H1 H2 char1 char2.
  assert (L1 : Qltb (float_of money1) 100 = true).
  { unfold Qltb. destruct (Qle_bool 100 (float_of money1)) eqn:E;
      [|reflexivity].
    apply Qle_bool_iff in E. lra. }
  assert (L2 : Qltb (float_of money2) 100 = true).
  { unfold Qltb. destruct (Qle_bool 100 (float_of money2)) eqn:E;
      [|reflexivity].
    apply Qle_bool_iff in E. lra. }
  unfold Mcp.interaction_type_of, Interactions.determine_interaction_type.
  subst char1 char2. cbn [Interactions.money default from_option id].
  rewrite L1, L2. cbn [andb orb].
  split; [reflexivity|]. split; [reflexivity|].
  unfold Qltb, Qleb. destruct (Qle_bool _ 10000); reflexivity.
Qed.

Lemma both_poor_classification_witness :
  Mcp.interaction_type_of (float_of 53.09) (float_of 43) = "solidarity"
  /\ Mcp.interaction_type_of (float_of 43) (float_of 53.09) = "solidarity"
  /\ Interactions.determine_interaction_type 2 Samples.alex_item
       Samples.jamie_item "public_library"
     = if Qleb (Qabs (float_sub (float_of 53.09) (float_of 43))) 10000
       then choice 2
              ["solidarity"; "resource_sharing"; "commiseration";
               "collaboration"] "solidarity"
       else "class_tension".
Proof.
  apply (both_poor_classification 53.09 43 2 "public_library" (Some [])
           (Some []) (Some "exhausted") (Some "hopeful_but_tired"));
    vm_compute; reflexivity.
Defined.

(** An amount below 100 whose float is 100: with 43 on the other side
    the pair is not a pair of poor characters for either function. *)
Example nearly_hundred_is_not_poor :
  (99.99999999999999999999 < 100)%Q
  /\ (float_of 99.99999999999999999999 == 100)%Q
  /\ Mcp.interaction_type_of (float_of 99.99999999999999999999) (float_of 43)
     = "compassion_or_dismissal"
  /\ Interactions.determine_interaction_type 0
       (Interactions.mkAgent (Some 99.99999999999999999999%Q) None None)
       Samples.jamie_item "public_library"
     = "quiet_desperation".
Proof. repeat split; vm_compute; reflexivity. Qed.

(** Two characters with 53.09 and 43 at the library: the label drawn
    at index 1 is not solidarity. *)
Lemma poor_pair_not_always_solidarity :
  Interactions.money Samples.alex_item = Some 53.09%Q
  /\ Interactions.money Samples.jamie_item = Some 43%Q
  /\ Interactions.determine_interaction_type 1 Samples.alex_item
       Samples.jamie_item "public_library" = "resource_sharing".
Proof. repeat split. Qed.

End Encounters.

(** ** Money *)

Section Money.
Import Py Interactions.

Lemma money_alter_keep (f : Agent -> Agent) (k id : string)
    (ags : gmap string Agent) :
  (forall a, money_read (f a) = money_read a) ->
  money_read <$> alter f k ags !! id = money_read <$> ags !! id.
Proof.
  intros Hf. rewrite lookup_alter. case_decide as E; [subst k|reflexivity].
  destruct (ags !! id); simpl; [now rewrite Hf|reflexivity].
Qed.

Lemma money_alter_change (g : Q -> Q) (k id : string)
    (ags : gmap string Agent) :
  money_read <$> alter (fun a => with_money (g (money_read a)) a) k ags !! id
  = if decide (k = id) then g <$> (money_read <$> ags !! id)
    else money_read <$> ags !! id.
Proof.
  rewrite lookup_alter. case_decide as E; [subst k|reflexivity].
  now destruct (ags !! id).
Qed.

(** The whole effect of [apply_interaction_effects] on the money of an
    agent, when the call returns: the amount, as [Decimal(str(amount))]
    reads it, leaves the giver and reaches the receiver, with no test
    on what the giver holds. *)
Lemma apply_interaction_effects_money (now : Z) (char1_id char2_id : string)
    (interaction : Interaction) (self after : System) (id : string) :
  apply_interaction_effects now char1_id char2_id interaction self
  = Return after ->
  money_of id after
  = match resource_exchange interaction with
    | Some (mkExchange (Some giver) (Some receiver) (Some number)) =>
        let before := money_of id self in
        let given :=
          if decide (giver = id)
          then (fun m => m - decimal_of number)%Q <$> before else before in
        if decide (receiver = id)
        then (fun m => m + decimal_of number)%Q <$> given else given
    | _ => money_of id self
    end.
Proof.
  unfold apply_interaction_effects. intros H.
  assert (Hstate : forall st a, money_read (with_state st a) = money_read a)
    by reflexivity.
  assert (Hrem : forall e a, money_read (remember e a) = money_read a)
    by reflexivity.
  destruct interaction as [memory1 memory2 exchange change impact ty oc].
  cbn [memory_for_char1 memory_for_char2 resource_exchange relationship_change
       emotional_impact] in *.
  destruct (agents self !! char1_id) as [a1|];
    [destruct memory1 as [memory1|]; [|discriminate H]|];
    cbn [bind item] in H;
    (match type of H with
     | context [match ?x with _ => _ end] => destruct x as [a2|]
     end;
     [destruct memory2 as [memory2|]; [|discriminate H]|]);
    cbn [bind item] in H;
    (destruct exchange as [[[giver|] [receiver|] [number|]]|];
     try discriminate H);
    cbn [bind item from to amount] in H;
    injection H as <-;
    unfold money_of, update_relationship; cbn [agents relationships];
    (destruct (dict_get char2_id _), (dict_get char1_id _));
    rewrite ?money_alter_keep by (intros; apply Hstate);
    try rewrite (money_alter_change (fun m => m + decimal_of number)%Q),
      (money_alter_change (fun m => m - decimal_of number)%Q);
    rewrite ?money_alter_keep by (intros; apply Hrem);
    reflexivity.
Qed.

(** [apply_interaction_effects] returns for an interaction that has
    the two memories and an exchange with its three keys. *)
Lemma apply_interaction_effects_returns (now : Z) (char1_id char2_id : string)
    (interaction : Interaction) (self : System) (memory1 memory2 : string)
    (exchange : Exchange) (giver receiver : string) (number : Number) :
  memory_for_char1 interaction = Some memory1 ->
  memory_for_char2 interaction = Some memory2 ->
  resource_exchange interaction = Some exchange ->
  from exchange = Some giver ->
  to exchange = Some receiver ->
  amount exchange = Some number ->
  exists after : System,
    apply_interaction_effects now char1_id char2_id interaction self
    = Return after.
Proof.
  intros H1 H2 Hex Hfrom Hto Hamount. unfold apply_interaction_effects.
  rewrite H1, H2, Hex, Hfrom, Hto, Hamount. cbn [item bind].
  destruct (agents self !! char1_id); cbn [bind];
    (destruct (_ !! char2_id); cbn [bind]); eexists; reflexivity.
Qed.

(** C3, as the code has it: [execute_action] keeps the money of an
    agent at or above zero, and so does [apply_interaction_effects]
    when it applies an exchange whose amount, as [Decimal(str(amount))]
    reads it, is not negative and is covered by what the giver holds. *)
Theorem money_stays_nonnegative_when_covered
    (agent_id : string) (agent : Turn.Agent) (decision : Turn.Decision)
    (now : Z) (char1_id char2_id : string) (interaction : Interaction)
    (memory1 memory2 giver receiver : string) (number : Number)
    (self : System) (id : string) (m : Q) :
  (0 <= Turn.money agent)%Q ->
  memory_for_char1 interaction = Some memory1 ->
  memory_for_char2 interaction = Some memory2 ->
  resource_exchange interaction
  = Some (mkExchange (Some giver) (Some receiver) (Some number)) ->
  money_of id self = Some m ->
  (0 <= m)%Q ->
  (0 <= decimal_of number)%Q ->
  (giver = id -> (decimal_of number <= m)%Q) ->
  (0 <= Turn.money (snd (Turn.execute_action agent_id agent decision)))%Q
  /\ exists (after : System) (m' : Q),
       apply_interaction_effects now char1_id char2_id interaction self
       = Return after
       /\ money_of id after = Some m'
       /\ (0 <= m')%Q.
Proof.
  intros Hagent Hmem1 Hmem2 Hex Hm Hpos Hamount Hcover.
  split; [now apply execute_action_money_nonneg|].
  destruct (apply_interaction_effects_returns now char1_id char2_id
              interaction self memory1 memory2 _ giver receiver number
              Hmem1 Hmem2 Hex eq_refl eq_refl eq_refl) as [after Hret].
  exists after.
  rewrite (apply_interaction_effects_money _ _ _ _ _ _ id Hret), Hex, Hm.
  cbv zeta.
  destruct (decide (giver = id)) as [Hfrom|_],
    (decide (receiver = id)) as [_|_]; simpl;
    eexists; (split; [exact Hret|]); (split; [reflexivity|]);
    try specialize (Hcover Hfrom); lra.
Qed.

Lemma money_stays_nonnegative_when_covered_witness :
  (0 <= Turn.money
          (snd (Turn.execute_action "alex_chen" Turn.alex_chen
                  (Turn.mkDecision "search_for_food"
                     "Desperately hungry, need food now" "desperate"
                     "immediate"))))%Q
  /\ exists (after : System) (m' : Q),
       apply_interaction_effects 360 "alex_chen" "jamie_rodriguez"
         (Samples.gift (NFloat (float_of 4.35))) Samples.system0
       = Return after
       /\ money_of "alex_chen" after = Some m'
       /\ (0 <= m')%Q.
Proof.
  apply (money_stays_nonnegative_when_covered "alex_chen" Turn.alex_chen
           (Turn.mkDecision "search_for_food"
              "Desperately hungry, need food now" "desperate" "immediate")
           360 "alex_chen" "jamie_rodriguez"
           (Samples.gift (NFloat (float_of 4.35)))
           "Helped jamie_rodriguez when they needed it"
           "alex_chen showed unexpected kindness"
           "alex_chen" "jamie_rodriguez" (NFloat (float_of 4.35))
           Samples.system0 "alex_chen" 53.09%Q).
  - vm_compute. discriminate.
  - reflexivity.
  - reflexivity.
  - reflexivity.
  - reflexivity.
  - vm_compute. discriminate.
  - vm_compute. discriminate.
  - intros _. vm_compute. discriminate.
Defined.

(** Alex holds 53.09 and the decoded reply has Alex hand over 100: the
    money of Alex after the encounter is below zero. *)
Lemma exchange_overdraws_giver :
  money_of "alex_chen" Samples.system0 = Some 53.09%Q
  /\ match
       apply_interaction_effects 360 "alex_chen" "jamie_rodriguez"
         (Samples.gift (NInt 100)) Samples.system0
     with
     | Return after =>
         exists m' : Q,
           money_of "alex_chen" after = Some m' /\ (m' == -46.91)%Q
     | Raise _ => False
     end
  /\ (-46.91 < 0)%Q.
Proof.
  split; [reflexivity|]. split; [|reflexivity].
  vm_compute. eexists. split; reflexivity.
Qed.

(** An amount that is what the giver holds, once both are floats, and
    more than that once [str] has written it: the giver holds
    0.29999999999999999, the reply says the same, and the giver ends
    below zero. *)
Example rounded_amount_overdraws_giver :
  let holdings := 0.29999999999999999%Q in
  let self :=
    mkSystem
      (<["alex_chen" := mkAgent (Some holdings) (Some []) None]>
         (<["jamie_rodriguez" := Samples.jamie_item]> ∅)) ∅ in
  (float_of 0.29999999999999999 <= float_of holdings)%Q
  /\ (decimal_of (NFloat (float_of 0.29999999999999999)) == 0.3)%Q
  /\ match
       apply_interaction_effects 360 "alex_chen" "jamie_rodriguez"
         (Samples.gift (NFloat (float_of 0.29999999999999999))) self
     with
     | Return after =>
         exists m' : Q,
           money_of "alex_chen" after = Some m'
           /\ (m' == -0.00000000000000001)%Q
     | Raise _ => False
     end.
Proof.
  cbv zeta. split; [vm_compute; discriminate|]. split; [vm_compute; reflexivity|].
  vm_compute. eexists. split; reflexivity.
Qed.

End Money.

(** ** More on dicts kept in insertion order *)

Section DictMore.
Import Py.
Context {A : Type}.

Lemma dict_get_Some_In (k : string) (v : A) (d : list (string * A)) :
  dict_get k d = Some v -> In (k, v) d.
Proof.
  induction d as [|[k' v'] d IH]; simpl; [discriminate|].
  destruct (String.eqb k k') eqn:E.
  - apply String.eqb_eq in E. subst k'. intros [= ->]. now left.
  - intros H. right. now apply IH.
Qed.

Lemma dict_get_In_keys (k : string) (d : list (string * A)) :
  In k (map fst d) -> exists v, dict_get k d = Some v.
Proof.
  induction d as [|[k' v'] d IH]; simpl; [contradiction|].
  destruct (String.eqb k k') eqn:E; [eauto|].
  intros [->|H]; [|now apply IH].
  now rewrite String.eqb_refl in E.
Qed.

Lemma dict_get_None_keys (k : string) (d : list (string * A)) :
  dict_get k d = None -> ~ In k (map fst d).
Proof.
  intros Hnone Hin. destruct (dict_get_In_keys k d Hin) as [v Hv].
  congruence.
Qed.

Lemma dict_set_keys (k : string) (v v0 : A) (d : list (string * A)) :
  dict_get k d = Some v0 -> map fst (dict_set k v d) = map fst d.
Proof.
  induction d as [|[k' v'] d IH]; simpl; [discriminate|].
  destruct (String.eqb k k') eqn:E; simpl.
  - apply String.eqb_eq in E. now subst k'.
  - intros H. now rewrite IH.
Qed.

Lemma dict_set_Forall (P : string * A -> Prop) (k : string) (v : A)
    (d : list (string * A)) :
  Forall P d -> P (k, v) -> Forall P (dict_set k v d).
Proof.
  intros Hd Hv. induction Hd as [|[k' v'] d Hx Hd IH]; simpl.
  - now constructor.
  - destruct (String.eqb k k'); now constructor.
Qed.

Lemma dict_get_app_new (k : string) (v : A) (d : list (string * A)) :
  dict_get k d = None -> dict_get k (d ++ [(k, v)]) = Some v.
Proof.
  induction d as [|[k' v'] d IH]; simpl.
  - now rewrite String.eqb_refl.
  - destruct (String.eqb k k'); [discriminate|exact IH].
Qed.

End DictMore.

(** ** Moves *)

Section Occupants.
Import Py Persistent.

Lemma remove_first_absent (x : string) (l : list string) :
  mem x l = false -> remove_first x l = l.
Proof.
  unfold mem. induction l as [|y rest IH]; [reflexivity|].
  cbn [existsb remove_first]. destruct (String.eqb x y); [discriminate|].
  cbn [orb]. intros H. now rewrite IH.
Qed.

Lemma count_remove_first (c x : string) (l : list string) :
  count_occ string_dec (remove_first x l) c
  = (count_occ string_dec l c - (if String.eqb c x then 1 else 0))%nat.
Proof.
  induction l as [|y rest IH]; [reflexivity|].
  cbn [remove_first count_occ].
  destruct (String.eqb x y) eqn:Exy.
  - apply String.eqb_eq in Exy. subst y.
    destruct (string_dec x c) as [->|Hne].
    + rewrite String.eqb_refl. lia.
    + destruct (String.eqb c x) eqn:Ecx; [|lia].
      apply String.eqb_eq in Ecx. congruence.
  - cbn [count_occ]. rewrite IH.
    destruct (string_dec y c) as [->|Hne]; [|reflexivity].
    rewrite String.eqb_sym, Exy. lia.
Qed.

Lemma with_occupants_same (place : Place) :
  with_occupants (occupants place) place = place.
Proof. now destruct place. Qed.

Lemma update_location_lookup (character from_loc to_loc : string)
    (self : World) :
  exists locs : gmap string Place,
    update_location character from_loc to_loc self
    = Return (with_locations locs self)
    /\ forall p : string,
         locs !! p
         = (fun place =>
              with_occupants
                (occupants_after_move character from_loc to_loc p
                   (occupants place)) place)
           <$> locations self !! p.
Proof.
  unfold update_location.
  set (left :=
         if truthy from_loc
         then match locations self !! from_loc with
              | Some place =>
                  if mem character (occupants place)
                  then <[from_loc :=
                           with_occupants
                             (remove_first character (occupants place))
                             place]> (locations self)
                  else locations self
              | None => locations self
              end
         else locations self).
  assert (Hleft : forall p,
            left !! p
            = (fun place =>
                 with_occupants
                   (if String.eqb p from_loc && truthy from_loc
                    then remove_first character (occupants place)
                    else occupants place) place)
              <$> locations self !! p).
  { intros p. subst left.
    destruct (truthy from_loc); rewrite ?andb_false_r, ?andb_true_r.
    - destruct (String.eqb p from_loc) eqn:Ep.
      + apply String.eqb_eq in Ep. subst p.
        destruct (locations self !! from_loc) as [place|] eqn:Efrom.
        * destruct (mem character (occupants place)) eqn:Emem.
          -- now rewrite lookup_insert_eq.
          -- rewrite Efrom. cbn [fmap option_fmap option_map].
             now rewrite (remove_first_absent _ _ Emem), with_occupants_same.
        * now rewrite Efrom.
      + assert (Hne : from_loc <> p).
        { intros ->. now rewrite String.eqb_refl in Ep. }
        destruct (locations self !! from_loc) as [place|] eqn:Efrom.
        * destruct (mem character (occupants place));
            rewrite ?lookup_insert_ne by exact Hne;
            destruct (locations self !! p) as [q|]; cbn;
            now rewrite ?with_occupants_same.
        * destruct (locations self !! p) as [q|]; cbn;
            now rewrite ?with_occupants_same.
    - destruct (locations self !! p) as [q|]; cbn;
        now rewrite ?with_occupants_same. }
  clearbody left.
  eexists. split; [reflexivity|].
  intros p. unfold occupants_after_move.
  destruct (truthy to_loc); rewrite ?andb_false_r, ?andb_true_r.
  - destruct (String.eqb p to_loc) eqn:Ep.
    + apply String.eqb_eq in Ep. subst p.
      destruct (left !! to_loc) as [place|] eqn:Eto.
      * rewrite lookup_insert_eq. rewrite Hleft in Eto.
        destruct (locations self !! to_loc) as [q|]; [|discriminate].
        cbn in Eto |- *. injection Eto as <-. reflexivity.
      * rewrite Eto. rewrite Hleft in Eto.
        destruct (locations self !! to_loc) as [q|]; [discriminate|].
        reflexivity.
    + assert (Hne : to_loc <> p).
      { intros ->. now rewrite String.eqb_refl in Ep. }
      destruct (left !! to_loc) as [place|];
        rewrite ?lookup_insert_ne by exact Hne; apply Hleft.
  - apply Hleft.
Qed.

(** X20: [update_location] always returns and only changes lists of
    occupants.  In every place of the registry each name is listed as
    often as before, but for the character moved: one listing fewer
    where the move starts, if it was listed there, and one more where
    it ends; an id that is empty or not in the registry counts for
    nothing, and no place is added. *)
Theorem update_location_accounts (character from_loc to_loc : string)
    (self : World) :
  exists after : World,
    update_location character from_loc to_loc self = Return after
    /\ with_locations (locations after) self = after
    /\ forall p : string,
         match locations self !! p with
         | None => locations after !! p = None
         | Some place =>
             exists place' : Place,
               locations after !! p = Some place'
               /\ with_occupants (occupants place') place = place'
               /\ forall c : string,
                    count_occ string_dec (occupants place') c
                    = (count_occ string_dec (occupants place) c
                       - (if String.eqb c character && String.eqb p from_loc
                             && truthy from_loc
                          then 1 else 0)
                       + (if String.eqb c character && String.eqb p to_loc
                             && truthy to_loc
                          then 1 else 0))%nat
         end.
Proof.
  destruct (update_location_lookup character from_loc to_loc self)
    as (locs & Hret & Hlocs).
  exists (with_locations locs self).
  split; [exact Hret|]. split; [reflexivity|].
  intros p. cbn [with_locations locations]. rewrite Hlocs.
  destruct (locations self !! p) as [place|]; [|reflexivity].
  eexists. split; [reflexivity|].
  split; [now destruct place|].
  intros c. cbn [with_occupants occupants]. unfold occupants_after_move.
  rewrite <- !andb_assoc.
  destruct (String.eqb p to_loc && truthy to_loc);
    destruct (String.eqb p from_loc && truthy from_loc);
    rewrite ?andb_false_r, ?andb_true_r, ?count_occ_app, ?count_remove_first;
    cbn [count_occ];
    (destruct (String.eqb c character) eqn:Ec;
     [ apply String.eqb_eq in Ec; subst c;
       destruct (string_dec character character) as [_|Hc]; [|congruence]
     | destruct (string_dec character c) as [Hc|_];
       [subst c; rewrite String.eqb_refl in Ec; discriminate|] ]);
    cbn [andb]; lia.
Qed.

End Occupants.

Section Moves.
Import Py Persistent.





Lemma get_character_registered (name : string) (self : Narrative) :
  dict_get name (characters (snd (get_character name self)))
  = Some (fst (get_character name self)).
Proof.
  unfold get_character.
  destruct (dict_get name (characters self)) as [char|] eqn:Hget;
    [exact Hget|].
  destruct (load_or_create name (table self)) as [char table'].
  cbn [fst snd characters]. now apply dict_get_app_new.
Qed.

Lemma get_character_again (name : string) (self : Narrative) :
  get_character name (snd (get_character name self))
  = get_character name self.
Proof.
  pose proof (get_character_registered name self) as Hreg.
  unfold get_character at 1. rewrite Hreg.
  now destruct (get_character name self).
Qed.

Lemma get_ai_decision_after (character_name : string)
    (reply : option Decision) (self : Narrative) :
  get_ai_decision character_name reply (snd (get_character character_name self))
  = if resources_dumped (fst (get_character character_name self))
    then Return (default overwhelmed reply,
                 snd (get_character character_name self))
    else Raise (TypeError "Object of type Decimal is not JSON serializable").
Proof.
  unfold get_ai_decision. rewrite get_character_again.
  destruct (get_character character_name self) as [char self1].
  cbn [fst snd]. now destruct (resources_dumped char), reply.
Qed.


(** What [process_action] raises before it has changed anything. *)
Lemma process_action_raises (now : Z) (character_name : string)
    (reply : option Decision) (self : Narrative) :
  let decision := default overwhelmed reply in
  let before := fst (get_character character_name self) in
  (resources_dumped before = false ->
   process_action now character_name reply self
   = Raise (TypeError "Object of type Decimal is not JSON serializable"))
  /\ (resources_dumped before = true -> memory decision = None ->
      process_action now character_name reply self
      = Raise (KeyError "memory"))
  /\ (resources_dumped before = true -> memory decision <> None ->
      affects decision = None ->
      process_action now character_name reply self
      = Raise (KeyError "affects")).
Proof.
  intros decision before.
  unfold process_action.
  assert (Hanswer := get_ai_decision_after character_name reply self).
  fold decision before in Hanswer. subst before.
  destruct (get_character character_name self) as [char self1].
  cbn [fst snd] in *. rewrite Hanswer.
  split; [|split].
  - now intros ->.
  - intros -> Hmem. cbn [bind]. now rewrite Hmem.
  - intros -> Hmem Haff. cbn [bind]. rewrite Haff.
    destruct (memory decision) as [mem|]; [|contradiction]. cbn [item bind].
    destruct (remember now mem char (table self1)) as [char' table'].
    destruct (move_to decision) as [target|]; [|reflexivity].
    destruct (truthy target); [|reflexivity].
    unfold update_location. reflexivity.
Qed.



End Moves.

(** ** The weighted fallback provider *)

Section Fallback.
Import Py Mcp.

Lemma first_reaching_In (rand_val : Q) (candidates : list Decision) :
  forall (current_weight : Z) (d : Decision),
    first_reaching rand_val current_weight candidates = Some d ->
    In d candidates.
Proof.
  induction candidates as [|c candidates IH]; intros w d; simpl;
    [discriminate|].
  destruct (Qleb _ _).
  - intros [= <-]. now left.
  - intros H. right. eapply IH, H.
Qed.

Lemma get_simulated_decision_In (draws : Draws) (agent_id : string)
    (agent : Agent) (perception : Perception) (self : Sim) :
  exists d : Decision,
    In d (possible_decisions draws agent_id agent perception self)
    /\ get_simulated_decision draws agent_id agent perception self
       = Return (pop_weight d).
Proof.
  unfold get_simulated_decision.
  destruct (first_reaching _ 0 _) as [d|] eqn:E.
  - exists d. split; [eapply first_reaching_In, E|reflexivity].
  - assert (Hne : possible_decisions draws agent_id agent perception self <> []).
    { unfold possible_decisions. cbv zeta.
      match goal with |- match ?l with _ => _ end <> _ => destruct l end;
        discriminate. }
    destruct (possible_decisions draws agent_id agent perception self)
      as [|d rest]; [contradiction|].
    exists d. split; [now left|reflexivity].
Qed.

Lemma possible_decisions_head (draws : Draws) (agent_id : string)
    (agent : Agent) (perception : Perception) (self : Sim) :
  (Turn.money agent == 47)%Q ->
  Turn.hunger (Turn.needs agent) = 85 ->
  exists rest : list Decision,
    possible_decisions draws agent_id agent perception self
    = buy_cheap_food :: rest.
Proof.
  intros Hmoney Hhunger.
  assert (Hpay : Qltb 10 (Turn.money agent) = true).
  { unfold Qltb. destruct (Qle_bool (Turn.money agent) 10) eqn:E;
      [|reflexivity].
    apply Qle_bool_iff in E. lra. }
  unfold possible_decisions. cbv zeta. rewrite Hhunger, Hpay.
  change (90 <? 85) with false. change (70 <? 85) with true.
  cbv iota. cbn [app]. eexists. reflexivity.
Qed.

(** C6, as the code has it: for an agent with 47 in hand and a hunger
    of 85 the weighted provider puts the food-seeking candidate
    [buy_cheap_food], of urgency high and weight 80, first in its list,
    returns some candidate of the list, and returns that first one when
    the number it draws is at most 80. *)
Theorem fallback_lists_food_first (draws : Draws) (agent_id : string)
    (agent : Agent) (perception : Perception) (self : Sim) :
  (Turn.money agent == 47)%Q ->
  Turn.hunger (Turn.needs agent) = 85 ->
  let candidates := possible_decisions draws agent_id agent perception self in
  hd_error candidates = Some buy_cheap_food
  /\ Turn.is_food (action buy_cheap_food) = true
  /\ urgency buy_cheap_food = "high"
  /\ exists d : Decision,
       In d candidates
       /\ get_simulated_decision draws agent_id agent perception self
          = Return (pop_weight d)
       /\ (Qleb (rand_val draws candidates) 80 = true -> d = buy_cheap_food).
Proof.
  intros Hmoney Hhunger candidates.
  destruct (possible_decisions_head draws agent_id agent perception self
              Hmoney Hhunger) as [rest Hhead].
  subst candidates. rewrite Hhead.
  split; [reflexivity|]. split; [reflexivity|]. split; [reflexivity|].
  destruct (Qleb (rand_val draws (buy_cheap_food :: rest)) 80) eqn:Hdraw.
  - exists buy_cheap_food. split; [now left|]. split; [|reflexivity].
    unfold get_simulated_decision. rewrite Hhead.
    cbn [first_reaching]. change (inject_Z (0 + weight_of buy_cheap_food))
      with 80%Q.
    now rewrite Hdraw.
  - destruct (get_simulated_decision_In draws agent_id agent perception self)
      as (d & Hin & Hret).
    rewrite Hhead in Hin. exists d. split; [exact Hin|].
    split; [exact Hret|discriminate].
Qed.

Lemma fallback_lists_food_first_witness :
  let candidates :=
    possible_decisions Samples.low_draw "sam_ortiz" Samples.hungry
      Samples.alone Samples.evening in
  hd_error candidates = Some buy_cheap_food
  /\ Turn.is_food (action buy_cheap_food) = true
  /\ urgency buy_cheap_food = "high"
  /\ exists d : Decision,
       In d candidates
       /\ get_simulated_decision Samples.low_draw "sam_ortiz" Samples.hungry
            Samples.alone Samples.evening
          = Return (pop_weight d)
       /\ (Qleb (rand_val Samples.low_draw candidates) 80 = true
           -> d = buy_cheap_food).
Proof.
  apply (fallback_lists_food_first Samples.low_draw "sam_ortiz"
           Samples.hungry Samples.alone Samples.evening); reflexivity.
Defined.

(** With 47 in hand, a hunger of 85 and a draw of 0.75 the provider
    returns the crowdfunding candidate: not a food action, and of
    urgency medium. *)
Lemma hungry_agent_checks_crowdfunding :
  Turn.money Samples.hungry = 47%Q
  /\ Turn.hunger (Turn.needs Samples.hungry) = 85
  /\ get_simulated_decision Samples.high_draw "sam_ortiz" Samples.hungry
       Samples.alone Samples.evening
     = Return
         (mkDecision "post_crowdfunding_update" (Some "check_crowdfunding") []
            "Checking if anyone donated" "anxious" "medium" None)
  /\ Turn.is_food "post_crowdfunding_update" = false.
Proof. repeat split. Qed.

End Fallback.

(** * Further properties of the code *)

(** ** The action resolver, field by field *)

Section ResolverFields.
Import Py Turn.

Ltac case_resolver :=
  repeat match goal with
         | |- context [if ?b then _ else _] => destruct b
         | |- context [match action_tier ?m with _ => _ end] =>
             destruct (action_tier m)
         end.

(** X1: [execute_action] writes nothing but the money, the needs and
    the location of the agent: its id, personality, background,
    situation, goals, state, inventory and memories come out as they
    went in. *)
Theorem execute_action_frame (agent_id : string) (agent : Agent)
    (decision : Decision) :
  let after := snd (execute_action agent_id agent decision) in
  id after = id agent
  /\ personality after = personality agent
  /\ background after = background agent
  /\ current_situation after = current_situation agent
  /\ goals after = goals agent
  /\ current_state after = current_state agent
  /\ inventory after = inventory agent
  /\ memories after = memories agent.
Proof.
  destruct agent as [i p b c g st l m [h e s] inv mem].
  unfold execute_action; simpl.
  case_resolver; simpl; repeat split.
Qed.

(** X2: one call of [execute_action] never raises the hunger of an
    agent whose needs are in range, raises its exhaustion and its
    stress by 10 at most, and raises the stress only for a decision of
    urgency immediate. *)
Theorem execute_action_bounded_change (agent_id : string) (agent : Agent)
    (decision : Decision) :
  needs_ok (needs agent) ->
  let after := needs (snd (execute_action agent_id agent decision)) in
  hunger after <= hunger (needs agent)
  /\ exhaustion after <= exhaustion (needs agent) + 10
  /\ stress after <= stress (needs agent) + 10
  /\ (if String.eqb (urgency decision) "immediate" then True
      else stress after <= stress (needs agent)).
Proof.
  destruct agent as [i p b c g st l m [h e s] inv mem].
  unfold needs_ok, need_ok, execute_action; simpl.
  intros (Hh & He & Hs).
  case_resolver; simpl; repeat split; lia.
Qed.

Lemma execute_action_bounded_change_witness :
  let decision :=
    mkDecision "work_shift" "Need to earn tips" "tired" "high" in
  let after :=
    needs (snd (execute_action "jamie_rodriguez" jamie_rodriguez decision)) in
  hunger after <= hunger (needs jamie_rodriguez)
  /\ exhaustion after <= exhaustion (needs jamie_rodriguez) + 10
  /\ stress after <= stress (needs jamie_rodriguez) + 10
  /\ (if String.eqb (urgency decision) "immediate" then True
      else stress after <= stress (needs jamie_rodriguez)).
Proof.
  apply (execute_action_bounded_change "jamie_rodriguez" jamie_rodriguez).
  unfold needs_ok, need_ok. simpl. lia.
Defined.

Lemma update_needs_money (agent : Agent) :
  money (update_needs agent) = money agent.
Proof. unfold update_needs. now destruct (Qltb _ _). Qed.

Lemma iter_update_needs_money (n : nat) (agent : Agent) :
  money (Nat.iter n update_needs agent) = money agent.
Proof.
  induction n as [|n IH]; [reflexivity|].
  simpl. now rewrite update_needs_money.
Qed.

(** X3: [update_needs] called [n] times in a row on an agent whose
    needs are in range.  Below 100 of money the needs climb by 5, 3 and
    2 a call and stop at 100; from 100 of money on they fall by 5, 10
    and 5 a call and stop at 0.  The money is never touched. *)
Theorem update_needs_iterated (n : nat) (agent : Agent) :
  needs_ok (needs agent) ->
  let k := Z.of_nat n in
  needs (Nat.iter n update_needs agent)
  = (if Qltb (money agent) 100
     then mkNeeds (Z.min 100 (hunger (needs agent) + 5 * k))
            (Z.min 100 (exhaustion (needs agent) + 3 * k))
            (Z.min 100 (stress (needs agent) + 2 * k))
     else mkNeeds (Z.max 0 (hunger (needs agent) - 5 * k))
            (Z.max 0 (exhaustion (needs agent) - 10 * k))
            (Z.max 0 (stress (needs agent) - 5 * k)))
  /\ money (Nat.iter n update_needs agent) = money agent.
Proof.
  intros (Hh & He & Hs). unfold need_ok in *.
  split; [|apply iter_update_needs_money].
  induction n as [|n IH]; cbv zeta in *.
  - simpl. destruct (Qltb _ _); destruct (needs agent); simpl in *;
      f_equal; lia.
  - change (Nat.iter (S n) update_needs agent)
      with (update_needs (Nat.iter n update_needs agent)).
    pose proof (iter_update_needs_money n agent) as Hmoney.
    set (prev := Nat.iter n update_needs agent) in *.
    unfold update_needs. rewrite Hmoney.
    destruct (Qltb (money agent) 100); simpl; rewrite IH; simpl;
      f_equal; lia.
Qed.

Lemma update_needs_iterated_witness :
  let k := Z.of_nat 20 in
  needs (Nat.iter 20 update_needs alex_chen)
  = (if Qltb (money alex_chen) 100
     then mkNeeds (Z.min 100 (hunger (needs alex_chen) + 5 * k))
            (Z.min 100 (exhaustion (needs alex_chen) + 3 * k))
            (Z.min 100 (stress (needs alex_chen) + 2 * k))
     else mkNeeds (Z.max 0 (hunger (needs alex_chen) - 5 * k))
            (Z.max 0 (exhaustion (needs alex_chen) - 10 * k))
            (Z.max 0 (stress (needs alex_chen) - 5 * k)))
  /\ money (Nat.iter 20 update_needs alex_chen) = money alex_chen.
Proof.
  apply (update_needs_iterated 20 alex_chen).
  unfold needs_ok, need_ok. simpl. lia.
Defined.

End ResolverFields.


(** ** Who is perceived, and who meets whom *)

Section Company.
Import Py Turn.

(** X4: the others that [get_agent_perception] reports are the keys of
    the other agents whose location is the location of the perceiving
    agent; the agent never perceives itself. *)
Theorem others_present_spec (agent_id : string) (agent : Agent) (self : Sim)
    (other_id : string) :
  In other_id
    (others_present (fst (get_agent_perception agent_id agent self)))
  <-> other_id <> agent_id
      /\ exists other : Agent,
           In (other_id, other) (agents self)
           /\ location other = location agent.
Proof.
  unfold get_agent_perception. cbn [fst].
  assert (Hsame : forall a b c d e f g g' h h',
            others_present
              (if Qltb (money agent) 100
               then mkPerception a b c d e f g h
               else mkPerception a b c d e f g' h') = c).
  { intros. now destruct (Qltb _ _). }
  rewrite Hsame. apply others_here_In.
Qed.

Lemma forallb_Permutation {B} (f : B -> bool) (l l' : list B) :
  Permutation l l' -> forallb f l = forallb f l'.
Proof.
  induction 1; simpl; try congruence.
  destruct (f x), (f y); reflexivity.
Qed.

Lemma existsb_Permutation {B} (f : B -> bool) (l l' : list B) :
  Permutation l l' -> existsb f l = existsb f l'.
Proof.
  induction 1; simpl; try congruence.
  destruct (f x), (f y); reflexivity.
Qed.

(** The wealth level that [determine_encounter_type] reads for an id. *)
Lemma wealth_levels_returns (ags : list (string * Agent))
    (agent_ids : list string) :
  (forall agent_id, In agent_id agent_ids -> In agent_id (map fst ags)) ->
  wealth_levels ags agent_ids
  = Return
      (map (fun agent_id =>
              match dict_get agent_id ags with
              | Some agent => wealth_level agent
              | None => ""
              end) agent_ids).
Proof.
  induction agent_ids as [|agent_id rest IH]; intros Hkeys; [reflexivity|].
  cbn [wealth_levels map].
  destruct (dict_get_In_keys agent_id ags) as [agent Hget];
    [apply Hkeys; now left|].
  rewrite Hget, IH; [reflexivity|].
  intros k Hk. apply Hkeys. now right.
Qed.

Lemma encounter_label (levels : list string) :
  In (if forallb (fun w => String.eqb w "poor") levels then "solidarity"
      else if mem "poor" levels && mem "wealthy" levels then "class_collision"
      else "neutral")
    ["solidarity"; "class_collision"; "neutral"].
Proof.
  destruct (forallb _ _); [now left|].
  destruct (_ && _); [right; now left|right; right; now left].
Qed.

(** X5: for ids that are all keys of the agents, the type that
    [determine_encounter_type] returns does not depend on the order of
    the ids, and is one of solidarity, class_collision and neutral. *)
Theorem determine_encounter_type_order (self : Sim)
    (agent_ids agent_ids' : list string) :
  Permutation agent_ids agent_ids' ->
  (forall agent_id,
      In agent_id agent_ids -> In agent_id (map fst (agents self))) ->
  determine_encounter_type self agent_ids
  = determine_encounter_type self agent_ids'
  /\ exists label : string,
       determine_encounter_type self agent_ids = Return label
       /\ In label ["solidarity"; "class_collision"; "neutral"].
Proof.
  intros Hperm Hkeys.
  assert (Hkeys' : forall agent_id,
             In agent_id agent_ids' -> In agent_id (map fst (agents self))).
  { intros k Hk. apply Hkeys. eapply Permutation_in; [|exact Hk].
    now apply Permutation_sym. }
  unfold determine_encounter_type.
  rewrite (wealth_levels_returns _ _ Hkeys), (wealth_levels_returns _ _ Hkeys').
  cbn [bind].
  set (level := fun agent_id : string =>
                  match dict_get agent_id (agents self) with
                  | Some agent => wealth_level agent
                  | None => ""
                  end).
  pose proof (Permutation_map level Hperm) as Hlevels.
  unfold mem.
  rewrite (forallb_Permutation (fun w => String.eqb w "poor") _ _ Hlevels),
    (existsb_Permutation (String.eqb "poor") _ _ Hlevels),
    (existsb_Permutation (String.eqb "wealthy") _ _ Hlevels).
  split; [reflexivity|].
  pose proof (encounter_label (map level agent_ids')) as Hlabel.
  unfold mem in Hlabel.
  destruct (forallb _ _); [eauto|]. destruct (_ && _); eauto.
Qed.

Lemma determine_encounter_type_order_witness :
  determine_encounter_type Samples.sim0 ["alex_chen"; "jamie_rodriguez"]
  = determine_encounter_type Samples.sim0 ["jamie_rodriguez"; "alex_chen"]
  /\ exists label : string,
       determine_encounter_type Samples.sim0 ["alex_chen"; "jamie_rodriguez"]
       = Return label
       /\ In label ["solidarity"; "class_collision"; "neutral"].
Proof.
  apply (determine_encounter_type_order Samples.sim0
           ["alex_chen"; "jamie_rodriguez"] ["jamie_rodriguez"; "alex_chen"]).
  - apply perm_swap.
  - intros agent_id [<-|[<-|[]]]; simpl; auto.
Defined.

Lemma here_are_keys (self : Sim) (location : string) (agent_id : string) :
  In agent_id
    (map fst
       (List.filter
          (fun entry : string * Agent =>
             String.eqb (Turn.location (snd entry)) location)
          (agents self))) ->
  In agent_id (map fst (agents self))
  /\ exists agent : Agent,
       In (agent_id, agent) (agents self)
       /\ Turn.location agent = location.
Proof.
  rewrite in_map_iff. intros ([k agent] & <- & Hin).
  apply filter_In in Hin as [Hin Hloc]. cbn [fst snd] in *.
  apply String.eqb_eq in Hloc. split.
  - apply in_map_iff. now exists (k, agent).
  - now exists agent.
Qed.

(** What [check_encounters] returns, place by place. *)
Lemma encounters_at_sound (self : Sim)
    (places : list (string * LocationData)) :
  exists encounters : list Encounter,
    encounters_at self places = Return encounters
    /\ Forall
         (fun e =>
            (2 <= length (participants e))%nat
            /\ In (e_location e) (map fst places)
            /\ In (e_type e) ["solidarity"; "class_collision"; "neutral"]
            /\ forall agent_id,
                 In agent_id (participants e) ->
                 exists agent : Agent,
                   In (agent_id, agent) (agents self)
                   /\ location agent = e_location e)
         encounters.
Proof.
  induction places as [|[place data] places (rest & Hrest & Hall)].
  - exists []. split; [reflexivity|constructor].
  - cbn [encounters_at].
    set (here := map fst (List.filter _ (agents self))).
    assert (Hall' : Forall
              (fun e =>
                 (2 <= length (participants e))%nat
                 /\ In (e_location e) (map fst ((place, data) :: places))
                 /\ In (e_type e) ["solidarity"; "class_collision"; "neutral"]
                 /\ forall agent_id,
                      In agent_id (participants e) ->
                      exists agent : Agent,
                        In (agent_id, agent) (agents self)
                        /\ location agent = e_location e) rest).
    { eapply List.Forall_impl; [|exact Hall].
      intros e (H1 & H2 & H3 & H4). repeat split; auto. now right. }
    destruct (Nat.ltb_spec 1 (length here)) as [Hmany|Hfew].
    + unfold determine_encounter_type.
      rewrite wealth_levels_returns
        by (intros k Hk; now apply (here_are_keys self place k)).
      cbn [bind]. rewrite Hrest.
      destruct (forallb _ _) eqn:Hpoor; [|destruct (_ && _) eqn:Hmixed];
        cbn [bind]; eexists; (split; [reflexivity|]);
        (constructor; [|exact Hall']); cbn [participants e_location e_type];
        (split; [lia|]); (split; [now left|]);
        (split; [simpl; tauto|]);
        intros k Hk; now apply (here_are_keys self place k).
    + exists rest. split; [exact Hrest|exact Hall'].
Qed.

(** X6: [check_encounters] never raises; every encounter that it
    reports is at a place of the registry, has two participants or
    more, all of them agents located at that place, and has one of the
    three types. *)
Theorem check_encounters_sound (self : Sim) :
  exists encounters : list Encounter,
    check_encounters self = Return encounters
    /\ Forall
         (fun e =>
            (2 <= length (participants e))%nat
            /\ In (e_location e) (map fst (locations (world_state self)))
            /\ In (e_type e) ["solidarity"; "class_collision"; "neutral"]
            /\ forall agent_id,
                 In agent_id (participants e) ->
                 exists agent : Agent,
                   In (agent_id, agent) (agents self)
                   /\ location agent = e_location e)
         encounters.
Proof. apply encounters_at_sound. Qed.

End Company.

(** ** A whole turn *)

Section WholeTurn.
Import Py Turn.

Lemma same_frame_refl (self : Sim) : same_frame self self.
Proof. now repeat split. Qed.

Lemma same_frame_trans (a b c : Sim) :
  same_frame a b -> same_frame b c -> same_frame a c.
Proof.
  unfold same_frame. intros (?&?&?&?&?&?) (?&?&?&?&?&?).
  repeat split; congruence.
Qed.

Lemma agent_turn_frame (out : Outside) (agent_id : string)
    (self self' : Sim) (tables tables' : Tables) :
  agent_turn out agent_id (self, tables) = Return (self', tables') ->
  same_frame self self'.
Proof.
  destruct (dict_get agent_id (agents self)) as [agent|] eqn:Hget.
  - intros Hturn.
    destruct (agent_turn_returns _ _ _ _ _ _ _ Hget Hturn)
      as (decision & entry & -> & _).
    unfold same_frame, with_agents. cbn.
    repeat split. eapply dict_set_keys, Hget.
  - unfold agent_turn. rewrite Hget. intros [= <- <-].
    apply same_frame_refl.
Qed.

Lemma agent_turn_ok (out : Outside) (agent_id : string)
    (self self' : Sim) (tables tables' : Tables) :
  Forall (fun entry => agent_ok (snd entry)) (agents self) ->
  rows_capped tables ->
  agent_turn out agent_id (self, tables) = Return (self', tables') ->
  Forall (fun entry => agent_ok (snd entry)) (agents self')
  /\ rows_capped tables'.
Proof.
  intros Hok Hrows.
  destruct (dict_get agent_id (agents self)) as [agent|] eqn:Hget.
  - intros Hturn.
    destruct (agent_turn_returns _ _ _ _ _ _ _ Hget Hturn)
      as (decision & entry & -> & ->).
    assert (Hagent : agent_ok agent).
    { apply dict_get_Some_In in Hget.
      rewrite List.Forall_forall in Hok. apply (Hok _ Hget). }
    destruct Hagent as [Hneeds Hmoney].
    split; [|now apply save_agent_state_capped].
    cbn [agents with_agents]. apply dict_set_Forall; [exact Hok|].
    cbn [snd]. split.
    + apply update_needs_ok.
      change (needs_ok (needs (snd (execute_action agent_id agent decision)))).
      now apply execute_action_needs_ok.
    + rewrite update_needs_money.
      change (0 <= money (snd (execute_action agent_id agent decision)))%Q.
      now apply execute_action_money_nonneg.
  - unfold agent_turn. rewrite Hget. now intros [= <- <-].
Qed.


Lemma for_each_agent_frame (out : Outside) (agent_ids : list string) :
  forall (self self' : Sim) (tables tables' : Tables),
    Forall (fun entry => agent_ok (snd entry)) (agents self) ->
    rows_capped tables ->
    for_each_agent out agent_ids (self, tables) = Return (self', tables') ->
    same_frame self self'
    /\ Forall (fun entry => agent_ok (snd entry)) (agents self')
    /\ rows_capped tables'.
Proof.
  induction agent_ids as [|agent_id rest IH];
    intros self self' tables tables' Hok Hrows.
  - intros [= <- <-]. split; [apply same_frame_refl|now split].
  - cbn [for_each_agent].
    destruct (agent_turn out agent_id (self, tables))
      as [[self1 tables1]|e] eqn:Hturn; [|discriminate].
    cbn [bind]. intros Hrest.
    destruct (agent_turn_ok _ _ _ _ _ _ Hok Hrows Hturn) as [Hok1 Hrows1].
    destruct (IH _ _ _ _ Hok1 Hrows1 Hrest) as (Hframe & Hok' & Hrows').
    split; [|now split].
    eapply same_frame_trans; [eapply agent_turn_frame, Hturn|exact Hframe].
Qed.


Lemma keys_nil {B} (d d' : list (string * B)) :
  map fst d' = map fst d -> d = [] -> d' = [].
Proof. intros H ->. now destruct d'. Qed.


(** A reply that has an action and no reasoning stops the turn at the
    first agent with [KeyError]; a call that times out stops it there
    with [NameError]; a reply without JSON lets it through. *)
Example three_ways_out_of_a_turn :
  raised (execute_turn Samples.only_wait Samples.sim0 Samples.tables0)
  = Some (KeyError "reasoning")
  /\ raised (execute_turn Samples.timeouts Samples.sim0 Samples.tables0)
     = Some (NameError "tier")
  /\ raised (execute_turn Samples.chatter Samples.sim0 Samples.tables0)
     = None.
Proof. vm_compute. repeat split. Qed.

(** X8: what a turn that comes to its end has done.  The turn number
    is one more and the clock thirty minutes later, the world state
    carries both, the agents are the same keys in the same order; and
    if every agent had its needs in [0,100] and its money at or above
    zero, and every row of the memories table at most 30 entries, the
    same holds after the turn. *)
Theorem execute_turn_effects (out : Outside) (self self' : Sim)
    (tables tables' : Tables) :
  Forall (fun entry => agent_ok (snd entry)) (agents self) ->
  rows_capped tables ->
  execute_turn out self tables = Return (self', tables') ->
  turn_number self' = turn_number self + 1
  /\ world_time self' = world_time self + 30
  /\ ws_turn_number (world_state self') = turn_number self'
  /\ ws_world_time (world_state self') = world_time self'
  /\ locations (world_state self') = locations (world_state self)
  /\ map fst (agents self') = map fst (agents self)
  /\ Forall (fun entry => agent_ok (snd entry)) (agents self')
  /\ rows_capped tables'.
Proof.
  intros Hok Hrows. unfold execute_turn.
  set (self1 := with_turn_number (turn_number self + 1) self).
  destruct (for_each_agent out (map fst (agents self1)) (self1, tables))
    as [[self2 tables2]|e] eqn:Hloop; [|discriminate].
  cbn [bind].
  destruct (check_encounters self2); [|discriminate]. cbn [bind].
  destruct (print_summary _); [|discriminate]. cbn [bind].
  intros [= <- <-].
  destruct (for_each_agent_frame out _ self1 self2 tables tables2 Hok Hrows
              Hloop) as ((_ & _ & Hws & Hturn & Htime & Hk) & Hok2 & Hrows2).
  unfold save_world_state, with_world_time.
  cbn [turn_number world_time world_state ws_turn_number ws_world_time
       locations agents].
  rewrite Hturn, Htime, Hws, Hk. now repeat split.
Qed.

Lemma execute_turn_effects_witness :
  let self' := fst Samples.after_chatter_turn in
  let tables' := snd Samples.after_chatter_turn in
  turn_number self' = turn_number Samples.sim0 + 1
  /\ world_time self' = world_time Samples.sim0 + 30
  /\ ws_turn_number (world_state self') = turn_number self'
  /\ ws_world_time (world_state self') = world_time self'
  /\ locations (world_state self') = locations (world_state Samples.sim0)
  /\ map fst (agents self') = map fst (agents Samples.sim0)
  /\ Forall (fun entry => agent_ok (snd entry)) (agents self')
  /\ rows_capped tables'.
Proof.
  apply (execute_turn_effects Samples.chatter Samples.sim0
           (fst Samples.after_chatter_turn) Samples.tables0
           (snd Samples.after_chatter_turn)).
  - repeat constructor; simpl; try lia; discriminate.
  - intros agent_id row H. unfold Samples.tables0 in H.
    cbn [character_memories] in H. rewrite lookup_empty in H.
    discriminate H.
  - vm_compute. reflexivity.
Defined.

End WholeTurn.

(** ** Loading the agents *)

Section Loading.
Import Py Turn.

Lemma lower_char_not_upper (c : ascii) :
  ~ (65 <= nat_of_ascii (lower_char c) <= 90)%nat.
Proof.
  unfold lower_char.
  destruct ((65 <=? nat_of_ascii c)%nat && (nat_of_ascii c <=? 90)%nat)
    eqn:E.
  - apply andb_true_iff in E as [H1 H2].
    apply Nat.leb_le in H1, H2.
    rewrite nat_ascii_embedding by lia. lia.
  - intros [H1 H2]. apply Nat.leb_le in H1, H2. rewrite H1, H2 in E.
    discriminate.
Qed.

(** A text that starts with a capital letter does not occur in a
    lowered text. *)
Lemma capital_not_in_lower (c : ascii) (rest s : string) :
  (65 <= nat_of_ascii c <= 90)%nat ->
  contains (String c rest) (lower s) = false.
Proof.
  intros Hc. induction s as [|c' s IH]; [reflexivity|].
  cbn [lower contains String.prefix]. rewrite IH, orb_false_r.
  destruct (ascii_dec c (lower_char c')) as [->|_]; [|reflexivity].
  now apply lower_char_not_upper in Hc.
Qed.

(** X9: the tests ['PM' in background.lower()] and
    ['ICU' in background.lower()] of [load_agents] never hold, so an
    item starts at the tech office exactly when it is not ranked with
    the rich and its lowered background holds the word tech, and at
    the hospital only when its lowered background holds the word
    nurse. *)
Theorem capital_tests_never_hold (background : string) :
  contains "PM" (lower background) = false
  /\ contains "ICU" (lower background) = false
  /\ String.eqb (snd (starting_point background)) "tech_office"
     = negb (contains "$500K" background || contains "$25M" background
             || contains "trust fund" (lower background))
       && contains "tech" (lower background)
  /\ (if String.eqb (snd (starting_point background)) "hospital"
      then contains "nurse" (lower background) = true
      else True).
Proof.
  assert (HPM : contains "PM" (lower background) = false)
    by (apply capital_not_in_lower; split; apply Nat.leb_le; reflexivity).
  assert (HICU : contains "ICU" (lower background) = false)
    by (apply capital_not_in_lower; split; apply Nat.leb_le; reflexivity).
  split; [exact HPM|]. split; [exact HICU|].
  unfold starting_point. rewrite HPM, HICU, !orb_false_r.
  destruct (contains "$500K" background || contains "$25M" background
            || contains "trust fund" (lower background));
    cbn [negb andb snd]; [now split|].
  destruct (contains "tech" (lower background)); cbn [snd]; [now split|].
  destruct (contains "writer" (lower background)
            || contains "couch" (lower background)); cbn [snd]; [now split|].
  destruct (contains "barista" (lower background)
            || contains "film" (lower background)); cbn [snd]; [now split|].
  destruct (contains "nurse" (lower background)); cbn [snd]; now split.
Qed.

Lemma starting_point_money (background : string) :
  (43 <= fst (starting_point background))%Q.
Proof.
  unfold starting_point.
  repeat match goal with
         | |- context [if ?b then _ else _] => destruct b
         end; cbn [fst]; discriminate.
Qed.

Lemma default_needs_ok (money : Q) :
  needs_ok
    (mkNeeds (if Qltb 10000 money then 10 else 75)
       (if Qltb 10000 money then 0 else 85)
       (if Qltb 10000 money then 5 else 90)).
Proof. unfold needs_ok, need_ok. destruct (Qltb _ _); simpl; lia. Qed.

Lemma load_memories_capped (reads_ok : bool) (tables : Tables)
    (agent_id : string) :
  rows_capped tables ->
  (length (load_memories reads_ok tables agent_id) <= 30)%nat.
Proof.
  intros Hrows. unfold load_memories.
  destruct reads_ok; [|simpl; lia].
  destruct (character_memories tables !! agent_id) as [row|] eqn:E;
    [|simpl; lia].
  exact (Hrows _ _ E).
Qed.

Lemma agent_of_item_ok (memories : list string) (item : Item) :
  (forall n, item_needs item = Some n -> needs_ok n) ->
  (length memories <= 30)%nat ->
  loaded_ok (agentId item, agent_of_item memories item).
Proof.
  intros Hneeds Hlen. unfold loaded_ok, agent_of_item, agent_ok.
  pose proof (starting_point_money (default "" (item_background item)))
    as Hmoney.
  destruct (starting_point _) as [money location]. cbn [fst snd] in *.
  cbn [Turn.id Turn.needs Turn.money Turn.memories].
  split; [reflexivity|]. split; [|split; [exact Hmoney|exact Hlen]].
  split; [|lra].
  destruct (item_needs item) as [n|]; cbn.
  - now apply Hneeds.
  - apply default_needs_ok.
Qed.

(** X10: what [load_agents] gives.  If the needs that the items carry
    are in range and the rows of the memories table hold 30 entries at
    most, then every agent that [load_agents] builds, from the table or
    by default, has its key as id, needs in [0,100], money of 43 or
    more and 30 memories at most. *)
Theorem load_agents_ok (scan : option (list Item)) (reads_ok : bool)
    (tables : Tables) :
  (forall items item n,
      scan = Some items -> In item items -> item_needs item = Some n ->
      needs_ok n) ->
  rows_capped tables ->
  Forall loaded_ok (load_agents scan reads_ok tables).
Proof.
  intros Hneeds Hrows. unfold load_agents.
  destruct scan as [items|].
  - assert (Hitems : forall item n,
               In item items -> item_needs item = Some n -> needs_ok n)
      by (intros item n; now apply Hneeds).
    clear Hneeds.
    assert (Hfold : forall acc,
               Forall loaded_ok acc ->
               Forall loaded_ok
                 (fold_left
                    (fun agents item =>
                       dict_set (agentId item)
                         (agent_of_item
                            (load_memories reads_ok tables (agentId item))
                            item) agents) items acc)).
    { induction items as [|item items IH]; intros acc Hacc; [exact Hacc|].
      cbn [fold_left]. apply IH.
      - intros it n Hin. apply Hitems. now right.
      - apply dict_set_Forall; [exact Hacc|].
        apply agent_of_item_ok.
        + intros n. apply Hitems. now left.
        + now apply load_memories_capped. }
    apply Hfold. constructor.
  - unfold get_default_agents, loaded_ok, agent_ok, needs_ok, need_ok.
    repeat constructor; simpl; try lia; discriminate.
Qed.

Lemma load_agents_ok_witness :
  Forall loaded_ok
    (load_agents (Some [Samples.writer_item; Samples.manager_item]) true
       Samples.tables0).
Proof.
  apply (load_agents_ok (Some [Samples.writer_item; Samples.manager_item])
           true Samples.tables0).
  - intros items item n [= <-] [<-|[<-|[]]]; discriminate.
  - intros agent_id row H. unfold Samples.tables0 in H.
    cbn [character_memories] in H. rewrite lookup_empty in H.
    discriminate H.
Defined.

(** A background that says PM and nothing else starts with 100 at the
    library, not at the tech office. *)
Example manager_is_not_tech :
  starting_point "Senior PM at a startup" = (100%Q, "public_library").
Proof. reflexivity. Qed.

(** X11: the memories of an agent written by [save_memories] and read
    back by [load_memories] are the last 30 of the list, and the rows
    of the other agents read as before. *)
Theorem saved_memories_reload (tables : Tables) (agent_id other_id : string)
    (memories : list string) :
  memory_writes_ok tables = true ->
  other_id <> agent_id ->
  load_memories true (save_memories tables agent_id memories) agent_id
  = last_n 30 memories
  /\ (length
        (load_memories true (save_memories tables agent_id memories) agent_id)
      <= 30)%nat
  /\ load_memories true (save_memories tables agent_id memories) other_id
     = load_memories true tables other_id.
Proof.
  intros Hok Hne. unfold load_memories, save_memories. rewrite Hok.
  cbn [character_memories]. rewrite lookup_insert_eq.
  rewrite lookup_insert_ne by congruence. cbn.
  split; [reflexivity|]. split; [apply length_last_n|reflexivity].
Qed.

Lemma saved_memories_reload_witness :
  load_memories true
    (save_memories Samples.tables0 "alex_chen"
       (memories Samples.veteran ++ ["[06:30AM] wait: one more"]))
    "alex_chen"
  = last_n 30 (memories Samples.veteran ++ ["[06:30AM] wait: one more"])
  /\ (length
        (load_memories true
           (save_memories Samples.tables0 "alex_chen"
              (memories Samples.veteran ++ ["[06:30AM] wait: one more"]))
           "alex_chen")
      <= 30)%nat
  /\ load_memories true
       (save_memories Samples.tables0 "alex_chen"
          (memories Samples.veteran ++ ["[06:30AM] wait: one more"]))
       "jamie_rodriguez"
     = load_memories true Samples.tables0 "jamie_rodriguez".
Proof.
  apply (saved_memories_reload Samples.tables0 "alex_chen" "jamie_rodriguez").
  - reflexivity.
  - discriminate.
Defined.

End Loading.

(** ** Encounters of the simulation with tools *)

Section McpEncounters.
Import Py Mcp.

Lemma Qltb_true (x y : Q) : Qltb x y = true -> (x < y)%Q.
Proof.
  unfold Qltb. destruct (Qle_bool y x) eqn:E; [discriminate|]. intros _.
  apply Qnot_le_lt. intros H. apply Qle_bool_iff in H. congruence.
Qed.

Lemma Qltb_false (x y : Q) : Qltb x y = false -> (y <= x)%Q.
Proof.
  unfold Qltb. destruct (Qle_bool y x) eqn:E; [|discriminate]. intros _.
  now apply Qle_bool_iff.
Qed.

Lemma float_sub_swap (x y : Q) : float_sub y x = (- float_sub x y)%Q.
Proof.
  unfold float_sub. rewrite <- float_of_opp. apply float_of_comp. ring.
Qed.

Lemma Qltb_gap_sym (x y : Q) :
  Qltb 10000 (Qabs (float_sub x y)) = Qltb 10000 (Qabs (float_sub y x)).
Proof.
  rewrite (float_sub_swap x y). unfold Qltb.
  now rewrite (Qleb_comp _ _ (Qabs_opp (float_sub x y)) _ _ (Qeq_refl 10000)).
Qed.

(** X12: the rule that names the interaction gives the same type
    whichever of the two characters comes first. *)
Theorem interaction_type_of_symmetric (money1 money2 : Q) :
  interaction_type_of money1 money2 = interaction_type_of money2 money1.
Proof.
  unfold interaction_type_of.
  rewrite (Qltb_gap_sym money1 money2),
    (andb_comm (Qltb money1 100)), (orb_comm (Qltb money1 100)).
  reflexivity.
Qed.

Lemma agents_change_agent (k j : string) (f : Agent -> Agent) (self : Sim) :
  dict_get j (agents (change_agent k f self))
  = if String.eqb k j then f <$> dict_get j (agents self)
    else dict_get j (agents self).
Proof.
  unfold change_agent.
  destruct (String.eqb k j) eqn:E.
  - apply String.eqb_eq in E. subst j.
    destruct (dict_get k (agents self)) as [a|] eqn:Hget; cbn [agents].
    + now rewrite dict_get_set_eq.
    + now rewrite Hget.
  - assert (Hne : k <> j) by (intros ->; now rewrite String.eqb_refl in E).
    destruct (dict_get k (agents self)) as [a|]; cbn [agents];
      [now rewrite dict_get_set_ne|reflexivity].
Qed.

Lemma update_relationship_agents (char1 char2 : string) (dt da : Z)
    (self : Sim) (agent1 : Agent) :
  dict_get char1 (agents self) = Some agent1 ->
  exists self' : Sim,
    update_relationship char1 char2 dt da self = Return self'
    /\ agents self' = agents self.
Proof.
  intros Hget. unfold update_relationship. rewrite Hget.
  eexists. split; reflexivity.
Qed.

Ltac finish_encounter Hget1 Hget2 E12 E21 E1o E2o :=
  match goal with
  | |- context [update_relationship ?a ?b ?dt ?da ?s] =>
      let a1 := fresh "a1" in
      let Ha := fresh "Ha" in
      let s' := fresh "s'" in
      let Hr := fresh "Hr" in
      let Hs := fresh "Hs" in
      assert (Ha : exists a1, dict_get a (agents s) = Some a1)
        by (rewrite ?agents_change_agent, ?String.eqb_refl, ?E12, ?E21,
              Hget1; cbn; eauto);
      destruct Ha as [a1 Ha];
      destruct (update_relationship_agents a b dt da s a1 Ha)
        as (s' & Hr & Hs);
      rewrite Hr; exists s'; rewrite Hs;
      rewrite ?agents_change_agent, ?String.eqb_refl, ?E12, ?E21, ?E1o,
        ?E2o, ?Hget1, ?Hget2; cbn [fmap option_fmap option_map];
      do 2 eexists; split; [reflexivity|];
      split; [reflexivity|]; split; [reflexivity|];
      unfold add_money, add_memory; cbn [Turn.money Turn.with_money
                                          Turn.with_memories]
  end.

(** X13: [simulate_character_interaction] between two different
    characters of the simulation returns, and moves money only between
    the two: what they hold together is what they held, each of them
    that was not below zero is not below zero afterwards, and no other
    agent changes. *)
Theorem simulate_character_interaction_conserves (roll : Q)
    (char1_id char2_id location other_id : string) (self : Sim)
    (char1 char2 : Agent) :
  char1_id <> char2_id ->
  other_id <> char1_id ->
  other_id <> char2_id ->
  dict_get char1_id (agents self) = Some char1 ->
  dict_get char2_id (agents self) = Some char2 ->
  exists (self' : Sim) (char1' char2' : Agent),
    simulate_character_interaction roll char1_id char2_id location self
    = Return self'
    /\ dict_get char1_id (agents self') = Some char1'
    /\ dict_get char2_id (agents self') = Some char2'
    /\ (Turn.money char1' + Turn.money char2'
        == Turn.money char1 + Turn.money char2)%Q
    /\ ((0 <= Turn.money char1)%Q -> (0 <= Turn.money char1')%Q)
    /\ ((0 <= Turn.money char2)%Q -> (0 <= Turn.money char2')%Q)
    /\ dict_get other_id (agents self') = dict_get other_id (agents self).
Proof.
  intros H12 Ho1 Ho2 Hget1 Hget2.
  assert (E12 : String.eqb char1_id char2_id = false)
    by (apply String.eqb_neq; exact H12).
  assert (E21 : String.eqb char2_id char1_id = false)
    by (apply String.eqb_neq; congruence).
  assert (E1o : String.eqb char1_id other_id = false)
    by (apply String.eqb_neq; congruence).
  assert (E2o : String.eqb char2_id other_id = false)
    by (apply String.eqb_neq; congruence).
  unfold simulate_character_interaction, interaction_type_of.
  rewrite Hget1, Hget2.
  set (m1 := Turn.money char1) in *. set (m2 := Turn.money char2) in *.
  assert (Hten : (float_of m1 <= 10 \/ 10 < m1)%Q).
  { destruct (Qlt_le_dec 10 (float_of m1)) as [H|H]; [right|now left].
    apply (float_of_above 10); [reflexivity|exact H]. }
  assert (Hrich1 : (float_of m1 < 100 \/ 20 < m1)%Q).
  { destruct (Qlt_le_dec (float_of m1) 100) as [H|H]; [now left|right].
    apply (float_of_above 20); [reflexivity|lra]. }
  assert (Hrich2 : (float_of m2 < 100 \/ 20 < m2)%Q).
  { destruct (Qlt_le_dec (float_of m2) 100) as [H|H]; [now left|right].
    apply (float_of_above 20); [reflexivity|lra]. }
  set (f1 := float_of m1) in *. set (f2 := float_of m2) in *.
  set (gap := Qabs (float_sub f1 f2)).
  destruct (Qltb f1 100) eqn:P1, (Qltb f2 100) eqn:P2;
    cbn [andb orb];
    try (destruct (Qltb 10000 gap) eqn:G);
    cbn [String.eqb Ascii.eqb Bool.eqb andb];
    try (destruct (Qltb 10 f1 && Qltb f2 5) eqn:S);
    try (destruct (Qltb roll (float_of 0.3)));
    try (destruct (Qltb f2 f1) eqn:W);
    finish_encounter Hget1 Hget2 E12 E21 E1o E2o;
    repeat match goal with
           | H : Qltb _ _ = true |- _ => apply Qltb_true in H
           | H : Qltb _ _ = false |- _ => apply Qltb_false in H
           | H : _ && _ = true |- _ => apply andb_true_iff in H as [? ?]
           end;
    fold m1 m2; repeat split; try intros ?;
    try (destruct Hten as [?|?], Hrich1 as [?|?], Hrich2 as [?|?]; lra).
Qed.

Lemma simulate_character_interaction_conserves_witness :
  exists (self' : Sim) (char1' char2' : Agent),
    simulate_character_interaction 0.1 "alex_chen" "dana_wu"
      "public_library" Samples.trio_evening
    = Return self'
    /\ dict_get "alex_chen" (agents self') = Some char1'
    /\ dict_get "dana_wu" (agents self') = Some char2'
    /\ (Turn.money char1' + Turn.money char2'
        == Turn.money Turn.alex_chen + Turn.money Samples.broke)%Q
    /\ ((0 <= Turn.money Turn.alex_chen)%Q -> (0 <= Turn.money char1')%Q)
    /\ ((0 <= Turn.money Samples.broke)%Q -> (0 <= Turn.money char2')%Q)
    /\ dict_get "jamie_rodriguez" (agents self')
       = dict_get "jamie_rodriguez" (agents Samples.trio_evening).
Proof.
  apply (simulate_character_interaction_conserves 0.1 "alex_chen"
           "dana_wu" "public_library" "jamie_rodriguez" Samples.trio_evening
           Turn.alex_chen Samples.broke);
    try discriminate; reflexivity.
Defined.

(** Alex, with 53.09, meets Dana, with 3.50, at the library: five go
    from the one to the other, and Jamie keeps 43. *)
Example alex_shares_five_with_dana :
  match
    simulate_character_interaction 0.1 "alex_chen" "dana_wu" "public_library"
      Samples.trio_evening
  with
  | Return self' =>
      (Turn.money <$> dict_get "alex_chen" (agents self')) = Some 48.09%Q
      /\ (Turn.money <$> dict_get "dana_wu" (agents self')) = Some 8.5%Q
      /\ (Turn.money <$> dict_get "jamie_rodriguez" (agents self'))
         = Some 43%Q
  | Raise _ => False
  end.
Proof. vm_compute. repeat split. Qed.

End McpEncounters.

(** ** The candidates of the weighted provider *)

Section Candidates.
Import Py Mcp.

Lemma or_default_Forall (P : Decision -> Prop) (l : list Decision)
    (d : Decision) :
  Forall P l -> P d ->
  Forall P (match l with [] => [d] | _ :: _ => l end).
Proof. intros Hl Hd. destruct l; [now constructor|exact Hl]. Qed.

Ltac candidates_by_cases :=
  unfold possible_decisions; cbv zeta;
  apply or_default_Forall;
  [ repeat (apply Forall_app; split);
    cbn [List.filter money_actions action plain];
    repeat match goal with
           | |- context [if ?b then _ else _] => destruct b
           | |- context [match ?l with [] => _ | _ :: _ => _ end] =>
               destruct l
           end;
    repeat match goal with |- Forall _ _ => constructor end
  | ].

Lemma candidates_urgency (draws : Draws) (agent_id : string) (agent : Agent)
    (perception : Perception) (self : Sim) :
  Forall
    (fun d => In (urgency d) ["immediate"; "high"; "medium"; "low"]
              /\ action d <> "")
    (possible_decisions draws agent_id agent perception self).
Proof.
  candidates_by_cases; cbn; (split; [auto 8|discriminate]).
Qed.

(** X14: [get_simulated_decision] always returns a decision; the
    decision carries no weight, has an action, and has an urgency among
    immediate, high, medium and low. *)
Theorem fallback_decision_contract (draws : Draws) (agent_id : string)
    (agent : Agent) (perception : Perception) (self : Sim) :
  exists d : Decision,
    get_simulated_decision draws agent_id agent perception self = Return d
    /\ weight d = None
    /\ action d <> ""
    /\ In (urgency d) ["immediate"; "high"; "medium"; "low"].
Proof.
  destruct (get_simulated_decision_In draws agent_id agent perception self)
    as (d & Hin & ->).
  pose proof (candidates_urgency draws agent_id agent perception self) as Hall.
  rewrite List.Forall_forall in Hall. destruct (Hall d Hin) as [Hu Ha].
  exists (pop_weight d). now repeat split.
Qed.

End Candidates.

Section Repetition.
Import Py Mcp.

Lemma candidates_avoid (name : string) (draws : Draws) (agent_id : string)
    (agent : Agent) (perception : Perception) (self : Sim) :
  In name (map action money_actions) ->
  contains name (str_of_list (recent_actions agent)) = true ->
  Forall (fun d => action d <> name)
    (possible_decisions draws agent_id agent perception self).
Proof.
  unfold recent_actions.
  intros [<-|[<-|[<-|[]]]] Hrecent;
    unfold possible_decisions; cbv zeta;
    apply or_default_Forall;
    try (cbn; discriminate);
    repeat (apply Forall_app; split);
    cbn [List.filter money_actions action plain];
    cbn [action plain money_actions] in Hrecent;
    rewrite ?Hrecent; cbn [negb];
    repeat match goal with
           | |- context [if ?b then _ else _] => destruct b
           | |- context [match ?l with [] => _ | _ :: _ => _ end] =>
               destruct l
           end;
    repeat match goal with |- Forall _ _ => constructor end;
    cbn; discriminate.
Qed.

(** X15: a money-making action whose name occurs in
    [str(recent_actions)] is not taken again: [get_simulated_decision]
    returns a decision with another action.  [recent_actions] keeps, of
    each of the last five memories, the text after its last colon,
    stripped, and the whole memory when it has no colon; a name that
    occurs in a memory only before its last colon is not looked at. *)
Theorem fallback_avoids_recent_money_action (name : string) (draws : Draws)
    (agent_id : string) (agent : Agent) (perception : Perception)
    (self : Sim) :
  In name
    ["stream_for_donations"; "post_crowdfunding_update";
     "freelance_gig_search"] ->
  contains name (str_of_list (recent_actions agent)) = true ->
  exists d : Decision,
    get_simulated_decision draws agent_id agent perception self = Return d
    /\ action d <> name.
Proof.
  intros Hname Hrecent.
  destruct (get_simulated_decision_In draws agent_id agent perception self)
    as (d & Hin & ->).
  pose proof (candidates_avoid name draws agent_id agent perception self
                Hname Hrecent) as Hall.
  rewrite List.Forall_forall in Hall.
  exists (pop_weight d). split; [reflexivity|]. exact (Hall d Hin).
Qed.

Lemma fallback_avoids_recent_money_action_witness :
  exists d : Decision,
    get_simulated_decision Samples.low_draw "sam_ortiz" Samples.streamer
      Samples.alone Samples.evening
    = Return d
    /\ action d <> "stream_for_donations".
Proof.
  apply (fallback_avoids_recent_money_action "stream_for_donations"
           Samples.low_draw "sam_ortiz" Samples.streamer Samples.alone
           Samples.evening).
  - now left.
  - reflexivity.
Defined.

End Repetition.

Section InteractionTypes.
Import Py Interactions.

Lemma choice_In {A} (draw : nat) (l : list A) (d : A) :
  l <> [] -> In (choice draw l d) l.
Proof.
  intros Hne. unfold choice. apply nth_In.
  apply Nat.mod_upper_bound. destruct l; [congruence|discriminate].
Qed.

(** X16: the type of interaction that [determine_interaction_type] names
    does not depend on which character comes first, for the same draw,
    and it is class tension exactly when the two amounts of money, read
    as floats, differ by more than 10000 as floats and one of them is
    under 100. *)
Theorem determine_interaction_type_symmetric (pick : nat)
    (char1 char2 : Agent) (location : string) :
  determine_interaction_type pick char1 char2 location
  = determine_interaction_type pick char2 char1 location
  /\ (determine_interaction_type pick char1 char2 location = "class_tension"
      <-> (10000 < Qabs (float_sub (float_of (money_read char1))
                           (float_of (money_read char2))))%Q
          /\ ((float_of (money_read char1) < 100)%Q
              \/ (float_of (money_read char2) < 100)%Q)).
Proof.
  split.
  - unfold determine_interaction_type.
    rewrite (Qltb_gap_sym (float_of (default 100%Q (money char1)))),
      (andb_comm (Qltb (float_of (default 100%Q (money char1))) 100)),
      (orb_comm (Qltb (float_of (default 100%Q (money char1))) 100)).
    reflexivity.
  - unfold determine_interaction_type, money_read.
    set (money1 := float_of (default 100%Q (money char1))).
    set (money2 := float_of (default 100%Q (money char2))).
    destruct (Qltb 10000 (Qabs (float_sub money1 money2))) eqn:Egap.
    + apply Qltb_true in Egap.
      destruct (Qltb money1 100) eqn:E1; cbn [orb].
      * apply Qltb_true in E1. tauto.
      * apply Qltb_false in E1.
        destruct (Qltb money2 100) eqn:E2.
        -- apply Qltb_true in E2. tauto.
        -- apply Qltb_false in E2. split; [discriminate|].
           intros [_ [H|H]]; lra.
    + apply Qltb_false in Egap.
      split; [|intros [H _]; lra].
      intros Hlabel. exfalso.
      destruct (Qltb money1 100 && Qltb money2 100).
      * pose proof (choice_In pick
          ["solidarity"; "resource_sharing"; "commiseration"; "collaboration"]
          "solidarity") as Hin.
        rewrite Hlabel in Hin. cbn [In] in Hin.
        destruct Hin as [H|[H|[H|[H|[]]]]]; discriminate.
      * destruct (contains "tech" location || contains "office" location);
          [discriminate|].
        destruct (contains "coffee" location); [discriminate|].
        destruct (contains "library" location); [|discriminate].
        destruct (Qltb money1 100 || Qltb money2 100); discriminate.
Qed.

(** The amounts themselves can differ by more than 10000 where their
    floats do not: 10043.000000000000000001 and 43 are 10000.0 apart as
    floats, and at the library the pair meets in quiet desperation. *)
Example gap_is_measured_on_floats :
  let rich := mkAgent (Some 10043.000000000000000001%Q) None None in
  let poor := mkAgent (Some 43%Q) None None in
  (10000 < Qabs (money_read rich - money_read poor))%Q
  /\ (money_read poor < 100)%Q
  /\ determine_interaction_type 0 rich poor "public_library"
     = "quiet_desperation".
Proof. vm_compute. repeat split. Qed.

End InteractionTypes.

Section RelationshipRecords.
Import Py Interactions.

Lemma update_relationship_lookup (now : Z) (char1 char2 : string)
    (changes : Change) (interaction : Interaction) (self : System)
    (key : string) :
  relationships (update_relationship now char1 char2 changes interaction self)
    !! key
  = if decide (char1 ++ "_" ++ char2 = key)%string
    then
      let rel :=
        default (mkRelationship char1 char2 0 0 [] "stranger")
          (relationships self !! key) in
      let trust := trust rel + default 0 (d_trust changes) in
      let affinity := affinity rel + default 0 (d_affinity changes) in
      let history :=
        history rel
          ++ [mkHistoryEntry now (default "interaction" (i_type interaction))
                (default "unknown" (outcome interaction))] in
      Some
        (mkRelationship (character1 rel) (character2 rel) trust affinity
           history (relationship_type trust affinity (length history)))
    else relationships self !! key.
Proof.
  unfold update_relationship. cbn [relationships].
  case_decide as E.
  - subst key. now rewrite lookup_insert_eq.
  - now rewrite lookup_insert_ne.
Qed.

Lemma update_relationship_consistent (now : Z) (char1 char2 : string)
    (changes : Change) (interaction : Interaction) (self : System) :
  consistent (relationships self) ->
  consistent
    (relationships
       (update_relationship now char1 char2 changes interaction self)).
Proof.
  intros Hcons key rel. rewrite update_relationship_lookup.
  case_decide as E.
  - cbv zeta. intros [= <-]. reflexivity.
  - apply Hcons.
Qed.

Lemma apply_interaction_effects_relationships (now : Z)
    (char1_id char2_id : string) (interaction : Interaction)
    (self after : System) :
  apply_interaction_effects now char1_id char2_id interaction self
  = Return after ->
  relationships after
  = relationships
      (update_relationship now char1_id char2_id
         (default (mkChange None None) (relationship_change interaction))
         interaction self).
Proof.
  unfold apply_interaction_effects. intros H.
  destruct (agents self !! char1_id) as [a1|];
    [destruct (memory_for_char1 interaction) as [memory1|];
     [|discriminate H]|];
    cbn [bind item] in H;
    (match type of H with
     | context [match ?x with _ => _ end] => destruct x as [a2|]
     end;
     [destruct (memory_for_char2 interaction) as [memory2|];
      [|discriminate H]|]);
    cbn [bind item] in H;
    (destruct (resource_exchange interaction)
       as [[[giver|] [receiver|] [number|]]|];
     try discriminate H);
    cbn [bind item from to amount] in H;
    injection H as <-; reflexivity.
Qed.

Lemma get_relationship_status_consistent (char1 char2 : string)
    (self : System) :
  consistent (relationships self) ->
  let status := get_relationship_status char1 char2 self in
  s_type status
  = relationship_type (s_trust status) (s_affinity status)
      (length (s_history status)).
Proof.
  intros Hcons. unfold get_relationship_status.
  destruct (relationships self !! (char1 ++ "_" ++ char2)%string)
    as [rel|] eqn:E1.
  - apply (Hcons _ _ E1).
  - destruct (relationships self !! (char2 ++ "_" ++ char1)%string)
      as [rel|] eqn:E2.
    + apply (Hcons _ _ E2).
    + reflexivity.
Qed.

(** X17: when the type stored with every relationship is the one that
    its scores and its history give, it is still so after an encounter
    has been applied, and the status read for any pair, known or not,
    has the type that its own scores give; such a type is never
    "enemy". *)
Theorem relationship_types_stay_consistent (now : Z)
    (char1_id char2_id : string) (interaction : Interaction)
    (self after : System) (a b : string) :
  consistent (relationships self) ->
  apply_interaction_effects now char1_id char2_id interaction self
  = Return after ->
  let status := get_relationship_status a b after in
  consistent (relationships after)
  /\ s_type status
     = relationship_type (s_trust status) (s_affinity status)
         (length (s_history status))
  /\ s_type status <> "enemy".
Proof.
  intros Hcons Hret status.
  assert (Hafter : consistent (relationships after)).
  { rewrite (apply_interaction_effects_relationships _ _ _ _ _ _ Hret).
    now apply update_relationship_consistent. }
  assert (Hstatus := get_relationship_status_consistent a b after Hafter).
  cbv zeta in Hstatus. fold status in Hstatus.
  split; [exact Hafter|]. split; [exact Hstatus|].
  rewrite Hstatus. apply relationship_type_not_enemy.
Qed.

Lemma relationship_types_stay_consistent_witness :
  let after := Samples.after_gift in
  let status := get_relationship_status "jamie_rodriguez" "alex_chen" after in
  consistent (relationships after)
  /\ s_type status
     = relationship_type (s_trust status) (s_affinity status)
         (length (s_history status))
  /\ s_type status <> "enemy".
Proof.
  apply (relationship_types_stay_consistent 360 "alex_chen" "jamie_rodriguez"
           (Samples.gift (NInt 5)) Samples.system0 Samples.after_gift
           "jamie_rodriguez" "alex_chen").
  - intros key rel. vm_compute. discriminate.
  - vm_compute. reflexivity.
Defined.

(** X18: after [update_relationship] the status of the pair, asked in
    the order of the call, is the record kept under the key of that
    order: its scores are those that were kept under that key (zero when
    the key is new, also when the pair is known in the other order) plus
    the changes, its history is one entry longer, and its newest entry
    is the encounter; a record under any other key is as before. *)
Theorem update_relationship_reads_back (now : Z) (char1 char2 : string)
    (changes : Change) (interaction : Interaction) (self : System) :
  let key := (char1 ++ "_" ++ char2)%string in
  let before :=
    default (mkRelationship char1 char2 0 0 [] "stranger")
      (relationships self !! key) in
  let after := update_relationship now char1 char2 changes interaction self in
  let status := get_relationship_status char1 char2 after in
  s_trust status = trust before + default 0 (d_trust changes)
  /\ s_affinity status = affinity before + default 0 (d_affinity changes)
  /\ s_history status
     = history before
         ++ [mkHistoryEntry now (default "interaction" (i_type interaction))
               (default "unknown" (outcome interaction))]
  /\ forall other : string,
       other <> key ->
       relationships after !! other = relationships self !! other.
Proof.
  intros key before after status.
  assert (Hkey : relationships after !! key
                 = Some
                     (mkRelationship (character1 before) (character2 before)
                        (trust before + default 0 (d_trust changes))
                        (affinity before + default 0 (d_affinity changes))
                        (history before
                           ++ [mkHistoryEntry now
                                 (default "interaction" (i_type interaction))
                                 (default "unknown" (outcome interaction))])
                        (relationship_type
                           (trust before + default 0 (d_trust changes))
                           (affinity before + default 0 (d_affinity changes))
                           (length
                              (history before
                                 ++ [mkHistoryEntry now
                                       (default "interaction"
                                          (i_type interaction))
                                       (default "unknown"
                                          (outcome interaction))]))))).
  { subst after. rewrite update_relationship_lookup.
    rewrite decide_True by reflexivity. reflexivity. }
  subst status. unfold get_relationship_status. fold key. rewrite Hkey.
  cbn [status_of s_trust s_affinity s_history].
  repeat split.
  intros other Hother. subst after. rewrite update_relationship_lookup.
  rewrite decide_False; [reflexivity|].
  intros E. apply Hother. symmetry. exact E.
Qed.

End RelationshipRecords.

Section FallbackEncounter.
Import Py Interactions.




(** The premises on the holdings are met by amounts of two decimals:
    53.09 and 4.35 read back unchanged. *)
Example two_decimals_read_back :
  (decimal_str (float_of 53.09) == 53.09)%Q
  /\ (decimal_str (float_of 4.35) == 4.35)%Q
  /\ (decimal_str (float_of 43) == 43)%Q.
Proof. vm_compute. repeat split. Qed.

(** They are not met by every amount: a holding of 0.1234567890123456789
    is written as 0.12345678901234568, which is more, and its holder,
    the richer of two, is left below zero. *)
Example fallback_gift_can_overdraw :
  let holdings := 0.1234567890123456789%Q in
  let self :=
    mkSystem
      (<["alex_chen" := mkAgent (Some holdings) (Some []) None]>
         (<["jamie_rodriguez" := mkAgent (Some 0%Q) (Some []) None]> ∅)) ∅ in
  (decimal_str (float_of holdings) == 0.12345678901234568)%Q
  /\ match
       get_fallback_interaction Samples.two_decimals "alex_chen"
         "jamie_rodriguez" "resource_sharing" self
     with
     | Return (_, interaction) =>
         match
           apply_interaction_effects 360 "alex_chen" "jamie_rodriguez"
             interaction self
         with
         | Return after =>
             exists m : Q,
               money_of "alex_chen" after = Some m /\ (m < 0)%Q
         | Raise _ => False
         end
     | Raise _ => False
     end.
Proof. vm_compute. split; [reflexivity|]. eexists. split; reflexivity. Qed.

End FallbackEncounter.

Section Sessions.
Import Py Persistent.

Lemma remember_kept (now : Z) (memory : string) (self : Character)
    (table : Table) :
  memories (fst (remember now memory self table))
  = (if (30 <=? length (memories self))%nat
     then tl (memories self) else memories self)
    ++ [stamped (now, memory)].
Proof.
  unfold remember, memory_cap. cbn [fst memories].
  rewrite length_app. cbn [length].
  destruct (30 <=? length (memories self))%nat eqn:E.
  - apply Nat.leb_le in E.
    assert (L : (30 <? length (memories self) + 1)%nat = true)
      by (apply Nat.ltb_lt; lia).
    rewrite L. destruct (memories self); [simpl in E; lia|reflexivity].
  - apply Nat.leb_gt in E.
    assert (L : (30 <? length (memories self) + 1)%nat = false)
      by (apply Nat.ltb_ge; lia).
    now rewrite L.
Qed.

(** X21: what [remember] keeps is what a later session loads.  The
    entry goes last, after the memories held before, less the oldest
    one when there were 30 or more; when the table can be reached, a
    character made afterwards under the same name is the row of the one
    that remembered, with its memories and its location and with every
    number among its resources as the Decimal that the table hands
    back, and when it cannot, that character starts again from its
    profile. *)
Theorem remembered_is_reloaded (now : Z) (memory : string) (self : Character)
    (table : Table) :
  let remembered := remember now memory self table in
  let reloaded := load_or_create (name self) (snd remembered) in
  memories (fst remembered)
  = (if (30 <=? length (memories self))%nat
     then tl (memories self) else memories self)
    ++ [stamped (now, memory)]
  /\ reloaded
     = (if reachable table then (from_item (fst remembered), snd remembered)
        else (profile (name self), table))
  /\ (reachable table = true ->
      memories (fst reloaded) = memories (fst remembered)
      /\ location (fst reloaded) = location self
      /\ resources (fst reloaded)
         = map (fun entry => (fst entry, from_table (snd entry)))
             (resources self)).
Proof.
  intros remembered reloaded.
  assert (Hload : reloaded
                  = (if reachable table
                     then (from_item (fst remembered), snd remembered)
                     else (profile (name self), table))).
  { subst reloaded remembered. unfold remember, load_or_create, save.
    cbn [fst snd name].
    destruct (reachable table) eqn:Hreach.
    - cbn [reachable rows]. now rewrite lookup_insert_eq.
    - now rewrite Hreach. }
  split; [apply remember_kept|]. split; [exact Hload|].
  intros Hreach. rewrite Hload, Hreach. now repeat split.
Qed.

(** X22: [get_character] loads a character once.  After the first call
    the character is in the registry of the narrative, and a later call
    returns it and changes nothing, whatever the table holds by then. *)
Theorem get_character_loads_once (name : string) (self : Narrative)
    (later : Table) :
  let char := fst (get_character name self) in
  let self' := snd (get_character name self) in
  let seen := mkNarrative (world self') (characters self') later in
  dict_get name (characters self') = Some char
  /\ get_character name self' = (char, self')
  /\ get_character name seen = (char, seen).
Proof.
  intros char self' seen.
  assert (Hreg := get_character_registered name self).
  fold char self' in Hreg.
  split; [exact Hreg|].
  unfold get_character. subst seen. cbn [characters].
  now rewrite Hreg.
Qed.




Lemma profile_has_money (name : string) :
  exists (n : Z) (rest : list (string * Value)),
    resources (profile name) = ("money", VNum n) :: rest.
Proof.
  unfold profile.
  destruct (String.eqb name "alex_chen"); [do 2 eexists; reflexivity|].
  destruct (String.eqb name "jamie_rodriguez"); [do 2 eexists; reflexivity|].
  destruct (String.eqb name "sarah_kim"); do 2 eexists; reflexivity.
Qed.

Lemma profile_name (name : string) : Persistent.name (profile name) = name.
Proof.
  unfold profile.
  destruct (String.eqb name "alex_chen"); [reflexivity|].
  destruct (String.eqb name "jamie_rodriguez"); [reflexivity|].
  destruct (String.eqb name "sarah_kim"); reflexivity.
Qed.

(** X27: a character does not act in the session after the one that
    made it.  The first session, the table within reach and without a
    row for the name, makes the character from its profile and saves
    it; the resources of the profile can be dumped, its money being an
    [int].  A narrative that starts afterwards with that table loads the
    row, the money now a Decimal, and [process_action] raises
    [TypeError] for every reply, before anything is remembered. *)
Theorem reloaded_character_cannot_act (now : Z) (character_name : string)
    (reply : option Decision) (w : World) (table : Table) :
  reachable table = true ->
  rows table !! character_name = None ->
  let first := load_or_create character_name table in
  fst first = profile character_name
  /\ resources_dumped (fst first) = true
  /\ rows (snd first) !! character_name = Some (profile character_name)
  /\ process_action now character_name reply (mkNarrative w [] (snd first))
     = Raise (TypeError "Object of type Decimal is not JSON serializable").
Proof.
  intros Hreach Hnone first.
  assert (Hfirst : first
                   = (profile character_name,
                      mkTable true
                        (<[character_name := profile character_name]>
                           (rows table)))).
  { subst first. unfold load_or_create, save.
    now rewrite Hreach, Hnone, profile_name. }
  rewrite Hfirst. cbn [fst snd rows].
  split; [reflexivity|]. split.
  { unfold profile.
    destruct (String.eqb character_name "alex_chen"); [reflexivity|].
    destruct (String.eqb character_name "jamie_rodriguez"); [reflexivity|].
    destruct (String.eqb character_name "sarah_kim"); reflexivity. }
  split; [apply lookup_insert_eq|].
  apply process_action_raises.
  unfold get_character, load_or_create.
  cbn [characters dict_get Persistent.table reachable rows fst].
  rewrite lookup_insert_eq. cbn [fst].
  destruct (profile_has_money character_name) as (n & rest & Hres).
  unfold resources_dumped, from_item. cbn [resources]. now rewrite Hres.
Qed.

Lemma reloaded_character_cannot_act_witness :
  let first := load_or_create "alex_chen" (mkTable true ∅) in
  fst first = profile "alex_chen"
  /\ resources_dumped (fst first) = true
  /\ rows (snd first) !! "alex_chen" = Some (profile "alex_chen")
  /\ process_action 1200 "alex_chen" (Some Samples.to_the_cafe)
       (mkNarrative create_new_world [] (snd first))
     = Raise (TypeError "Object of type Decimal is not JSON serializable").
Proof.
  apply (reloaded_character_cannot_act 1200 "alex_chen"
           (Some Samples.to_the_cafe) create_new_world (mkTable true ∅));
    reflexivity.
Defined.

End Sessions.

(** ** What a character sees, and the encounters of the perception system *)

Section Visible.
Import Py WorldView.

Lemma describe_character_appearance_id (character_id : string) :
  field "id" (describe_character_appearance character_id)
  = Some (DStr character_id).
Proof.
  unfold describe_character_appearance, appearances.
  cbn [dict_get].
  repeat match goal with
  | |- context [String.eqb character_id ?k] =>
      let E := fresh "E" in
      destruct (String.eqb character_id k) eqn:E;
      [apply String.eqb_eq in E; subst character_id; reflexivity|]
  end.
  reflexivity.
Qed.

(** X25: the characters that [get_visible_characters] shows at a place
    are, in their order, those that its table puts there, the observer
    left out; each is shown under its own id, and no entry shown has the
    id of the observer. *)
Theorem observer_is_not_shown (location observer_id : string) :
  let present := default [] (dict_get location character_locations) in
  let visible := items (get_visible_characters location observer_id) in
  get_visible_characters location observer_id = DList visible
  /\ map (field "id") visible
     = map (fun char_id => Some (DStr char_id))
         (List.filter (fun char_id => negb (String.eqb char_id observer_id))
            present)
  /\ ~ In (Some (DStr observer_id)) (map (field "id") visible)
  /\ forall char_id : string,
       In char_id present ->
       char_id <> observer_id ->
       In (describe_character_appearance char_id) visible.
Proof.
  intros present visible.
  assert (Hids : map (field "id") visible
                 = map (fun char_id => Some (DStr char_id))
                     (List.filter
                        (fun char_id => negb (String.eqb char_id observer_id))
                        present)).
  { subst visible. unfold get_visible_characters. cbn [items]. fold present.
    rewrite map_map. apply map_ext. intros c.
    apply describe_character_appearance_id. }
  split; [reflexivity|]. split; [exact Hids|]. split.
  - rewrite Hids. intros Hin. apply in_map_iff in Hin.
    destruct Hin as (c & Hc & Hfilter).
    apply filter_In in Hfilter. destruct Hfilter as [_ Hnot].
    injection Hc as ->. now rewrite String.eqb_refl in Hnot.
  - intros char_id Hin Hne. subst visible.
    unfold get_visible_characters. cbn [items]. fold present.
    apply in_map, filter_In. split; [exact Hin|].
    destruct (String.eqb char_id observer_id) eqn:E; [|reflexivity].
    apply String.eqb_eq in E. contradiction.
Qed.

End Visible.

Section PerceivedEncounters.
Import Py WorldView.

Lemma mem_In (x : string) (l : list string) : mem x l = true <-> In x l.
Proof.
  unfold mem. rewrite existsb_exists. split.
  - intros (y & Hin & Heq). apply String.eqb_eq in Heq. now subst y.
  - intros Hin. exists x. split; [exact Hin|apply String.eqb_refl].
Qed.

(** X26: the type that [determine_encounter_type] gives to a meeting
    does not depend on the order in which the characters are listed.
    It is a class collision exactly when a poor and an ultra wealthy
    character are among them, and [detect_encounter] reports a meeting,
    of that type and with the characters as listed, exactly when there
    are two of them or more. *)
Theorem encounter_type_ignores_order (seconds now location : string)
    (characters characters' : list string) :
  Permutation characters characters' ->
  determine_encounter_type characters = determine_encounter_type characters'
  /\ (determine_encounter_type characters = "class_collision"
      <-> (exists c, In c characters /\ tier_of c = "poor")
          /\ (exists c, In c characters /\ tier_of c = "ultra_wealthy"))
  /\ detect_encounter seconds now location characters
     = if (length characters <? 2)%nat then None
       else Some
              (mkEncounter ("encounter_" ++ seconds) location characters
                 (determine_encounter_type characters') now).
Proof.
  intros Hperm.
  assert (Hsame : determine_encounter_type characters
                  = determine_encounter_type characters').
  { unfold determine_encounter_type, mem.
    pose proof (Permutation_map tier_of Hperm) as Htiers.
    rewrite (existsb_Permutation (String.eqb "poor") _ _ Htiers),
      (existsb_Permutation (String.eqb "ultra_wealthy") _ _ Htiers),
      (forallb_Permutation (fun t => String.eqb t "poor") _ _ Htiers),
      (forallb_Permutation
         (fun t => existsb (String.eqb t) ["wealthy"; "ultra_wealthy"])
         _ _ Htiers).
    reflexivity. }
  split; [exact Hsame|]. split.
  - unfold determine_encounter_type.
    destruct (mem "poor" (map tier_of characters)) eqn:Hpoor;
      destruct (mem "ultra_wealthy" (map tier_of characters)) eqn:Hultra;
      cbn [andb].
    + split; [intros _|reflexivity].
      apply mem_In, in_map_iff in Hpoor. apply mem_In, in_map_iff in Hultra.
      destruct Hpoor as (c & Hc & Hin). destruct Hultra as (c' & Hc' & Hin').
      split; [exists c|exists c']; now split.
    + split.
      * destruct (forallb _ _); [discriminate|].
        destruct (forallb _ _); discriminate.
      * intros [_ (c & Hin & Hc)]. exfalso.
        assert (Hmem : mem "ultra_wealthy" (map tier_of characters) = true).
        { apply mem_In, in_map_iff. exists c. now split. }
        congruence.
    + split.
      * destruct (forallb _ _); [discriminate|].
        destruct (forallb _ _); discriminate.
      * intros [(c & Hin & Hc) _]. exfalso.
        assert (Hmem : mem "poor" (map tier_of characters) = true).
        { apply mem_In, in_map_iff. exists c. now split. }
        congruence.
    + split.
      * destruct (forallb _ _); [discriminate|].
        destruct (forallb _ _); discriminate.
      * intros [(c & Hin & Hc) _]. exfalso.
        assert (Hmem : mem "poor" (map tier_of characters) = true).
        { apply mem_In, in_map_iff. exists c. now split. }
        congruence.
  - unfold detect_encounter. now rewrite Hsame.
Qed.

Lemma encounter_type_ignores_order_witness :
  determine_encounter_type ["alex_chen"; "madison_worthington"; "tyler_chen"]
  = determine_encounter_type ["tyler_chen"; "alex_chen"; "madison_worthington"]
  /\ (determine_encounter_type
        ["alex_chen"; "madison_worthington"; "tyler_chen"]
      = "class_collision"
      <-> (exists c,
              In c ["alex_chen"; "madison_worthington"; "tyler_chen"]
              /\ tier_of c = "poor")
          /\ (exists c,
                In c ["alex_chen"; "madison_worthington"; "tyler_chen"]
                /\ tier_of c = "ultra_wealthy"))
  /\ detect_encounter "1730643000.25" "2024-11-03T14:10:00.250000"
       "public_library" ["alex_chen"; "madison_worthington"; "tyler_chen"]
     = if (length ["alex_chen"; "madison_worthington"; "tyler_chen"] <? 2)%nat
       then None
       else Some
              (mkEncounter ("encounter_" ++ "1730643000.25") "public_library"
                 ["alex_chen"; "madison_worthington"; "tyler_chen"]
                 (determine_encounter_type
                    ["tyler_chen"; "alex_chen"; "madison_worthington"])
                 "2024-11-03T14:10:00.250000").
Proof.
  apply (encounter_type_ignores_order "1730643000.25"
           "2024-11-03T14:10:00.250000" "public_library"
           ["alex_chen"; "madison_worthington"; "tyler_chen"]
           ["tyler_chen"; "alex_chen"; "madison_worthington"]).
  apply Permutation_sym.
  apply (Permutation_cons_app ["alex_chen"; "madison_worthington"] []
           "tyler_chen").
  rewrite app_nil_r. apply Permutation_refl.
Defined.

End PerceivedEncounters.
